(** * Solana token sniper: ingestion and decision pipeline

    A shallow embedding of the TypeScript sources
      - [src/index.ts]                        (gate, check chain, purchase step,
                                               websocket and gRPC listeners),
      - [src/utils/handlers/tokenHandler.ts]  (authority lookup, quick-rug-pull),
      - [src/utils/handlers/sniperooHandler.ts] ([buyToken] and its retry loop),
    together with the properties the specification states about them.

    Conventions of the embedding.
      - A JavaScript string is a [string]: a sequence of code units below 256.
      - A JavaScript integer (counter, slot, epoch time) is a [Z]; a JavaScript
        number that may be fractional (amounts, percentages) is a [Q].
      - A value that may be [undefined] or [null] is an [option].
      - A promise that may reject is a [result]; [await] of a rejected promise
        throws at the point of the [await].
      - Module state ([activeTransactions], [CURRENT_MINT]) is an explicit
        [State]; an async function is a tree [Prog] whose [Await] nodes are
        the points where the event loop may run something else. *)

From Stdlib Require Import List String Ascii ZArith QArith Bool Arith Lia.
From Equations Require Import Equations.
Import ListNotations.

Local Open Scope string_scope.
Local Open Scope Z_scope.

Set Implicit Arguments.

(* ===================================================================== *)
(** ** JavaScript strings                                                 *)
(* ===================================================================== *)

Module JsString.

(** [WhiteSpace] and [LineTerminator] code units below 256: TAB, LF, VT,
    FF, CR, SPACE and NBSP.  These are what [String.prototype.trim]
    strips. *)
Definition isWhiteSpace (c : ascii) : bool :=
  let n := nat_of_ascii c in
  (Nat.leb 9 n && Nat.leb n 13) || Nat.eqb n 32 || Nat.eqb n 160.

Fixpoint trimStart (s : string) : string :=
  match s with
  | EmptyString => EmptyString
  | String c t => if isWhiteSpace c then trimStart t else s
  end.

(** [trimEnd] keeps a character when it is not white space or when
    something that survives follows it. *)
Fixpoint trimEnd (s : string) : string :=
  match s with
  | EmptyString => EmptyString
  | String c t =>
      match trimEnd t with
      | EmptyString => if isWhiteSpace c then EmptyString else String c EmptyString
      | t' => String c t'
      end
  end.

Definition trim (s : string) : string := trimEnd (trimStart s).

(** Lower-casing of one code unit: A-Z, and the Latin-1 capitals
    (0xC0-0xDE except the multiplication sign 0xD7). *)
Definition lowerChar (c : ascii) : ascii :=
  let n := nat_of_ascii c in
  if (Nat.leb 65 n && Nat.leb n 90)
     || (Nat.leb 192 n && Nat.leb n 222 && negb (Nat.eqb n 215))
  then ascii_of_nat (n + 32) else c.

Fixpoint toLowerCase (s : string) : string :=
  match s with
  | EmptyString => EmptyString
  | String c t => String (lowerChar c) (toLowerCase t)
  end.

Fixpoint startsWith (s p : string) : bool :=
  match p, s with
  | EmptyString, _ => true
  | String _ _, EmptyString => false
  | String a p', String b s' => Ascii.eqb a b && startsWith s' p'
  end.

(** [s.includes(sub)]: [sub] starts at some position of [s]. *)
Fixpoint includes (s sub : string) : bool :=
  startsWith s sub
  || match s with
     | EmptyString => false
     | String _ t => includes t sub
     end.

(** [s.endsWith(suf)]: [suf] starts exactly [length suf] before the end. *)
Fixpoint endsWith (s suf : string) : bool :=
  String.eqb s suf
  || match s with
     | EmptyString => false
     | String _ t => endsWith t suf
     end.

(** Truthiness of a string: only the empty string is falsy. *)
Definition truthy (s : string) : bool := negb (String.eqb s "").

(** [a || b] on a possibly undefined string. *)
Definition or_else (a : option string) (b : string) : string :=
  match a with
  | Some s => if truthy s then s else b
  | None => b
  end.

End JsString.

(* ===================================================================== *)
(** ** Promises that may reject                                           *)
(* ===================================================================== *)

(** The value carried by a JavaScript exception; only its message matters. *)
Definition JsError := string.

Inductive result (A : Type) : Type :=
| Ok (a : A)
| Err (e : JsError).
Arguments Ok {A} a.
Arguments Err {A} e.

Module Res.
Definition bind {A B} (r : result A) (f : A -> result B) : result B :=
  match r with
  | Ok a => f a
  | Err e => Err e
  end.

(** [try { body } catch (error) { handler }]. *)
Definition try_catch {A} (body : result A) (handler : JsError -> result A)
  : result A :=
  match body with
  | Ok a => Ok a
  | Err e => handler e
  end.
End Res.

Declare Scope res_scope.
Delimit Scope res_scope with res.
Notation "x <- r ;; k" := (Res.bind r (fun x => k))
  (at level 61, r at next level, right associativity) : res_scope.

(* ===================================================================== *)
(** ** Stream-variant mint resolution ([getMintFromTokenBalances])       *)
(* ===================================================================== *)

Record TokenBalance := mkTokenBalance {
  accountIndex : Z;
  mint : string
}.

(** The [for (const balance of tokenBalances)] loop of lines 371-376. *)
Fixpoint firstNonWsol (WSOL_MINT : string) (tokenBalances : list TokenBalance)
  : option string :=
  match tokenBalances with
  | [] => None
  | balance :: rest =>
      if negb (String.eqb (mint balance) WSOL_MINT) then Some (mint balance)
      else firstNonWsol WSOL_MINT rest
  end.

Definition getMintFromTokenBalances (WSOL_MINT : string)
  (tokenBalances : list TokenBalance) : option string :=
  match tokenBalances with
  | [b0; b1] =>
      let mint1 := mint b0 in
      let mint2 := mint b1 in
      if String.eqb mint1 WSOL_MINT then
        (if String.eqb mint2 WSOL_MINT then None else Some mint2)
      else if String.eqb mint2 WSOL_MINT then Some mint1
      else Some mint1
  | _ => firstNonWsol WSOL_MINT tokenBalances
  end.

(* ===================================================================== *)
(** ** tokenHandler.ts                                                    *)
(* ===================================================================== *)

Module TokenHandler.

(** What [getMint] of [@solana/spl-token] returns, as far as it is read. *)
Record MintInfo := mkMintInfo {
  mintAuthority : option string;
  freezeAuthority : option string;
  supply : Z;
  decimals : Z
}.

(** One entry of [getSignaturesForAddress]; the provider lists the newest
    transaction first. *)
Record ConfirmedSignatureInfo := mkSignatureInfo {
  signature : string;
  slot : Z
}.

(** The RPC connection and the clock, as the handler observes them during
    one call.  [PublicKey_new] is the [PublicKey] constructor, which throws
    on a string that is not a key; the three RPC methods reject when the
    provider is unreachable; [Date_now] is in milliseconds. *)
Record Connection := mkConnection {
  PublicKey_new : string -> result string;
  getMint : string -> result MintInfo;
  getSignaturesForAddress : string -> result (list ConfirmedSignatureInfo);
  getBlockTime : Z -> result (option Z);
  Date_now : Z
}.

Record TokenAuthorityStatus := mkStatus {
  mintAddress : string;
  hasMintAuthority : bool;
  hasFreezeAuthority : bool;
  mintAuthorityAddress : option string;
  freezeAuthorityAddress : option string;
  isSecure : bool;
  details_supply : Z;
  details_decimals : Z
}.

(** [!mintAddress || typeof mintAddress !== "string" || mintAddress.trim() === ""] *)
Definition invalidAddress (mintAddress : string) : bool :=
  negb (JsString.truthy mintAddress)
  || String.eqb (JsString.trim mintAddress) "".

Definition is_some {A} (o : option A) : bool :=
  match o with Some _ => true | None => false end.

(** Lines 22-58.  The [catch] logs and throws the error again. *)
Definition getTokenAuthorities (conn : Connection) (mintAddress : string)
  : result TokenAuthorityStatus :=
  Res.try_catch
    (if invalidAddress mintAddress then Err "Invalid mint address"
     else
       (mintPublicKey <- PublicKey_new conn mintAddress ;;
        mintInfo <- getMint conn mintPublicKey ;;
        let hasMintAuthority := is_some (mintAuthority mintInfo) in
        let hasFreezeAuthority := is_some (freezeAuthority mintInfo) in
        Ok {| mintAddress := mintAddress;
              hasMintAuthority := hasMintAuthority;
              hasFreezeAuthority := hasFreezeAuthority;
              mintAuthorityAddress := mintAuthority mintInfo;
              freezeAuthorityAddress := freezeAuthority mintInfo;
              isSecure := negb hasMintAuthority && negb hasFreezeAuthority;
              details_supply := supply mintInfo;
              details_decimals := decimals mintInfo |})%res)
    (fun error => Err error).

(** Lines 65-93.  The [catch] logs and returns [false]. *)
Definition isQuickRugPull (conn : Connection) (mintAddress : string)
  : result bool :=
  Res.try_catch
    (if invalidAddress mintAddress then Err "Invalid mint address"
     else
       (mintPublicKey <- PublicKey_new conn mintAddress ;;
        transactions <- getSignaturesForAddress conn mintPublicKey ;;
        match rev transactions with
        | [] => Ok false
        | oldestTx :: _ =>
            blockTime <- getBlockTime conn (slot oldestTx) ;;
            match blockTime with
            | None => Ok false
            | Some blockTime =>
                if blockTime =? 0 then Ok false
                else
                  let currentTime := Date_now conn / 1000 in
                  Ok (60 <? currentTime - blockTime)
            end
        end)%res)
    (fun error => Ok false).

(** Lines 101-119. *)
Definition isTokenSecure (conn : Connection)
  (allowMintAuthority allowFreezeAuthority : bool) (mintAddress : string)
  : result bool :=
  Res.try_catch
    (authorityStatus <- getTokenAuthorities conn mintAddress ;;
     Ok ((negb (hasMintAuthority authorityStatus) || allowMintAuthority)
         && (negb (hasFreezeAuthority authorityStatus) || allowFreezeAuthority)))%res
    (fun error => Ok false).

End TokenHandler.

(* ===================================================================== *)
(** ** sniperooHandler.ts ([buyToken])                                    *)
(* ===================================================================== *)

Module SniperooHandler.

Definition MAX_RETRIES : nat := 3.
Definition RETRY_DELAY : Z := 200.

Record AutoSell := mkAutoSell {
  enabled : bool;
  strategyName : string;
  profitPercentage : Q;
  stopLossPercentage : Q
}.

Record RequestBody := mkRequestBody {
  walletAddresses : list string;
  body_tokenAddress : string;
  body_inputAmount : Q;
  autoSell : AutoSell
}.

(** The [message] field of an error body.  The body is untyped JSON, so
    the field may hold any value: a string, an array (an item being
    [Some] when it is a string), or a number, a boolean or an object. *)
Inductive JsonMessage :=
| MessageString (s : string)
| MessageArray (items : list (option string))
| MessageOther.

(** The body of an error response.  The handler compares [code_error]
    with a string, which a value of another type never equals, and calls
    [includes] on [message]; a field is [None] when it is missing or
    null. *)
Record ErrorData := mkErrorData {
  code_error : option string;
  message : option JsonMessage
}.

Record Response := mkResponse {
  status : Z;
  data : option ErrorData
}.

(** What [await axios.post(...)] does: it returns on a 2xx answer, throws
    an axios error (with a response, or without one when no answer came),
    or throws something else. *)
Inductive PostOutcome :=
| PostOk
| PostAxiosError (response : option Response)
| PostOtherError (e : JsError).

(** The trading service as seen during one [buyToken] call: the wallet
    from the environment and the outcome of the n-th request. *)
Record Api := mkApi {
  SNIPEROO_PUBKEY : string;
  axios_post : nat -> RequestBody -> PostOutcome
}.

Inductive BuyEvent :=
| BPost (attempt : nat) (body : RequestBody)
| BSleep (ms : Z)
| BLog (msg : string).

(** What calling a missing method throws. *)
Definition includesTypeError : JsError :=
  "TypeError: error.response?.data?.message?.includes is not a function".

(** [message.includes(text)], line 63: a string is searched for [text],
    an array for an item equal to it, and a value of any other type has
    no [includes] method, so that the call throws. *)
Definition messageIncludes (m : JsonMessage) (text : string) : result bool :=
  match m with
  | MessageString s => Ok (JsString.includes s text)
  | MessageArray items =>
      Ok (existsb (fun item =>
                     match item with
                     | Some s => String.eqb s text
                     | None => false
                     end) items)
  | MessageOther => Err includesTypeError
  end.

(** The condition of lines 59-64, evaluated from left to right: the call
    of [includes] is reached only when the three tests before it hold. *)
Definition isRetryable (o : PostOutcome) : result bool :=
  match o with
  | PostAxiosError (Some r) =>
      if status r =? 400 then
        match data r with
        | Some d =>
            if match code_error d with
               | Some c => String.eqb c "INTERNAL_SERVER_ERROR"
               | None => false
               end
            then
              match message d with
              | Some m =>
                  messageIncludes m "Transaction failed due to an unknown reason"
              | None => Ok false
              end
            else Ok false
        | None => Ok false
        end
      else Ok false
  | _ => Ok false
  end.

Definition isZero (x : Q) : bool := Qeq_bool x 0.

(** What lines 76-80 print for an error that is not retried. *)
Definition errorLog (error : PostOutcome) : string :=
  match error with
  | PostOtherError _ => "Error buying token"
  | _ => "Sniperoo API error"
  end.

Section Attempt.
Variable api : Api.
Variables (tokenAddress : string) (inputAmount tp sl : Q).

(** [attemptBuyToken], lines 16-83.  [sell] is the parameter of the
    enclosing [buyToken], which line 28 may overwrite; it is threaded
    through the recursion.  The result is the trace of what the attempt
    did and the value the promise settles with: what is thrown while the
    [catch] block runs rejects it. *)
Equations? attemptBuyToken (sell : bool) (retryCount : nat)
  : list BuyEvent * result bool by wf (MAX_RETRIES - retryCount)%nat lt :=
  attemptBuyToken sell retryCount
    with TokenHandler.invalidAddress tokenAddress => {
    | true => ([], Ok false)
    | false with Qle_bool inputAmount 0 => {
      | true => ([], Ok false)
      | false =>
          let sell' := if isZero tp || isZero sl then false else sell in
          let requestBody :=
            {| walletAddresses := [SNIPEROO_PUBKEY api];
               body_tokenAddress := tokenAddress;
               body_inputAmount := inputAmount;
               autoSell := {| enabled := sell';
                              strategyName := "simple";
                              profitPercentage := tp;
                              stopLossPercentage := sl |} |} in
          match axios_post api retryCount requestBody with
          | PostOk => ([BPost retryCount requestBody], Ok true)
          | error =>
              match isRetryable error, lt_dec retryCount MAX_RETRIES with
              | Err thrown, _ => ([BPost retryCount requestBody], Err thrown)
              | Ok true, left _ =>
                  let '(tr, r) := attemptBuyToken sell' (S retryCount) in
                  (BPost retryCount requestBody
                     :: BLog "Snipe retry attempt"
                     :: BSleep RETRY_DELAY :: tr, r)
              | Ok _, _ =>
                  ([BPost retryCount requestBody; BLog (errorLog error)],
                   Ok false)
              end
          end } }.
Proof.
  all: unfold MAX_RETRIES in *.
  all: do 3 (destruct retryCount as [|retryCount]; [simpl; lia|]).
  all: lia.
Qed.

End Attempt.

(** Lines 10-14 and 86: [buyToken] starts the first attempt.  The
    environment [validateEnv] returns is part of [api]. *)
Definition buyToken (api : Api) (tokenAddress : string) (inputAmount : Q)
  (sell : bool) (tp sl : Q) : list BuyEvent * result bool :=
  attemptBuyToken api tokenAddress inputAmount tp sl sell 0.

End SniperooHandler.

(* ===================================================================== *)
(** ** index.ts: configuration, module state and async programs          *)
(* ===================================================================== *)

Module Index.

Import TokenHandler.

(** *** Configuration ([config.ts], read at start-up) *)

Record Pool := mkPool {
  pool_enabled : bool;
  pool_id : Z;
  pool_program : string;
  pool_instruction : string
}.

Record Config := mkConfig {
  concurrent_transactions : Z;
  checks_mode : option string;
  checks_simulation_mode : option bool;
  allow_mint_authority : option bool;
  allow_freeze_authority : option bool;
  ignore_ends_with_pump : bool;
  token_stream_mode : option string;
  liquidity_pool : list Pool;
  token_buy_provider : string;
  token_buy_sol_amount : Q;
  token_buy_play_sound : option bool;
  token_sell_enabled : option bool;
  token_sell_stop_loss_percent : option Q;
  token_sell_take_profit_percent : option Q;
  wsol_pc_mint : string
}.

(** [x || false] on a possibly undefined boolean. *)
Definition or_false (x : option bool) : bool :=
  match x with Some b => b | None => false end.

(** [x || d] on a possibly undefined number: 0 is falsy. *)
Definition or_number (x : option Q) (d : Q) : Q :=
  match x with
  | Some q => if Qeq_bool q 0 then d else q
  | None => d
  end.

(** *** Payloads of the two transports *)

(** A streamed update, as far as [processGrpcData] reads it. *)
Record TransactionMeta := mkMeta {
  logMessages : option (list string);
  postTokenBalances : option (list TokenBalance);
  preTokenBalances : option (list TokenBalance)
}.

Record TransactionInfo := mkTransactionInfo {
  tx_signature : string;
  meta : option TransactionMeta
}.

Record SubscribeUpdateTransaction := mkUpdateTransaction {
  update_slot : Z;
  transaction : option TransactionInfo
}.

Record SubscribeUpdate := mkUpdate {
  filters : list string;
  update_transaction : option SubscribeUpdateTransaction
}.

(** [grpcManager.ts], lines 76-84: the update carries a transaction
    object (which always has its [slot] and [transaction] keys). *)
Definition isSubscribeUpdateTransaction (data : SubscribeUpdate) : bool :=
  is_some (update_transaction data).

(** A parsed websocket message.  [pd_logs] is [Some] when [logs] is an
    array, an element being [Some] when it is a string; [pd_signature] is
    [Some] when the signature is a string (a missing or non-string
    signature makes the handler return at line 109 or 115 alike). *)
Record ParsedData := mkParsedData {
  pd_result_defined : bool;
  pd_error : bool;
  pd_logs : option (list (option string));
  pd_signature : option string
}.

(** *** Module state (lines 23 and 46) *)

Record State := mkState {
  activeTransactions : Z;
  CURRENT_MINT : string
}.

Definition initialState : State :=
  {| activeTransactions := 0; CURRENT_MINT := "" |}.

(** *** Async programs *)

(** Synchronous effects: accesses to the module state and console or
    notification output.  [activeTransactions++] and
    [activeTransactions--] are single statements of a single-threaded
    program, hence one operation each.  Console lines are quoted without
    the pictograph they start with and without the time stamp some end
    with. *)
Inductive Op :=
| ReadCurrentMint
| WriteCurrentMint (m : string)
| ReadActive
| IncrActive
| DecrActive
| Log (msg : string)
| PlaySound (speech : option string).

Definition OpReply (o : Op) : Type :=
  match o with
  | ReadCurrentMint => string
  | ReadActive => Z
  | _ => unit
  end.

(** Awaited collaborators.  [CTick] is the hop to a later microtask that
    precedes a [.catch] or [.finally] callback of a promise. *)
Inductive Call :=
| CGetMintFromSignature (signature : string)
| CGetTokenAuthorities (mintAddress : string)
| CIsQuickRugPull (mintAddress : string)
| CGetRugCheckConfirmed (mintAddress : string)
| CBuyToken (tokenAddress : string) (inputAmount : Q) (sell : bool) (tp sl : Q)
| CTick.

Definition Reply (c : Call) : Type :=
  match c with
  | CGetMintFromSignature _ => result (option string)
  | CGetTokenAuthorities _ => result TokenAuthorityStatus
  | CIsQuickRugPull _ => result bool
  | CGetRugCheckConfirmed _ => result bool
  | CBuyToken _ _ _ _ _ => result bool
  | CTick => unit
  end.

Inductive Prog (A : Type) : Type :=
| Ret (a : A)
| Throw (e : JsError)
| Sync (o : Op) (k : OpReply o -> Prog A)
| Await (c : Call) (k : Reply c -> Prog A).
Arguments Ret {A} a.
Arguments Throw {A} e.
Arguments Sync {A} o k.
Arguments Await {A} c k.

(** Continue with [f] once [p] has settled, whichever way. *)
Fixpoint settle {A B} (p : Prog A) (f : result A -> Prog B) : Prog B :=
  match p with
  | Ret a => f (Ok a)
  | Throw e => f (Err e)
  | Sync o k => Sync o (fun x => settle (k x) f)
  | Await c k => Await c (fun x => settle (k x) f)
  end.

Definition of_result {A} (r : result A) : Prog A :=
  match r with Ok a => Ret a | Err e => Throw e end.

Definition bind {A B} (p : Prog A) (f : A -> Prog B) : Prog B :=
  settle p (fun r => match r with Ok a => f a | Err e => Throw e end).

(** [promise.catch(handler)] *)
Definition promise_catch {A} (p : Prog A) (handler : JsError -> Prog A)
  : Prog A :=
  settle p (fun r =>
    match r with
    | Ok a => Ret a
    | Err e => Await CTick (fun _ => handler e)
    end).

(** [promise.finally(callback)] *)
Definition promise_finally {A} (p : Prog A) (callback : Prog unit) : Prog A :=
  settle p (fun r =>
    Await CTick (fun _ => bind callback (fun _ => of_result r))).

Declare Scope prog_scope.
Delimit Scope prog_scope with prog.
Notation "x <- p ;; k" := (bind p (fun x => k))
  (at level 61, p at next level, right associativity) : prog_scope.
Notation "p ;; k" := (bind p (fun _ => k))
  (at level 61, right associativity) : prog_scope.
Local Open Scope prog_scope.

Definition readCurrentMint : Prog string := Sync ReadCurrentMint (fun m => Ret m).
Definition writeCurrentMint (m : string) : Prog unit :=
  Sync (WriteCurrentMint m) (fun _ => Ret tt).
Definition readActive : Prog Z := Sync ReadActive (fun n => Ret n).
Definition log (msg : string) : Prog unit := Sync (Log msg) (fun _ => Ret tt).
Definition playSound (speech : option string) : Prog unit :=
  Sync (PlaySound speech) (fun _ => Ret tt).

Definition getMintFromSignature (signature : string) : Prog (option string) :=
  Await (CGetMintFromSignature signature) of_result.
Definition getTokenAuthorities (m : string) : Prog TokenAuthorityStatus :=
  Await (CGetTokenAuthorities m) of_result.
Definition isQuickRugPull (m : string) : Prog bool :=
  Await (CIsQuickRugPull m) of_result.
Definition getRugCheckConfirmed (m : string) : Prog bool :=
  Await (CGetRugCheckConfirmed m) of_result.
Definition buyToken (m : string) (amount : Q) (sell : bool) (tp sl : Q)
  : Prog bool :=
  Await (CBuyToken m amount sell tp sl) of_result.

Section Pipeline.
Variable config : Config.

(** Lines 24-45. *)
Definition MAX_CONCURRENT : Z := concurrent_transactions config.
Definition CHECK_MODE : string := JsString.or_else (checks_mode config) "full".
Definition STREAM_MODE : string :=
  JsString.or_else (token_stream_mode config) "wss".
Definition WSS_SUBSCRIBE_LP : list Pool := liquidity_pool config.
Definition BUY_PROVIDER : string := token_buy_provider config.
Definition BUY_AMOUNT : Q := token_buy_sol_amount config.
Definition SELL_ENABLED : bool := or_false (token_sell_enabled config).
Definition SELL_STOP_LOSS : Q :=
  or_number (token_sell_stop_loss_percent config) 15.
Definition SELL_TAKE_PROFIT : Q :=
  or_number (token_sell_take_profit_percent config) 50.
Definition SIM_MODE : bool := or_false (checks_simulation_mode config).
Definition PLAY_SOUND : bool := or_false (token_buy_play_sound config).
Definition WSOL_MINT : string := wsol_pc_mint config.

Definition lookingAgain : Prog unit :=
  log "[Process Transaction] Looking for new Liquidity Pools again".

(** The swap and everything after it: lines 242-270 of
    [processWebsocketSignature] and 442-469 of [processGrpcMint], which
    differ only in the lines they print at the end ([report]).  Every
    branch of the check chain that does not [return] falls through to
    this code. *)
Definition swapAndReport (returnedMint : string) (report : Prog unit)
  : Prog unit :=
  let afterSwap : Prog unit :=
    (if SIM_MODE then
       log "[Process Transaction] Token not swapped! Simulation Mode turned on." ;;
       (if PLAY_SOUND then playSound (Some "Token found in simulation mode")
        else Ret tt)
     else Ret tt) ;;
    report in
  if String.eqb BUY_PROVIDER "sniperoo" && negb SIM_MODE then
    log "[Process Transaction] Sniping token using Sniperoo..." ;;
    result <- buyToken returnedMint BUY_AMOUNT SELL_ENABLED
                       SELL_TAKE_PROFIT SELL_STOP_LOSS ;;
    if negb result then
      writeCurrentMint "" ;;
      log "[Process Transaction] Token not swapped. Sniperoo failed." ;;
      lookingAgain
    else
      (if PLAY_SOUND then playSound None else Ret tt) ;;
      log "[Process Transaction] Token swapped successfully using Sniperoo" ;;
      afterSwap
  else afterSwap.

(** The [snipe] branch, lines 200-220 and 392-412. *)
Definition snipeCheck (returnedMint : string) (next : Prog unit) : Prog unit :=
  log "[Process Transaction] Performing snipe check" ;;
  tokenAuthorityStatus <- getTokenAuthorities returnedMint ;;
  let passed :=
    log "[Process Transaction] Snipe check passed successfully" ;; next in
  if negb (isSecure tokenAuthorityStatus) then
    let allowMintAuthority := or_false (allow_mint_authority config) in
    let allowFreezeAuthority := or_false (allow_freeze_authority config) in
    if negb allowMintAuthority && hasMintAuthority tokenAuthorityStatus then
      log "[Process Transaction] Token has mint authority, skipping..." ;;
      lookingAgain
    else if negb allowFreezeAuthority
            && hasFreezeAuthority tokenAuthorityStatus then
      log "[Process Transaction] Token has freeze authority, skipping..." ;;
      lookingAgain
    else passed
  else passed.

(** The [pumpdump] branch, lines 413-420 (only in [processGrpcMint]). *)
Definition pumpdumpCheck (returnedMint : string) (next : Prog unit)
  : Prog unit :=
  isDevCheckPassed <- isQuickRugPull returnedMint ;;
  if negb isDevCheckPassed then
    log "[Process Transaction] Dev rug check not passed, skipping..." ;;
    lookingAgain
  else next.

(** The [full] branch, lines 221-237 and 421-437. *)
Definition fullCheck (returnedMint : string) (next : Prog unit) : Prog unit :=
  if JsString.endsWith (JsString.toLowerCase (JsString.trim returnedMint)) "pump"
     && ignore_ends_with_pump config then
    log "[Process Transaction] Token ends with pump, skipping..." ;;
    lookingAgain
  else
    isRugCheckPassed <- getRugCheckConfirmed returnedMint ;;
    if negb isRugCheckPassed then
      log "[Process Transaction] Full rug check not passed, skipping..." ;;
      lookingAgain
    else next.

(** Lines 266-270. *)
Definition reportWebsocket (returnedMint : string) : Prog unit :=
  log "Token Sniped" ;;
  log ("GMGN: https://gmgn.ai/sol/token/" ++ returnedMint) ;;
  log ("BullX: https://neo.bullx.io/terminal?chainId=1399811149&address="
       ++ returnedMint).

(** Lines 466-469. *)
Definition reportGrpc (returnedMint : string) : Prog unit :=
  log "[Process Transaction] Token Sniped" ;;
  log ("[Process Transaction] CA: " ++ returnedMint).

Definition skipDuplicate : Prog unit :=
  log "[Process Transaction] Skipping duplicate mint to prevent mint spamming" ;;
  lookingAgain.

(** What [processWebsocketSignature] does with a candidate once it holds
    the slot: lines 200-270. *)
Definition checkAndSwapWebsocket (returnedMint : string) : Prog unit :=
  let next := swapAndReport returnedMint (reportWebsocket returnedMint) in
  if String.eqb CHECK_MODE "snipe" then snipeCheck returnedMint next
  else if String.eqb CHECK_MODE "full" then fullCheck returnedMint next
  else next.

(** What [processGrpcMint] does with a candidate once it holds the slot:
    lines 392-469. *)
Definition checkAndSwapGrpc (returnedMint : string) : Prog unit :=
  let next := swapAndReport returnedMint (reportGrpc returnedMint) in
  if String.eqb CHECK_MODE "snipe" then snipeCheck returnedMint next
  else if String.eqb CHECK_MODE "pumpdump" then pumpdumpCheck returnedMint next
  else if String.eqb CHECK_MODE "full" then fullCheck returnedMint next
  else next.

(** Lines 170-271. *)
Definition processWebsocketSignature (signature : string) : Prog unit :=
  log "================================================================" ;;
  log "[Process Transaction] New Liquidity Pool signature found" ;;
  log "[Process Transaction] Extracting token CA from signature..." ;;
  log ("https://solscan.io/tx/" ++ signature) ;;
  returnedMint <- getMintFromSignature signature ;;
  match returnedMint with
  | None =>
      log "[Process Transaction] No valid token CA could be extracted" ;;
      lookingAgain
  | Some returnedMint =>
      if negb (JsString.truthy returnedMint) then
        log "[Process Transaction] No valid token CA could be extracted" ;;
        lookingAgain
      else
        log "[Process Transaction] Token CA extracted successfully" ;;
        current <- readCurrentMint ;;
        if String.eqb current returnedMint then skipDuplicate
        else
          writeCurrentMint returnedMint ;;
          checkAndSwapWebsocket returnedMint
  end.

(** Lines 378-470. *)
Definition processGrpcMint (returnedMint : string) : Prog unit :=
  current <- readCurrentMint ;;
  if String.eqb current returnedMint then skipDuplicate
  else
    writeCurrentMint returnedMint ;;
    checkAndSwapGrpc returnedMint.

(** *** Streaming transport: [processGrpcData], lines 312-349 *)

Definition processGrpcData (data : SubscribeUpdate) : Prog unit :=
  if negb (isSubscribeUpdateTransaction data)
     || negb (existsb (String.eqb "pumpswap") (filters data))
  then Ret tt
  else
    match update_transaction data with
    | None => Ret tt
    | Some update =>
    match transaction update with
    | None => Ret tt
    | Some transaction =>
    match meta transaction with
    | None => Ret tt
    | Some meta =>
        if negb match logMessages meta with
                | Some logs =>
                    existsb (fun log => JsString.includes log "CreatePool") logs
                | None => false
                end
        then Ret tt
        else
          log "================================================================" ;;
          log "[Process gRPC update] New Liquidity Pool signature found" ;;
          log "[Process gRPC update] Extracting token CA from signature..." ;;
          let tokenBalances :=
            match postTokenBalances meta with
            | Some l => Some l
            | None => preTokenBalances meta
            end in
          match tokenBalances with
          | None | Some [] => Ret tt
          | Some tokenBalances =>
              let noMint :=
                log "[Process gRPC update] No valid token CA could be extracted" ;;
                log "[Process gRPC update] Looking for new Liquidity Pools again" in
              match getMintFromTokenBalances WSOL_MINT tokenBalances with
              | None => noMint
              | Some tokenMint =>
                  if negb (JsString.truthy tokenMint) then noMint
                  else
                    log "[Process gRPC update] Token CA extracted successfully" ;;
                    processGrpcMint tokenMint
              end
          end
    end end end.

(** *** Socket transport: the [message] handler, lines 87-140 *)

(** [try { body } catch (error) { handler }] inside an async function. *)
Definition try_catch {A} (body : Prog A) (handler : JsError -> Prog A)
  : Prog A :=
  settle body (fun r => match r with Ok a => Ret a | Err e => handler e end).

(** The promise chain of lines 127-133. *)
Definition evaluation (signature : string) : Prog unit :=
  promise_finally
    (promise_catch (processWebsocketSignature signature)
                   (fun error => log "Error processing transaction"))
    (Sync DecrActive (fun _ => Ret tt)).

(** The handler runs to its end without awaiting; what it returns here
    is the promise chain it has started, if any.  [data] is the outcome
    of [JSON.parse]. *)
Definition onMessage (data : result ParsedData) : Prog (option (Prog unit)) :=
  try_catch
    (parsedData <- of_result data ;;
     if pd_result_defined parsedData && negb (pd_error parsedData) then
       log "Websocket Subscription confirmed" ;; Ret None
     else if pd_error parsedData then
       log "RPC Error" ;; Ret None
     else
       match pd_logs parsedData, pd_signature parsedData with
       | Some logs, Some signature =>
           if negb (JsString.truthy signature) then Ret None
           else
             let liquidityPoolInstructions :=
               map pool_instruction (filter pool_enabled WSS_SUBSCRIBE_LP) in
             let containsCreate :=
               existsb (fun log =>
                 match log with
                 | Some log =>
                     existsb (fun instruction => JsString.includes log instruction)
                             liquidityPoolInstructions
                 | None => false
                 end) logs in
             if negb containsCreate then Ret None
             else
               active <- readActive ;;
               if active >=? MAX_CONCURRENT then
                 log "Max concurrent transactions reached, skipping..." ;;
                 Ret None
               else
                 Sync IncrActive (fun _ => Ret tt) ;;
                 Ret (Some (evaluation signature))
       | _, _ => Ret None
       end)
    (fun error => log "Error processing message" ;; Ret None).

End Pipeline.
End Index.

(* ===================================================================== *)
(** ** Semantics of async programs                                        *)
(* ===================================================================== *)

Module Sem.

Import Index.
Local Open Scope list_scope.

(** What an observer sees: console lines, notifications, and the calls
    made to collaborators. *)
Inductive Event :=
| EvLog (msg : string)
| EvSound (speech : option string)
| EvCall (c : Call).

Definition Trace := list Event.

Definition set_active (st : State) (n : Z) : State :=
  {| activeTransactions := n; CURRENT_MINT := CURRENT_MINT st |}.

Definition set_mint (st : State) (m : string) : State :=
  {| activeTransactions := activeTransactions st; CURRENT_MINT := m |}.

(** One synchronous operation. *)
Definition do_op (o : Op) (st : State) : State * OpReply o * Trace :=
  match o return State * OpReply o * Trace with
  | ReadCurrentMint => (st, CURRENT_MINT st, [])
  | WriteCurrentMint m => (set_mint st m, tt, [])
  | ReadActive => (st, activeTransactions st, [])
  | IncrActive => (set_active st (activeTransactions st + 1), tt, [])
  | DecrActive => (set_active st (activeTransactions st - 1), tt, [])
  | Log msg => (st, tt, [EvLog msg])
  | PlaySound speech => (st, tt, [EvSound speech])
  end.

(** Run a program up to its next [await] (or to its end): the part of it
    that executes in one turn of the event loop. *)
Fixpoint advance {A} (p : Prog A) (st : State) : State * Trace * Prog A :=
  match p with
  | Sync o k =>
      let '(st1, x, ev) := do_op o st in
      let '(st2, tr, p') := advance (k x) st1 in
      (st2, ev ++ tr, p')
  | _ => (st, [], p)
  end.

(** *** One evaluation on its own *)

(** The collaborators as they answer during one evaluation.  The two
    handlers whose code is available answer by that code; the signature
    lookup and the rug-check service are given by their outcome. *)
Record World := mkWorld {
  connection : TokenHandler.Connection;
  sniperoo : SniperooHandler.Api;
  signatureLookup : string -> result (option string);
  rugCheck : string -> result bool
}.

Definition answer (w : World) (c : Call) : Reply c :=
  match c return Reply c with
  | CGetMintFromSignature signature => signatureLookup w signature
  | CGetTokenAuthorities m => TokenHandler.getTokenAuthorities (connection w) m
  | CIsQuickRugPull m => TokenHandler.isQuickRugPull (connection w) m
  | CGetRugCheckConfirmed m => rugCheck w m
  | CBuyToken m amount sell tp sl =>
      snd (SniperooHandler.buyToken (sniperoo w) m amount sell tp sl)
  | CTick => tt
  end.

(** Run a program to its end, nothing else being interleaved. *)
Fixpoint run {A} (w : World) (p : Prog A) (st : State)
  : State * Trace * result A :=
  match p with
  | Ret a => (st, [], Ok a)
  | Throw e => (st, [], Err e)
  | Sync o k =>
      let '(st1, x, ev) := do_op o st in
      let '(st2, tr, r) := run w (k x) st1 in
      (st2, ev ++ tr, r)
  | Await c k =>
      let '(st2, tr, r) := run w (k (answer w c)) st in
      (st2, EvCall c :: tr, r)
  end.

Definition final_state {A} (x : State * Trace * result A) : State := fst (fst x).
Definition trace_of {A} (x : State * Trace * result A) : Trace := snd (fst x).
Definition outcome_of {A} (x : State * Trace * result A) : result A := snd x.

Definition is_buy (e : Event) : bool :=
  match e with EvCall (CBuyToken _ _ _ _ _) => true | _ => false end.

Definition is_check (e : Event) : bool :=
  match e with
  | EvCall (CGetTokenAuthorities _)
  | EvCall (CIsQuickRugPull _)
  | EvCall (CGetRugCheckConfirmed _) => true
  | _ => false
  end.

(** A purchase was attempted: [buyToken] was called. *)
Definition buy_attempted (tr : Trace) : bool := existsb is_buy tr.

(** Some check collaborator was queried. *)
Definition check_queried (tr : Trace) : bool := existsb is_check tr.

Definition logged (msg : string) (tr : Trace) : bool :=
  existsb (fun e => match e with EvLog m => String.eqb m msg | _ => false end) tr.

(** *** Interleaved evaluations *)

(** The event loop: the module state, the promise chains suspended at an
    [await], and the rejections nobody handled. *)
Record Sys := mkSys {
  shared : State;
  pending : list (Prog unit);
  unhandled : list JsError
}.

Definition initialSys : Sys :=
  {| shared := initialState; pending := []; unhandled := [] |}.

Definition suspended (p : Prog unit) : list (Prog unit) :=
  match p with Await _ _ => [p] | _ => [] end.

Definition rejection (p : Prog unit) : list JsError :=
  match p with Throw e => [e] | _ => [] end.

Section Loop.
Variable Input : Type.
(** What the transport's event handler does with a payload in its own
    turn: it may start one promise chain. *)
Variable handler : Input -> State -> State * Trace * option (Prog unit).

Inductive step : Sys -> Sys -> Prop :=
| step_drop : forall sys data st1 tr,
    handler data (shared sys) = (st1, tr, None) ->
    step sys {| shared := st1; pending := pending sys;
                unhandled := unhandled sys |}
| step_admit : forall sys data st1 tr task st2 tr2 task',
    handler data (shared sys) = (st1, tr, Some task) ->
    advance task st1 = (st2, tr2, task') ->
    step sys {| shared := st2; pending := pending sys ++ suspended task';
                unhandled := unhandled sys ++ rejection task' |}
| step_resume : forall sys before c k after (x : Reply c) st2 tr2 task',
    pending sys = before ++ Await c k :: after ->
    advance (k x) (shared sys) = (st2, tr2, task') ->
    step sys {| shared := st2; pending := before ++ suspended task' ++ after;
                unhandled := unhandled sys ++ rejection task' |}.

Inductive reachable : Sys -> Prop :=
| reach_init : reachable initialSys
| reach_step : forall s s', reachable s -> step s s' -> reachable s'.
End Loop.

(** The socket transport: [wsManager.on("message", ...)]. *)
Definition wssHandler (config : Config) (data : result ParsedData) (st : State)
  : State * Trace * option (Prog unit) :=
  match advance (onMessage config data) st with
  | (st1, tr, Ret (Some task)) => (st1, tr, Some task)
  | (st1, tr, _) => (st1, tr, None)
  end.

(** The streaming transport: [stream.on("data", processGrpcData)]; the
    promise [processGrpcData] returns is dropped by the emitter. *)
Definition grpcHandler (config : Config) (data : SubscribeUpdate) (st : State)
  : State * Trace * option (Prog unit) :=
  (st, [], Some (processGrpcData config data)).

End Sem.

(* ===================================================================== *)
(** ** The gRPC listener ([startGrpcListener], [handleGrpcStates])       *)
(* ===================================================================== *)

Module GrpcListener.

Import Index.
Local Open Scope list_scope.

(** What the stream emits. *)
Inductive StreamEvent :=
| OnData (data : SubscribeUpdate)
| OnError (error : JsError)
| OnEnd
| OnClose.

(** The promise made by [handleGrpcStates]. *)
Inductive Settled :=
| Pending
| Resolved
| Rejected (error : JsError).

(** What the listener does to the outside. *)
Inductive Action :=
| Clear                              (* console.clear() *)
| Subscribe                          (* gClient.subscribe() *)
| Write (programIds : list string)   (* stream.write(request) *)
| StreamEnd                          (* stream.end() *)
| ProcessData (data : SubscribeUpdate)
| Console (msg : string)
| Exit (code : Z).

(** Where [startGrpcListener] is. *)
Inductive Listener :=
| Listening                (* suspended at [await handleGrpcStates(gStream)] *)
| Returned                 (* its promise has resolved *)
| Failed (error : JsError). (* its promise has rejected *)

(** [resolve] and [reject] act on a pending promise only. *)
Definition settle_with (p new : Settled) : Settled :=
  match p with Pending => new | _ => p end.

(** The four handlers registered at lines 296-309. *)
Definition onEvent (ev : StreamEvent) (p : Settled) : Settled * list Action :=
  match ev with
  | OnData data => (p, [ProcessData data])
  | OnError error =>
      (settle_with p (Rejected error), [Console "Stream error"; StreamEnd])
  | OnEnd => (settle_with p Resolved, [Console "Stream ended"])
  | OnClose => (settle_with p Resolved, [Console "Stream closed"])
  end.

(** What [startGrpcListener] does when the awaited promise settles:
    the [catch] of lines 289-292 on a rejection, nothing otherwise. *)
Definition resume (before after : Settled) : list Action :=
  match before, after with
  | Pending, Rejected _ => [Console "Error in subscription process"; StreamEnd]
  | _, _ => []
  end.

Fixpoint listen (events : list StreamEvent) (p : Settled)
  : list Action * Settled :=
  match events with
  | [] => ([], p)
  | ev :: rest =>
      let '(p', acts) := onEvent ev p in
      let '(acts', final) := listen rest p' in
      (acts ++ resume p p' ++ acts', final)
  end.

(** Lines 276-293, given how the subscription call and the write of the
    request went and what the stream then emits. *)
Definition startGrpcListener (programIds : list string)
  (subscribe : result unit) (write : option JsError)
  (events : list StreamEvent) : list Action * Listener :=
  match subscribe with
  | Err error =>
      ([Clear; Console "Starting Solana Token Sniper via gRPC..."; Subscribe],
       Failed error)
  | Ok _ =>
      match write with
      | Some error =>
          ([Clear; Console "Starting Solana Token Sniper via gRPC...";
            Subscribe; Write programIds;
            Console "Error in subscription process"; StreamEnd], Returned)
      | None =>
          let '(acts, p) := listen events Pending in
          ([Clear; Console "Starting Solana Token Sniper via gRPC...";
            Subscribe; Write programIds;
            Console "Geyser connection and subscription established"] ++ acts,
           match p with Pending => Listening | _ => Returned end)
      end
  end.

(** Lines 473-477: [startGrpcListener().catch(...)]. *)
Definition main (programIds : list string)
  (subscribe : result unit) (write : option JsError)
  (events : list StreamEvent) : list Action * Listener :=
  let '(acts, l) := startGrpcListener programIds subscribe write events in
  match l with
  | Failed _ => (acts ++ [Console "Fatal error"; Exit 1], l)
  | _ => (acts, l)
  end.

Definition is_subscribe (a : Action) : bool :=
  match a with Subscribe => true | _ => false end.

(** How many times a stream was opened. *)
Definition subscriptions (acts : list Action) : nat :=
  List.length (filter is_subscribe acts).

Definition is_data (ev : StreamEvent) : bool :=
  match ev with OnData _ => true | _ => false end.

Definition exits (acts : list Action) : bool :=
  existsb (fun a => match a with Exit _ => true | _ => false end) acts.

End GrpcListener.

(* ===================================================================== *)
(** ** The subscription request ([grpcManager.ts])                        *)
(* ===================================================================== *)

Module GrpcManager.

Inductive CommitmentLevel := PROCESSED | CONFIRMED | FINALIZED.

Record SubscribeRequestFilterTransactions := mkFilterTransactions {
  accountInclude : list string;
  accountExclude : list string;
  accountRequired : list string
}.

(** The request, an object of maps from filter names to filters: the
    transaction filters as an association list, the other maps, which the
    code leaves empty, by the names they hold. *)
Record SubscribeRequest := mkSubscribeRequest {
  accounts : list string;
  slots : list string;
  transactions : list (string * SubscribeRequestFilterTransactions);
  transactionsStatus : list string;
  entry : list string;
  blocks : list string;
  blocksMeta : list string;
  commitment : CommitmentLevel;
  accountsDataSlice : list (Z * Z);
  ping : option Z
}.

(** Lines 23-43. *)
Definition createSubscribeRequest (accountInclude : list string)
  : SubscribeRequest :=
  let COMMITMENT := PROCESSED in
  {| accounts := [];
     slots := [];
     transactions :=
       [("pumpswap",
         {| accountInclude := accountInclude;
            accountExclude := [];
            accountRequired := [] |})];
     transactionsStatus := [];
     entry := [];
     blocks := [];
     blocksMeta := [];
     commitment := COMMITMENT;
     accountsDataSlice := [];
     ping := None |}.

End GrpcManager.

(* ===================================================================== *)
(** ** Start-up ([index.ts], lines 65-85 and 472-486)                     *)
(* ===================================================================== *)

Module Startup.

Import Index.

(** The request sent for one pool when the socket opens. *)
Record LogsSubscribe := mkLogsSubscribe {
  jsonrpc : string;
  id : Z;
  method : string;
  mentions : list string;
  commitment : string
}.

(** The [open] handler, lines 65-85: what it sends, in order. *)
Definition onOpen (config : Config) : list LogsSubscribe :=
  map (fun pool =>
         {| jsonrpc := "2.0";
            id := pool_id pool;
            method := "logsSubscribe";
            mentions := [pool_program pool];
            commitment := "processed" |})
      (filter pool_enabled (WSS_SUBSCRIBE_LP config)).

(** What the module does when loaded, lines 472-486: it starts one of
    the listeners, or logs that the mode is invalid and exits with
    code 1. *)
Inductive Started :=
| GrpcListenerStarted
| WebSocketListenerStarted
| InvalidStreamMode.

Definition start (config : Config) : Started :=
  if String.eqb (STREAM_MODE config) "grpc" then GrpcListenerStarted
  else if String.eqb (STREAM_MODE config) "wss" then WebSocketListenerStarted
  else InvalidStreamMode.

End Startup.

(* ===================================================================== *)
(** * Properties                                                          *)
(* ===================================================================== *)

Unset Implicit Arguments.

Section MintResolution.

Lemma firstNonWsol_all_base BASE l :
  Forall (fun b => mint b = BASE) l -> firstNonWsol BASE l = None.
Proof.
  induction 1 as [|b l Hb _ IH]; simpl; [reflexivity|].
  rewrite Hb, String.eqb_refl. exact IH.
Qed.

(** On every list the resolution is the loop of the general case: the
    two-element fast path computes the same thing. *)
Lemma getMintFromTokenBalances_first BASE l :
  getMintFromTokenBalances BASE l = firstNonWsol BASE l.
Proof.
  destruct l as [|b0 [|b1 [|b2 l]]]; try reflexivity.
  unfold getMintFromTokenBalances; simpl.
  destruct (String.eqb (mint b0) BASE), (String.eqb (mint b1) BASE); reflexivity.
Qed.

End MintResolution.

(** C8.  Stream-variant mint resolution with base asset [BASE]: [[A, BASE]]
    gives [A]; [[BASE, BASE]] gives nothing; [[BASE, A, B]] gives [A]; a
    list of more than two balances gives the first mint that differs from
    [BASE]; and a list in which no balance differs from [BASE] gives
    nothing. *)
Theorem getMintFromTokenBalances_spec :
  forall (BASE A B : string) (i j k : Z),
    A <> BASE ->
    getMintFromTokenBalances BASE [mkTokenBalance i A; mkTokenBalance j BASE]
      = Some A
    /\ getMintFromTokenBalances BASE [mkTokenBalance i BASE; mkTokenBalance j BASE]
      = None
    /\ getMintFromTokenBalances BASE
         [mkTokenBalance i BASE; mkTokenBalance j A; mkTokenBalance k B]
      = Some A
    /\ (forall l, (2 < List.length l)%nat ->
          getMintFromTokenBalances BASE l
          = option_map mint
              (find (fun b => negb (String.eqb (mint b) BASE)) l))
    /\ (forall l, Forall (fun b => mint b = BASE) l ->
          getMintFromTokenBalances BASE l = None).
Proof.
  intros BASE A B i j k HA.
  apply String.eqb_neq in HA.
  repeat split.
  - unfold getMintFromTokenBalances; simpl. rewrite HA, String.eqb_refl. reflexivity.
  - unfold getMintFromTokenBalances; simpl. rewrite String.eqb_refl. reflexivity.
  - simpl. rewrite String.eqb_refl; simpl. rewrite HA. reflexivity.
  - intros l _. rewrite getMintFromTokenBalances_first.
    induction l as [|b l IH]; simpl; [reflexivity|].
    destruct (String.eqb (mint b) BASE); simpl; [exact IH | reflexivity].
  - intros l Hl. rewrite getMintFromTokenBalances_first.
    now apply firstNonWsol_all_base.
Qed.

Lemma getMintFromTokenBalances_spec_witness :
  "MintA" <> "So11" /\
  getMintFromTokenBalances "So11"
    [mkTokenBalance 0 "MintA"; mkTokenBalance 1 "So11"] = Some "MintA".
Proof.
  assert (H : "MintA" <> "So11") by discriminate.
  split; [exact H|].
  exact (proj1 (@getMintFromTokenBalances_spec "So11" "MintA" "MintB" 0 1 2 H)).
Defined.

(* --------------------------------------------------------------------- *)
(** ** The buy action                                                     *)
(* --------------------------------------------------------------------- *)

Section BuyToken.

Import SniperooHandler.
Local Open Scope list_scope.
Local Open Scope nat_scope.

(** The requests of a trace, with their attempt numbers. *)
Fixpoint posts (tr : list BuyEvent) : list (nat * RequestBody) :=
  match tr with
  | [] => []
  | BPost n body :: rest => (n, body) :: posts rest
  | _ :: rest => posts rest
  end.

Fixpoint without_logs (tr : list BuyEvent) : list BuyEvent :=
  match tr with
  | [] => []
  | BLog _ :: rest => without_logs rest
  | ev :: rest => ev :: without_logs rest
  end.

(** Requests separated by one pause of [delay] each. *)
Fixpoint spaced (delay : Z) (ps : list (nat * RequestBody)) : list BuyEvent :=
  match ps with
  | [] => []
  | (n, body) :: rest =>
      BPost n body ::
      match rest with
      | [] => []
      | _ :: _ => BSleep delay :: spaced delay rest
      end
  end.

Variable api : Api.
Variables (tokenAddress : string) (inputAmount tp sl : Q).

(** The request [attemptBuyToken] builds at lines 32-44. *)
Definition requestOf (sell : bool) : RequestBody :=
  {| walletAddresses := [SNIPEROO_PUBKEY api];
     body_tokenAddress := tokenAddress;
     body_inputAmount := inputAmount;
     autoSell := {| enabled := if isZero tp || isZero sl then false else sell;
                    strategyName := "simple";
                    profitPercentage := tp;
                    stopLossPercentage := sl |} |}.

Let attempt := attemptBuyToken api tokenAddress inputAmount tp sl.

Lemma requestOf_idem sell :
  requestOf (if isZero tp || isZero sl then false else sell) = requestOf sell.
Proof. unfold requestOf. destruct (isZero tp || isZero sl); reflexivity. Qed.

(** One unfolding of the recursion. *)
Lemma attempt_unfold sell retryCount :
  attempt sell retryCount =
  if TokenHandler.invalidAddress tokenAddress then ([], Ok false)
  else if Qle_bool inputAmount 0 then ([], Ok false)
  else
    let body := requestOf sell in
    match axios_post api retryCount body with
    | PostOk => ([BPost retryCount body], Ok true)
    | error =>
        match isRetryable error with
        | Err thrown => ([BPost retryCount body], Err thrown)
        | Ok retry =>
            if retry && (retryCount <? MAX_RETRIES) then
              (BPost retryCount body :: BLog "Snipe retry attempt"
                 :: BSleep RETRY_DELAY
                 :: fst (attempt (if isZero tp || isZero sl then false else sell)
                                 (S retryCount)),
               snd (attempt (if isZero tp || isZero sl then false else sell)
                            (S retryCount)))
            else ([BPost retryCount body; BLog (errorLog error)], Ok false)
        end
    end.
Proof.
  unfold attempt. rewrite attemptBuyToken_equation_1.
  destruct (TokenHandler.invalidAddress tokenAddress).
  { now rewrite attemptBuyToken_clause_1_equation_1. }
  rewrite attemptBuyToken_clause_1_equation_2.
  destruct (Qle_bool inputAmount 0).
  { now rewrite attemptBuyToken_clause_1_clause_2_equation_1. }
  rewrite attemptBuyToken_clause_1_clause_2_equation_2.
  cbv zeta. fold (requestOf sell).
  destruct (axios_post api retryCount (requestOf sell)) as [|resp|e];
    try reflexivity.
  destruct (isRetryable (PostAxiosError resp)) as [[|]|thrown]; cbn [andb];
    try reflexivity.
  destruct (lt_dec retryCount MAX_RETRIES) as [Hlt|Hge].
  - apply Nat.ltb_lt in Hlt. rewrite Hlt.
    destruct (attemptBuyToken _ _ _ _ _ _ _); reflexivity.
  - apply Nat.ltb_nlt in Hge. rewrite Hge. reflexivity.
Qed.

(** What holds of every attempt, whatever its number. *)
Record AttemptOk (sell : bool) (retryCount : nat)
       (out : list BuyEvent * result bool) : Prop := {
  ao_throws : forall thrown, snd out = Err thrown ->
    exists n body, In (n, body) (posts (fst out))
                   /\ isRetryable (axios_post api n body) = Err thrown;
  ao_numbered :
    map fst (posts (fst out)) = seq retryCount (List.length (posts (fst out)));
  ao_bounded :
    List.length (posts (fst out)) <= S (MAX_RETRIES - retryCount);
  ao_retry_cause : forall n body,
    In (S n, body) (posts (fst out)) -> retryCount <= n ->
    exists body', In (n, body') (posts (fst out))
                  /\ isRetryable (axios_post api n body') = Ok true;
  ao_spaced : without_logs (fst out) = spaced RETRY_DELAY (posts (fst out));
  ao_other_error : forall n body,
    In (n, body) (posts (fst out)) ->
    axios_post api n body <> PostOk ->
    isRetryable (axios_post api n body) = Ok false ->
    snd out = Ok false /\ retryCount + List.length (posts (fst out)) = S n;
  ao_body : forall n body,
    In (n, body) (posts (fst out)) -> body = requestOf sell;
  ao_sent :
    TokenHandler.invalidAddress tokenAddress = false ->
    Qle_bool inputAmount 0 = false ->
    exists rest, fst out = BPost retryCount (requestOf sell) :: rest;
  ao_success : snd out = Ok true ->
    exists n body, In (n, body) (posts (fst out))
                   /\ axios_post api n body = PostOk;
  ao_malformed : forall n body thrown,
    In (n, body) (posts (fst out)) ->
    isRetryable (axios_post api n body) = Err thrown ->
    snd out = Err thrown /\ retryCount + List.length (posts (fst out)) = S n
}.

(** An attempt is fine as soon as the attempt it may recurse into is. *)
Lemma attempt_ok_step sell r :
  (r < MAX_RETRIES ->
   forall sell', AttemptOk sell' (S r) (attempt sell' (S r))) ->
  AttemptOk sell r (attempt sell r).
Proof.
  intros IH.
  rewrite attempt_unfold.
  destruct (TokenHandler.invalidAddress tokenAddress) eqn:Hinv.
  { constructor; simpl; try (intros; contradiction); try lia;
      try reflexivity; try discriminate; try (intros; congruence); eauto. }
  destruct (Qle_bool inputAmount 0) eqn:Hamt.
  { constructor; simpl; try (intros; contradiction); try lia;
      try reflexivity; try discriminate; try (intros; congruence); eauto. }
  cbv zeta.
  assert (Hlast : forall tr res,
            posts tr = [(r, requestOf sell)] ->
            without_logs tr = [BPost r (requestOf sell)] ->
            (exists rest, tr = BPost r (requestOf sell) :: rest) ->
            isRetryable (axios_post api r (requestOf sell)) <> Ok true
            \/ ~ r < MAX_RETRIES ->
            (axios_post api r (requestOf sell) = PostOk -> res = Ok true) ->
            (axios_post api r (requestOf sell) <> PostOk ->
             res = match isRetryable (axios_post api r (requestOf sell)) with
                   | Err thrown => Err thrown
                   | Ok _ => Ok false
                   end) ->
            AttemptOk sell r (tr, res)).
  { intros tr res Hposts Hwl Hrest Hstop Hok Hfail.
    assert (Hpost_ok : axios_post api r (requestOf sell) = PostOk ->
                       isRetryable (axios_post api r (requestOf sell)) = Ok false)
      by (intros ->; reflexivity).
    constructor; cbn [fst snd]; rewrite ?Hposts; cbn [List.length map seq fst].
    - intros thrown Hres. exists r, (requestOf sell). split; [now left|].
      destruct (axios_post api r (requestOf sell)) eqn:Hp;
        [rewrite (Hok eq_refl) in Hres; discriminate | |];
        rewrite Hfail in Hres by discriminate;
        destruct (isRetryable _); congruence.
    - reflexivity.
    - lia.
    - intros n body [Heq|[]] Hle. inversion Heq; lia.
    - exact Hwl.
    - intros n body [Heq|[]] Hne Hnr. injection Heq as <- <-.
      split; [|lia]. rewrite (Hfail Hne), Hnr. reflexivity.
    - intros n body [Heq|[]]. now inversion Heq.
    - intros _ _. exact Hrest.
    - intros Hres. exists r, (requestOf sell). split; [now left|].
      destruct (axios_post api r (requestOf sell)) eqn:Hp; [reflexivity | |];
        rewrite Hfail in Hres by discriminate;
        destruct (isRetryable _); discriminate.
    - intros n body thrown [Heq|[]] Hthrown. injection Heq as <- <-.
      split; [|lia].
      assert (Hne : axios_post api r (requestOf sell) <> PostOk)
        by (intros Hp; rewrite (Hpost_ok Hp) in Hthrown; discriminate).
      rewrite (Hfail Hne), Hthrown. reflexivity. }
  destruct (axios_post api r (requestOf sell)) as [|resp|e] eqn:Hpost.
  - (* the request succeeded *)
    apply Hlast; try reflexivity; eauto; try congruence.
    left. discriminate.
  - (* an axios error *)
    destruct (isRetryable (PostAxiosError resp)) as [retry|thrown] eqn:Hsig.
    2: { apply Hlast; try reflexivity; eauto; try congruence.
         left. discriminate. }
    destruct (retry && (r <? MAX_RETRIES)) eqn:Hretry.
    + apply andb_true_iff in Hretry. destruct Hretry as [-> Hlt].
      apply Nat.ltb_lt in Hlt.
      set (sell' := if isZero tp || isZero sl then false else sell).
      assert (Hrec : AttemptOk sell' (S r) (attempt sell' (S r)))
        by (apply IH; exact Hlt).
      assert (Hbody : requestOf sell' = requestOf sell)
        by apply requestOf_idem.
      destruct Hrec as [Hs Hn Hb Hc Hsp Ho Hbd Hst Hsu Hm].
      destruct (Hst Hinv Hamt) as [rest Hrest].
      constructor; simpl.
      * intros thrown Hres. destruct (Hs thrown Hres) as (n & body & Hin & Hth).
        exists n, body. split; [now right | exact Hth].
      * now rewrite Hn.
      * clear - Hb Hlt. unfold MAX_RETRIES in *.
        destruct r as [|[|[|r]]]; simpl in *; lia.
      * intros n body [Heq|Hin] Hle.
        -- inversion Heq; lia.
        -- destruct (Nat.eq_dec n r) as [->|Hnr].
           ++ exists (requestOf sell). split; [now left|]. now rewrite Hpost.
           ++ destruct (Hc n body Hin ltac:(lia)) as [b' [Hin' Hr']].
              exists b'. split; [now right | exact Hr'].
      * rewrite Hsp, Hrest. reflexivity.
      * intros n body [Heq|Hin] Hne Hnr.
        -- inversion Heq; subst. rewrite Hpost in Hnr. congruence.
        -- destruct (Ho n body Hin Hne Hnr) as [Hres Hlen].
           split; [exact Hres | lia].
      * intros n body [Heq|Hin].
        -- now inversion Heq.
        -- rewrite <- Hbody. eapply Hbd; eauto.
      * eauto.
      * intros Hok. destruct (Hsu Hok) as [n [body [Hin Hp]]].
        exists n, body. split; [now right | exact Hp].
      * intros n body thrown [Heq|Hin] Hth.
        -- inversion Heq; subst. rewrite Hpost in Hth. congruence.
        -- destruct (Hm n body thrown Hin Hth) as [Hres Hlen].
           split; [exact Hres | lia].
    + apply Hlast; try reflexivity; eauto; try congruence.
      destruct retry; [right|left; discriminate].
      cbn in Hretry. now apply Nat.ltb_nlt.
  - (* something else was thrown *)
    apply Hlast; try reflexivity; eauto; try congruence.
    left. discriminate.
Qed.

Lemma attempt_ok : forall k sell retryCount,
  MAX_RETRIES - retryCount <= k ->
  AttemptOk sell retryCount (attempt sell retryCount).
Proof.
  induction k as [|k IHk]; intros sell r Hk; apply attempt_ok_step; intros Hlt sell'.
  - lia.
  - apply IHk. lia.
Qed.

Lemma buyToken_ok sell :
  AttemptOk sell 0 (buyToken api tokenAddress inputAmount sell tp sl).
Proof. apply (attempt_ok MAX_RETRIES). lia. Qed.

End BuyToken.

(** The one failure [buyToken] retries: an axios error whose response has
    status 400, error code [INTERNAL_SERVER_ERROR] and a message in which
    [includes] finds the known text. *)
Lemma isRetryable_signature (o : SniperooHandler.PostOutcome) :
  SniperooHandler.isRetryable o = Ok true <->
  exists r d m,
    o = SniperooHandler.PostAxiosError (Some r)
    /\ SniperooHandler.status r = 400
    /\ SniperooHandler.data r = Some d
    /\ SniperooHandler.code_error d = Some "INTERNAL_SERVER_ERROR"
    /\ SniperooHandler.message d = Some m
    /\ SniperooHandler.messageIncludes m
         "Transaction failed due to an unknown reason" = Ok true.
Proof.
  split.
  - destruct o as [|[r|]|e]; simpl; try discriminate.
    destruct (SniperooHandler.status r =? 400) eqn:Hs; [|discriminate].
    destruct (SniperooHandler.data r) as [d|] eqn:Hd; [|discriminate].
    destruct (SniperooHandler.code_error d) as [c|] eqn:Hc; [|discriminate].
    destruct (String.eqb c "INTERNAL_SERVER_ERROR") eqn:Hcode; [|discriminate].
    destruct (SniperooHandler.message d) as [m|] eqn:Hm; [|discriminate].
    intros H.
    apply Z.eqb_eq in Hs. apply String.eqb_eq in Hcode. subst c.
    exists r, d, m. repeat split; assumption.
  - intros (r & d & m & -> & Hs & Hd & Hc & Hm & Hi). simpl.
    rewrite Hs, Hd, Hc, Hm. exact Hi.
Qed.

(** The test of the signature throws exactly on a response with status
    400 and error code [INTERNAL_SERVER_ERROR] whose message is neither a
    string nor an array. *)
Lemma isRetryable_throws (o : SniperooHandler.PostOutcome) (thrown : JsError) :
  SniperooHandler.isRetryable o = Err thrown <->
  exists r d,
    o = SniperooHandler.PostAxiosError (Some r)
    /\ SniperooHandler.status r = 400
    /\ SniperooHandler.data r = Some d
    /\ SniperooHandler.code_error d = Some "INTERNAL_SERVER_ERROR"
    /\ SniperooHandler.message d = Some SniperooHandler.MessageOther
    /\ thrown = SniperooHandler.includesTypeError.
Proof.
  split.
  - destruct o as [|[r|]|e]; simpl; try discriminate.
    destruct (SniperooHandler.status r =? 400) eqn:Hs; [|discriminate].
    destruct (SniperooHandler.data r) as [d|] eqn:Hd; [|discriminate].
    destruct (SniperooHandler.code_error d) as [c|] eqn:Hc; [|discriminate].
    destruct (String.eqb c "INTERNAL_SERVER_ERROR") eqn:Hcode; [|discriminate].
    destruct (SniperooHandler.message d) as [[s|items|]|] eqn:Hm;
      try discriminate.
    intros H. injection H as <-.
    apply Z.eqb_eq in Hs. apply String.eqb_eq in Hcode. subst c.
    exists r, d. repeat split; assumption.
  - intros (r & d & -> & Hs & Hd & Hc & Hm & ->). simpl.
    rewrite Hs, Hd, Hc, Hm. reflexivity.
Qed.

(** A trading service that answers every request with status 400 and an
    error body [{"code_error": "INTERNAL_SERVER_ERROR", "message": 503}]. *)
Definition malformedApi : SniperooHandler.Api :=
  {| SniperooHandler.SNIPEROO_PUBKEY := "Wallet";
     SniperooHandler.axios_post := fun _ _ =>
       SniperooHandler.PostAxiosError
         (Some {| SniperooHandler.status := 400;
                  SniperooHandler.data :=
                    Some {| SniperooHandler.code_error :=
                              Some "INTERNAL_SERVER_ERROR";
                            SniperooHandler.message :=
                              Some SniperooHandler.MessageOther |} |}) |}.

(** C9.  The code breaks the last clause of the claim.  [buyToken] sends
    at most [1 + 3] requests, numbered from 0; request [n + 1] is sent only
    after request [n] failed with the retryable signature (an axios error
    with status 400, error code [INTERNAL_SERVER_ERROR] and a message in
    which [includes] finds the known text); consecutive requests are
    separated by one pause of 200 ms; and a failure on which the test of
    the signature answers [false] ends the call at once with [false].  But
    the test runs inside the [catch] block and calls [includes] on the
    [message] field of an untyped body: when that field is neither a
    string nor an array, in a response with status 400 and that error
    code, the call throws, so that [buyToken] rejects with a TypeError
    after that request instead of answering [false], as it does for
    [malformedApi]. *)
Theorem buyToken_retry_policy :
  forall (api : SniperooHandler.Api) (tokenAddress : string)
         (inputAmount tp sl : Q) (sell : bool),
    let out := SniperooHandler.buyToken api tokenAddress inputAmount sell tp sl in
    let reqs := posts (fst out) in
    (SniperooHandler.MAX_RETRIES = 3%nat /\ SniperooHandler.RETRY_DELAY = 200)
    /\ (List.length reqs <= 1 + SniperooHandler.MAX_RETRIES)%nat
    /\ map fst reqs = seq 0 (List.length reqs)
    /\ (forall n body, In (S n, body) reqs ->
          exists body', In (n, body') reqs
            /\ SniperooHandler.isRetryable (SniperooHandler.axios_post api n body')
               = Ok true)
    /\ without_logs (fst out) = spaced SniperooHandler.RETRY_DELAY reqs
    /\ (forall n body, In (n, body) reqs ->
          SniperooHandler.axios_post api n body <> SniperooHandler.PostOk ->
          SniperooHandler.isRetryable (SniperooHandler.axios_post api n body)
            = Ok false ->
          snd out = Ok false /\ List.length reqs = S n)
    /\ (forall n body thrown, In (n, body) reqs ->
          SniperooHandler.isRetryable (SniperooHandler.axios_post api n body)
            = Err thrown ->
          snd out = Err thrown /\ List.length reqs = S n)
    /\ (forall thrown, snd out = Err thrown ->
          thrown = SniperooHandler.includesTypeError
          /\ exists n body r d,
               In (n, body) reqs
               /\ SniperooHandler.axios_post api n body
                  = SniperooHandler.PostAxiosError (Some r)
               /\ SniperooHandler.status r = 400
               /\ SniperooHandler.data r = Some d
               /\ SniperooHandler.code_error d = Some "INTERNAL_SERVER_ERROR"
               /\ SniperooHandler.message d = Some SniperooHandler.MessageOther)
    /\ (forall o,
          SniperooHandler.isRetryable o = Ok true <->
          exists r d m,
            o = SniperooHandler.PostAxiosError (Some r)
            /\ SniperooHandler.status r = 400
            /\ SniperooHandler.data r = Some d
            /\ SniperooHandler.code_error d = Some "INTERNAL_SERVER_ERROR"
            /\ SniperooHandler.message d = Some m
            /\ SniperooHandler.messageIncludes m
                 "Transaction failed due to an unknown reason" = Ok true)
    /\ SniperooHandler.buyToken malformedApi "MintX" (1 # 100) true 50 15
       = ([SniperooHandler.BPost 0
             (requestOf malformedApi "MintX" (1 # 100) 50 15 true)],
          Err SniperooHandler.includesTypeError).
Proof.
  intros api tokenAddress inputAmount tp sl sell out reqs.
  destruct (buyToken_ok api tokenAddress inputAmount tp sl sell)
    as [Hs Hn Hb Hc Hsp Ho _ _ _ Hm].
  fold out in Hs, Hn, Hb, Hc, Hsp, Ho, Hm.
  fold reqs in Hs, Hn, Hb, Hc, Hsp, Ho, Hm.
  split; [split; reflexivity|].
  split; [exact Hb|].
  split; [exact Hn|].
  split; [intros n body Hin; apply (Hc n body Hin); lia|].
  split; [exact Hsp|].
  split.
  { intros n body Hin Hne Hnr.
    destruct (Ho n body Hin Hne Hnr) as [Hres Hlen].
    split; [exact Hres | exact Hlen]. }
  split.
  { intros n body thrown Hin Hth.
    destruct (Hm n body thrown Hin Hth) as [Hres Hlen].
    split; [exact Hres | exact Hlen]. }
  split.
  { intros thrown Hres.
    destruct (Hs thrown Hres) as (n & body & Hin & Hth).
    apply isRetryable_throws in Hth.
    destruct Hth as (r & d & Hpost & Hst & Hd & Hcode & Hmsg & ->).
    split; [reflexivity|].
    exists n, body, r, d. repeat split; assumption. }
  split; [exact isRetryable_signature|].
  reflexivity.
Qed.

(** C10.  When the take-profit or the stop-loss argument is zero, every
    request [buyToken] sends has [autoSell.enabled = false], whatever the
    sell flag, and with a usable address and a positive amount a request is
    indeed sent; when the address is empty or only white space, or the
    amount is not positive, the call gives [false] and sends nothing. *)
Theorem buyToken_guards :
  forall (api : SniperooHandler.Api) (tokenAddress : string)
         (inputAmount tp sl : Q) (sell : bool),
    let out := SniperooHandler.buyToken api tokenAddress inputAmount sell tp sl in
    ((tp == 0 \/ sl == 0)%Q ->
       (forall n body, In (n, body) (posts (fst out)) ->
          SniperooHandler.enabled (SniperooHandler.autoSell body) = false)
       /\ (JsString.trim tokenAddress <> "" -> (0 < inputAmount)%Q ->
           exists body rest,
             fst out = SniperooHandler.BPost 0 body :: rest
             /\ SniperooHandler.enabled (SniperooHandler.autoSell body) = false))
    /\ ((JsString.trim tokenAddress = "" \/ (inputAmount <= 0)%Q) ->
        out = ([], Ok false)).
Proof.
  intros api tokenAddress inputAmount tp sl sell out.
  split.
  - intros Hzero.
    assert (Hz : SniperooHandler.isZero tp || SniperooHandler.isZero sl = true).
    { apply orb_true_iff. unfold SniperooHandler.isZero.
      destruct Hzero as [H|H]; [left|right]; now apply Qeq_bool_iff. }
    destruct (buyToken_ok api tokenAddress inputAmount tp sl sell)
      as [_ _ _ _ _ _ Hbody Hsent _].
    fold out in Hbody, Hsent.
    assert (Hoff : SniperooHandler.enabled
                     (SniperooHandler.autoSell
                        (requestOf api tokenAddress inputAmount tp sl sell))
                   = false)
      by (unfold requestOf; simpl; now rewrite Hz).
    split.
    + intros n body Hin. rewrite (Hbody n body Hin). exact Hoff.
    + intros Htrim Hpos.
      destruct Hsent as [rest Hrest].
      * unfold TokenHandler.invalidAddress, JsString.truthy.
        apply orb_false_iff. split.
        -- rewrite negb_involutive. apply String.eqb_neq.
           intros ->. apply Htrim. reflexivity.
        -- now apply String.eqb_neq.
      * destruct (Qle_bool inputAmount 0) eqn:Hle; [|reflexivity].
        apply Qle_bool_iff in Hle. exfalso. revert Hle. now apply Qlt_not_le.
      * eauto.
  - intros Hbad. unfold out, SniperooHandler.buyToken.
    rewrite attempt_unfold.
    destruct (TokenHandler.invalidAddress tokenAddress) eqn:Hinv; [reflexivity|].
    destruct Hbad as [Htrim|Hle].
    + unfold TokenHandler.invalidAddress in Hinv. rewrite Htrim in Hinv.
      rewrite orb_true_r in Hinv. discriminate.
    + apply Qle_bool_iff in Hle. rewrite Hle. reflexivity.
Qed.

Definition sampleApi : SniperooHandler.Api :=
  {| SniperooHandler.SNIPEROO_PUBKEY := "Wallet";
     SniperooHandler.axios_post := fun _ _ => SniperooHandler.PostOk |}.

Lemma buyToken_guards_witness :
  ((0 == 0)%Q \/ (15 == 0)%Q)
  /\ JsString.trim "MintX" <> ""
  /\ (0 < 1 # 10)%Q
  /\ (exists body rest,
        fst (SniperooHandler.buyToken sampleApi "MintX" (1 # 10) true 0 15)
        = SniperooHandler.BPost 0 body :: rest
        /\ SniperooHandler.enabled (SniperooHandler.autoSell body) = false)
  /\ (JsString.trim "   " = "" \/ (1 # 10 <= 0)%Q)
  /\ SniperooHandler.buyToken sampleApi "   " (1 # 10) true 50 15 = ([], Ok false).
Proof.
  assert (Hz : (0 == 0)%Q \/ (15 == 0)%Q) by (left; reflexivity).
  assert (Ht : JsString.trim "MintX" <> "") by (vm_compute; discriminate).
  assert (Hp : (0 < 1 # 10)%Q) by reflexivity.
  assert (Hw : JsString.trim "   " = "" \/ (1 # 10 <= 0)%Q) by (left; reflexivity).
  split; [exact Hz|]. split; [exact Ht|]. split; [exact Hp|].
  split.
  - exact (proj2 (proj1 (buyToken_guards sampleApi "MintX" (1 # 10) 0 15 true) Hz)
                 Ht Hp).
  - split; [exact Hw|].
    exact (proj2 (buyToken_guards sampleApi "   " (1 # 10) 50 15 true) Hw).
Defined.

(* --------------------------------------------------------------------- *)
(** ** Running one evaluation                                             *)
(* --------------------------------------------------------------------- *)

Section RunLemmas.

Import Index Sem.
Local Open Scope list_scope.

(** Put one more event in front of a finished run. *)
Definition after_event {A} (e : Event) (x : State * Trace * result A)
  : State * Trace * result A :=
  let '(st, tr, r) := x in (st, e :: tr, r).

Definition after_events {A} (es : Trace) (x : State * Trace * result A)
  : State * Trace * result A :=
  let '(st, tr, r) := x in (st, es ++ tr, r).

Variable w : World.

Lemma run_settle {A B} (p : Prog A) (f : result A -> Prog B) st :
  run w (settle p f) st =
  let '(st1, tr1, r) := run w p st in
  after_events tr1 (run w (f r) st1).
Proof.
  revert st. induction p as [a|e|o k IH|c k IH]; intros st; simpl.
  - destruct (run w (f (Ok a)) st) as [[? ?] ?]; reflexivity.
  - destruct (run w (f (Err e)) st) as [[? ?] ?]; reflexivity.
  - destruct (do_op o st) as [[st1 x] ev].
    rewrite IH. destruct (run w (k x) st1) as [[st2 tr] r].
    unfold after_events.
    destruct (run w (f r) st2) as [[st3 tr3] r3].
    now rewrite app_assoc.
  - rewrite IH. destruct (run w (k (answer w c)) st) as [[st2 tr] r].
    unfold after_events.
    destruct (run w (f r) st2) as [[st3 tr3] r3]. reflexivity.
Qed.

Lemma run_bind {A B} (p : Prog A) (f : A -> Prog B) st :
  run w (bind p f) st =
  let '(st1, tr1, r) := run w p st in
  match r with
  | Ok a => after_events tr1 (run w (f a) st1)
  | Err e => (st1, tr1, Err e)
  end.
Proof.
  unfold bind. rewrite run_settle.
  destruct (run w p st) as [[st1 tr1] [a|e]]; [reflexivity|].
  simpl. now rewrite app_nil_r.
Qed.

End RunLemmas.

(* --------------------------------------------------------------------- *)
(** ** Observations on one evaluation                                     *)
(* --------------------------------------------------------------------- *)

Section Observations.

Import Index Sem.

(** The evaluation ended at the duplicate test (lines 190-194, 382-386). *)
Definition dropped_as_duplicate (tr : Trace) : bool :=
  logged "[Process Transaction] Skipping duplicate mint to prevent mint spamming" tr.

(** The call the purchase step makes for [m] under [config]. *)
Definition buyCall (config : Config) (m : string) : Call :=
  CBuyToken m (BUY_AMOUNT config) (SELL_ENABLED config)
            (SELL_TAKE_PROFIT config) (SELL_STOP_LOSS config).

Definition reports_failure (r : result bool) : bool :=
  match r with Ok false => true | _ => false end.

(** The purchase action was invoked and reported failure. *)
Definition purchase_failed (config : Config) (w : World) (m : string)
  (tr : Trace) : bool :=
  buy_attempted tr && reports_failure (answer w (buyCall config m)).

(** A live purchase is configured (line 242, line 442). *)
Definition live (config : Config) : bool :=
  String.eqb (BUY_PROVIDER config) "sniperoo" && negb (SIM_MODE config).

End Observations.

#[local] Arguments Sem.answer : simpl never.
#[local] Arguments Index.CHECK_MODE : simpl never.
#[local] Arguments Index.BUY_PROVIDER : simpl never.
#[local] Arguments Index.SIM_MODE : simpl never.
#[local] Arguments Index.PLAY_SOUND : simpl never.
#[local] Arguments Index.BUY_AMOUNT : simpl never.
#[local] Arguments Index.SELL_ENABLED : simpl never.
#[local] Arguments Index.SELL_TAKE_PROFIT : simpl never.
#[local] Arguments Index.SELL_STOP_LOSS : simpl never.
#[local] Arguments Index.MAX_CONCURRENT : simpl never.
#[local] Arguments Index.or_false : simpl never.

(** Split on whatever test blocks the evaluation of the goal. *)
Ltac split_on_test :=
  match goal with
  | |- context [if ?b then _ else _] =>
      lazymatch b with
      | context [if _ then _ else _] => fail
      | context [match _ with _ => _ end] => fail
      | _ => destruct b eqn:?
      end
  | |- context [match ?x with _ => _ end] =>
      lazymatch x with
      | context [if _ then _ else _] => fail
      | context [match _ with _ => _ end] => fail
      | _ => destruct x eqn:?
      end
  end.

Ltac split_on_answer :=
  match goal with
  | |- context [Sem.answer ?w ?c] => destruct (Sem.answer w c) eqn:?
  end.

Ltac crunch := repeat (cbn; try first [split_on_answer | split_on_test]).

Ltac finish :=
  try reflexivity;
  try (exfalso;
       repeat match goal with
              | H : Ok _ = Ok _ |- _ => injection H as H
              | H : Some _ = Some _ |- _ => injection H as H
              end;
       subst; cbn in *; congruence).

Ltac unfold_pipeline :=
  unfold Index.processGrpcMint, Index.processWebsocketSignature,
    Index.checkAndSwapGrpc, Index.checkAndSwapWebsocket,
    Index.snipeCheck, Index.pumpdumpCheck, Index.fullCheck,
    Index.swapAndReport, Index.reportGrpc, Index.reportWebsocket,
    Index.skipDuplicate, Index.lookingAgain,
    purchase_failed, buyCall, live, dropped_as_duplicate.

(* --------------------------------------------------------------------- *)
(** ** One evaluation on the streaming transport                          *)
(* --------------------------------------------------------------------- *)

Section GrpcEvaluation.
Import Index Sem.
Variables (config : Config) (w : World).

(** A candidate equal to [CURRENT_MINT] is dropped on the spot. *)
Lemma grpc_duplicate st m :
  CURRENT_MINT st = m ->
  run w (processGrpcMint config m) st
  = (st,
     [EvLog "[Process Transaction] Skipping duplicate mint to prevent mint spamming";
      EvLog "[Process Transaction] Looking for new Liquidity Pools again"],
     Ok tt).
Proof.
  intros Heq. apply String.eqb_eq in Heq.
  unfold_pipeline. cbn. rewrite Heq. reflexivity.
Qed.

(** What an admitted candidate leaves behind. *)
Lemma grpc_admitted st m :
  CURRENT_MINT st <> m ->
  let r := run w (processGrpcMint config m) st in
  CURRENT_MINT (final_state r)
  = (if purchase_failed config w m (trace_of r) then "" else m)
  /\ activeTransactions (final_state r) = activeTransactions st
  /\ dropped_as_duplicate (trace_of r) = false.
Proof.
  intros Hne. apply String.eqb_neq in Hne.
  unfold_pipeline. cbn. rewrite Hne.
  crunch; repeat split; finish.
Qed.

End GrpcEvaluation.

(* --------------------------------------------------------------------- *)
(** ** One evaluation on the socket transport                            *)
(* --------------------------------------------------------------------- *)

Section WebsocketEvaluation.
Import Index Sem.
Variables (config : Config) (w : World).

(** The identifier the lookup resolves a signature to, if any
    (line 180: a missing or empty result is no identifier). *)
Definition resolved (signature : string) : option string :=
  match signatureLookup w signature with
  | Ok (Some m) => if JsString.truthy m then Some m else None
  | _ => None
  end.

Lemma ws_unresolved st signature :
  resolved signature = None ->
  let r := run w (processWebsocketSignature config signature) st in
  final_state r = st
  /\ buy_attempted (trace_of r) = false
  /\ check_queried (trace_of r) = false.
Proof.
  unfold resolved. intros Hres.
  unfold_pipeline. change (signatureLookup w signature)
    with (answer w (CGetMintFromSignature signature)) in Hres.
  destruct (answer w (CGetMintFromSignature signature)) as [[m'|]|e] eqn:Hans;
    [destruct (JsString.truthy m') eqn:Ht; [discriminate|] | | ];
    cbn; rewrite Hans; cbn; try rewrite Ht; cbn; repeat split; reflexivity.
Qed.

Lemma ws_duplicate st signature m :
  resolved signature = Some m ->
  CURRENT_MINT st = m ->
  let r := run w (processWebsocketSignature config signature) st in
  final_state r = st
  /\ dropped_as_duplicate (trace_of r) = true
  /\ buy_attempted (trace_of r) = false
  /\ check_queried (trace_of r) = false.
Proof.
  unfold resolved. intros Hres Heq. apply String.eqb_eq in Heq.
  unfold_pipeline. change (signatureLookup w signature)
    with (answer w (CGetMintFromSignature signature)) in Hres.
  destruct (answer w (CGetMintFromSignature signature)) as [[m'|]|e] eqn:Hans;
    try discriminate.
  destruct (JsString.truthy m') eqn:Ht; try discriminate.
  injection Hres as ->.
  cbn. rewrite Hans. cbn. rewrite Ht. cbn. rewrite Heq. cbn.
  repeat split; reflexivity.
Qed.

Lemma ws_admitted st signature m :
  resolved signature = Some m ->
  CURRENT_MINT st <> m ->
  let r := run w (processWebsocketSignature config signature) st in
  CURRENT_MINT (final_state r)
  = (if purchase_failed config w m (trace_of r) then "" else m)
  /\ activeTransactions (final_state r) = activeTransactions st
  /\ dropped_as_duplicate (trace_of r) = false.
Proof.
  unfold resolved. intros Hres Hne. apply String.eqb_neq in Hne.
  unfold_pipeline. change (signatureLookup w signature)
    with (answer w (CGetMintFromSignature signature)) in Hres.
  destruct (answer w (CGetMintFromSignature signature)) as [[m'|]|e] eqn:Hans;
    try discriminate.
  destruct (JsString.truthy m') eqn:Ht; try discriminate.
  injection Hres as ->.
  cbn. rewrite Hans. cbn. rewrite Ht. cbn. rewrite Hne.
  crunch; repeat split; finish.
Qed.

End WebsocketEvaluation.

(* --------------------------------------------------------------------- *)
(** ** The quick-rug-pull heuristic                                      *)
(* --------------------------------------------------------------------- *)

Section QuickRugPull.
Import TokenHandler.
Local Open Scope list_scope.
Variable conn : Connection.

(** The earliest transaction the provider lists for the address is more
    than 60 seconds old. *)
Definition older_than_60s (mintAddress : string) : Prop :=
  exists pk front oldest blockTime,
    invalidAddress mintAddress = false
    /\ PublicKey_new conn mintAddress = Ok pk
    /\ getSignaturesForAddress conn pk = Ok (front ++ [oldest])
    /\ getBlockTime conn (slot oldest) = Ok (Some blockTime)
    /\ blockTime <> 0
    /\ 60 < Date_now conn / 1000 - blockTime.

(** Whatever the provider does, the heuristic answers. *)
Lemma isQuickRugPull_total mintAddress :
  exists b, isQuickRugPull conn mintAddress = Ok b.
Proof.
  unfold isQuickRugPull, Res.try_catch.
  match goal with |- context [match ?body with _ => _ end] =>
    destruct body as [b|e] end; eauto.
Qed.

Lemma isQuickRugPull_true_iff mintAddress :
  isQuickRugPull conn mintAddress = Ok true <-> older_than_60s mintAddress.
Proof.
  unfold isQuickRugPull, older_than_60s, Res.try_catch, Res.bind.
  split.
  - destruct (invalidAddress mintAddress) eqn:Hinv; [discriminate|].
    destruct (PublicKey_new conn mintAddress) as [pk|] eqn:Hpk; [|discriminate].
    destruct (getSignaturesForAddress conn pk) as [txs|] eqn:Htxs; [|discriminate].
    destruct (rev txs) as [|oldest back] eqn:Hrev; [discriminate|].
    destruct (getBlockTime conn (slot oldest)) as [[bt|]|] eqn:Hbt;
      try discriminate.
    destruct (bt =? 0) eqn:Hz; [discriminate|].
    intros H. injection H as H.
    exists pk, (rev back), oldest, bt.
    repeat split; try assumption.
    + rewrite Htxs. f_equal.
      rewrite <- (rev_involutive txs), Hrev. reflexivity.
    + now apply Z.eqb_neq.
    + now apply Z.ltb_lt.
  - intros (pk & front & oldest & bt & Hinv & Hpk & Htxs & Hbt & Hz & Hage).
    rewrite Hinv, Hpk, Htxs, rev_app_distr. simpl. rewrite Hbt.
    apply Z.eqb_neq in Hz. rewrite Hz.
    apply Z.ltb_lt in Hage. rewrite Hage. reflexivity.
Qed.

End QuickRugPull.

Definition says_true (r : result bool) : bool :=
  match r with Ok true => true | _ => false end.

(** C1 (as the code has it).  In [pumpdump] mode on the streaming
    transport, an admitted candidate is first submitted to the
    quick-rug-pull heuristic, which always answers and answers [true]
    exactly when the earliest listed transaction of the asset is more than
    60 seconds old.  The evaluation is rejected, with no purchase, exactly
    when the heuristic answers [false]; when it answers [true] the
    evaluation goes on to the purchase step. *)
Theorem pumpdump_chain_grpc :
  forall (config : Index.Config) (w : Sem.World) (st : Index.State) (m : string),
    Index.CHECK_MODE config = "pumpdump" ->
    Index.CURRENT_MINT st <> m ->
    let heuristic := TokenHandler.isQuickRugPull (Sem.connection w) m in
    let r := Sem.run w (Index.processGrpcMint config m) st in
    (exists b, heuristic = Ok b)
    /\ (heuristic = Ok true <-> older_than_60s (Sem.connection w) m)
    /\ (exists tr, Sem.trace_of r = Sem.EvCall (Index.CIsQuickRugPull m) :: tr
                   /\ Sem.check_queried tr = false)
    /\ (heuristic = Ok false ->
        r = (Sem.set_mint st m,
             [Sem.EvCall (Index.CIsQuickRugPull m);
              Sem.EvLog "[Process Transaction] Dev rug check not passed, skipping...";
              Sem.EvLog "[Process Transaction] Looking for new Liquidity Pools again"],
             Ok tt))
    /\ (heuristic = Ok true ->
        r = after_event (Sem.EvCall (Index.CIsQuickRugPull m))
              (Sem.run w (Index.swapAndReport config m (Index.reportGrpc m))
                       (Sem.set_mint st m)))
    /\ Sem.buy_attempted (Sem.trace_of r) = live config && says_true heuristic.
Proof.
  intros config w st m Hmode Hne heuristic r.
  apply String.eqb_neq in Hne.
  split; [apply isQuickRugPull_total|].
  split; [apply isQuickRugPull_true_iff|].
  assert (Hans : Sem.answer w (Index.CIsQuickRugPull m) = heuristic) by reflexivity.
  subst r. unfold_pipeline. cbn. rewrite Hne, Hmode. cbn.
  rewrite Hans. clearbody heuristic.
  destruct heuristic as [[|]|e]; cbn.
  - split.
    + crunch; eexists; (split; [reflexivity|]); finish.
    + split; [discriminate|]. split.
      * intros _. unfold after_event. crunch; finish.
      * crunch; finish.
  - repeat split; try discriminate.
    + eexists; split; reflexivity.
    + now rewrite andb_false_r.
  - repeat split; try discriminate.
    + eexists; split; reflexivity.
    + now rewrite andb_false_r.
Qed.

(* --------------------------------------------------------------------- *)
(** ** Sample configuration and collaborators                            *)
(* --------------------------------------------------------------------- *)

Definition sampleConfig (mode : option string) (limit : Z) : Index.Config :=
  {| Index.concurrent_transactions := limit;
     Index.checks_mode := mode;
     Index.checks_simulation_mode := Some false;
     Index.allow_mint_authority := Some false;
     Index.allow_freeze_authority := Some false;
     Index.ignore_ends_with_pump := true;
     Index.token_stream_mode := Some "grpc";
     Index.liquidity_pool :=
       [ {| Index.pool_enabled := true;
            Index.pool_id := 1;
            Index.pool_program := "pAMMBay6oceH9fJKBRHGP5D4bD4sWpmSwMn52FMfXEA";
            Index.pool_instruction := "Program log: Instruction: CreatePool" |} ];
     Index.token_buy_provider := "sniperoo";
     Index.token_buy_sol_amount := 1 # 100;
     Index.token_buy_play_sound := Some false;
     Index.token_sell_enabled := Some true;
     Index.token_sell_stop_loss_percent := Some 15%Q;
     Index.token_sell_take_profit_percent := Some 50%Q;
     Index.wsol_pc_mint := "So11111111111111111111111111111111111111112" |}.

(** A provider that knows two transactions of every address, the earlier
    one in a block stamped [blockTime], while the clock shows 2000 s. *)
Definition sampleConnection (blockTime : Z) : TokenHandler.Connection :=
  {| TokenHandler.PublicKey_new := fun address => Ok address;
     TokenHandler.getMint := fun _ =>
       Ok {| TokenHandler.mintAuthority := None;
             TokenHandler.freezeAuthority := None;
             TokenHandler.supply := 1000000;
             TokenHandler.decimals := 6 |};
     TokenHandler.getSignaturesForAddress := fun _ =>
       Ok [ {| TokenHandler.signature := "sig2"; TokenHandler.slot := 101 |};
            {| TokenHandler.signature := "sig1"; TokenHandler.slot := 100 |} ];
     TokenHandler.getBlockTime := fun _ => Ok (Some blockTime);
     TokenHandler.Date_now := 2000000 |}.

(** A provider that cannot be reached. *)
Definition deadConnection : TokenHandler.Connection :=
  {| TokenHandler.PublicKey_new := fun address => Ok address;
     TokenHandler.getMint := fun _ => Err "fetch failed";
     TokenHandler.getSignaturesForAddress := fun _ => Err "fetch failed";
     TokenHandler.getBlockTime := fun _ => Err "fetch failed";
     TokenHandler.Date_now := 2000000 |}.

Definition sampleWorld (conn : TokenHandler.Connection)
  (api : SniperooHandler.Api) (rug : result bool) : Sem.World :=
  {| Sem.connection := conn;
     Sem.sniperoo := api;
     Sem.signatureLookup := fun _ => Ok (Some "MintX");
     Sem.rugCheck := fun _ => rug |}.


Lemma pumpdump_chain_grpc_witness :
  let config := sampleConfig (Some "pumpdump") 1 in
  let w := sampleWorld (sampleConnection 1000) sampleApi (Ok true) in
  Index.CHECK_MODE config = "pumpdump"
  /\ Index.CURRENT_MINT Index.initialState <> "MintX"
  /\ Sem.buy_attempted
       (Sem.trace_of (Sem.run w (Index.processGrpcMint config "MintX")
                              Index.initialState))
     = live config
       && says_true (TokenHandler.isQuickRugPull (Sem.connection w) "MintX").
Proof.
  intros config w.
  assert (H1 : Index.CHECK_MODE config = "pumpdump") by reflexivity.
  assert (H2 : Index.CURRENT_MINT Index.initialState <> "MintX") by discriminate.
  split; [exact H1|]. split; [exact H2|].
  exact (proj2 (proj2 (proj2 (proj2 (proj2
    (pumpdump_chain_grpc config w Index.initialState "MintX" H1 H2)))))).
Defined.

(** C1 as stated fails.  With an asset whose first transaction is 1000 s
    old the heuristic answers [true] and the purchase is attempted; with
    one that is 10 s old it answers [false] and the evaluation is
    rejected. *)
Lemma pumpdump_rejects_on_true_counterexample :
  let config := sampleConfig (Some "pumpdump") 1 in
  let old := sampleWorld (sampleConnection 1000) sampleApi (Ok true) in
  let young := sampleWorld (sampleConnection 1990) sampleApi (Ok true) in
  let run_with w :=
    Sem.trace_of (Sem.run w (Index.processGrpcMint config "MintX")
                          Index.initialState) in
  (TokenHandler.isQuickRugPull (Sem.connection old) "MintX" = Ok true
   /\ Sem.buy_attempted (run_with old) = true)
  /\ (TokenHandler.isQuickRugPull (Sem.connection young) "MintX" = Ok false
      /\ Sem.buy_attempted (run_with young) = false
      /\ Sem.logged "[Process Transaction] Dev rug check not passed, skipping..."
                    (run_with young) = true).
Proof. vm_compute. repeat split. Qed.

(* --------------------------------------------------------------------- *)
(** ** Decision mode                                                      *)
(* --------------------------------------------------------------------- *)

(** What the socket-transport evaluation prints and asks before it knows
    the identifier. *)
Definition wsPrologue (signature : string) : Sem.Trace :=
  [Sem.EvLog "================================================================";
   Sem.EvLog "[Process Transaction] New Liquidity Pool signature found";
   Sem.EvLog "[Process Transaction] Extracting token CA from signature...";
   Sem.EvLog ("https://solscan.io/tx/" ++ signature);
   Sem.EvCall (Index.CGetMintFromSignature signature);
   Sem.EvLog "[Process Transaction] Token CA extracted successfully"].

(** No mode is configured: the field is missing or empty. *)
Definition unspecified (mode : option string) : Prop :=
  mode = None \/ mode = Some "".

(** A mode is configured and it is none of the three the code tests for. *)
Definition unrecognized (mode : option string) : Prop :=
  exists s, mode = Some s
            /\ s <> "" /\ s <> "snipe" /\ s <> "full" /\ s <> "pumpdump".

Section FullChain.
Import Index Sem.
Variables (config : Config) (w : World).

(** The [full] chain: the suffix test, then the rug check, then [next]. *)
Lemma run_fullCheck m next st :
  run w (fullCheck config m next) st =
  if JsString.endsWith (JsString.toLowerCase (JsString.trim m)) "pump"
     && ignore_ends_with_pump config
  then (st,
        [EvLog "[Process Transaction] Token ends with pump, skipping...";
         EvLog "[Process Transaction] Looking for new Liquidity Pools again"],
        Ok tt)
  else
    match rugCheck w m with
    | Ok true => after_event (EvCall (CGetRugCheckConfirmed m)) (run w next st)
    | Ok false =>
        (st,
         [EvCall (CGetRugCheckConfirmed m);
          EvLog "[Process Transaction] Full rug check not passed, skipping...";
          EvLog "[Process Transaction] Looking for new Liquidity Pools again"],
         Ok tt)
    | Err e => (st, [EvCall (CGetRugCheckConfirmed m)], Err e)
    end.
Proof.
  unfold fullCheck, lookingAgain.
  destruct (JsString.endsWith _ "pump" && ignore_ends_with_pump config);
    [reflexivity|].
  cbn. change (answer w (CGetRugCheckConfirmed m)) with (rugCheck w m).
  destruct (rugCheck w m) as [[|]|e]; cbn; try reflexivity.
Qed.

Lemma unspecified_is_full :
  unspecified (checks_mode config) -> CHECK_MODE config = "full".
Proof.
  unfold CHECK_MODE, JsString.or_else. intros [-> | ->]; reflexivity.
Qed.

Lemma unrecognized_matches_nothing :
  unrecognized (checks_mode config) ->
  String.eqb (CHECK_MODE config) "snipe" = false
  /\ String.eqb (CHECK_MODE config) "full" = false
  /\ String.eqb (CHECK_MODE config) "pumpdump" = false.
Proof.
  intros (s & Hs & Hne & H1 & H2 & H3).
  unfold CHECK_MODE, JsString.or_else, JsString.truthy. rewrite Hs.
  apply String.eqb_neq in Hne. rewrite Hne. cbn.
  repeat split; now apply String.eqb_neq.
Qed.

End FullChain.

(** Name the result of the run the goal is stuck on. *)
Ltac destruct_run :=
  match goal with
  | |- context [Sem.run ?w ?p ?s] =>
      destruct (Sem.run w p s) as [[? ?] ?]; reflexivity
  end.

(** C5 (as the code has it).  For an admitted candidate on either
    transport: when no decision mode is configured, the mode is [full] and
    the evaluation is the full chain (suffix rejection, then the rug check)
    followed by the purchase step; when a mode is configured that is none
    of [snipe], [full], [pumpdump], the evaluation is the purchase step
    alone, with no check. *)
Theorem check_mode_default :
  forall (config : Index.Config) (w : Sem.World) (st : Index.State)
         (m signature : string),
    Index.CURRENT_MINT st <> m ->
    resolved w signature = Some m ->
    let purchaseGrpc := Index.swapAndReport config m (Index.reportGrpc m) in
    let purchaseWs := Index.swapAndReport config m (Index.reportWebsocket m) in
    (unspecified (Index.checks_mode config) ->
       Index.CHECK_MODE config = "full"
       /\ Sem.run w (Index.processGrpcMint config m) st
          = Sem.run w (Index.fullCheck config m purchaseGrpc) (Sem.set_mint st m)
       /\ Sem.run w (Index.processWebsocketSignature config signature) st
          = after_events (wsPrologue signature)
              (Sem.run w (Index.fullCheck config m purchaseWs)
                       (Sem.set_mint st m)))
    /\ (forall next st',
          Sem.run w (Index.fullCheck config m next) st' =
          if JsString.endsWith (JsString.toLowerCase (JsString.trim m)) "pump"
             && Index.ignore_ends_with_pump config
          then (st',
                [Sem.EvLog "[Process Transaction] Token ends with pump, skipping...";
                 Sem.EvLog "[Process Transaction] Looking for new Liquidity Pools again"],
                Ok tt)
          else
            match Sem.rugCheck w m with
            | Ok true =>
                after_event (Sem.EvCall (Index.CGetRugCheckConfirmed m))
                            (Sem.run w next st')
            | Ok false =>
                (st',
                 [Sem.EvCall (Index.CGetRugCheckConfirmed m);
                  Sem.EvLog "[Process Transaction] Full rug check not passed, skipping...";
                  Sem.EvLog "[Process Transaction] Looking for new Liquidity Pools again"],
                 Ok tt)
            | Err e => (st', [Sem.EvCall (Index.CGetRugCheckConfirmed m)], Err e)
            end)
    /\ (unrecognized (Index.checks_mode config) ->
          Sem.run w (Index.processGrpcMint config m) st
          = Sem.run w purchaseGrpc (Sem.set_mint st m)
          /\ Sem.run w (Index.processWebsocketSignature config signature) st
             = after_events (wsPrologue signature)
                 (Sem.run w purchaseWs (Sem.set_mint st m))).
Proof.
  intros config w st m signature Hne Hres purchaseGrpc purchaseWs.
  apply String.eqb_neq in Hne.
  unfold resolved in Hres.
  change (Sem.signatureLookup w signature)
    with (Sem.answer w (Index.CGetMintFromSignature signature)) in Hres.
  destruct (Sem.answer w (Index.CGetMintFromSignature signature))
    as [[m'|]|e] eqn:Hans; try discriminate.
  destruct (JsString.truthy m') eqn:Ht; try discriminate.
  injection Hres as ->.
  subst purchaseGrpc purchaseWs.
  split; [|split].
  - intros Hun. pose proof (unspecified_is_full config Hun) as Hmode.
    split; [exact Hmode|]. split.
    + unfold Index.processGrpcMint, Index.checkAndSwapGrpc. cbn. rewrite Hne, Hmode. cbn.
      destruct_run.
    + unfold Index.processWebsocketSignature, Index.checkAndSwapWebsocket. rewrite Hmode.
      cbn. rewrite Hans. cbn. rewrite Ht. cbn. rewrite Hne. cbn.
      destruct_run.
  - intros next st'. apply run_fullCheck.
  - intros Hun.
    destruct (unrecognized_matches_nothing config Hun) as (H1 & H2 & H3).
    split.
    + unfold Index.processGrpcMint, Index.checkAndSwapGrpc. cbn. rewrite Hne, H1, H2, H3. cbn.
      destruct_run.
    + unfold Index.processWebsocketSignature, Index.checkAndSwapWebsocket.
      rewrite H1, H2.
      cbn. rewrite Hans. cbn. rewrite Ht. cbn. rewrite Hne. cbn.
      destruct_run.
Qed.

Lemma check_mode_default_witness :
  let w := sampleWorld (sampleConnection 1000) sampleApi (Ok true) in
  let absent := sampleConfig None 1 in
  let other := sampleConfig (Some "none") 1 in
  Index.CURRENT_MINT Index.initialState <> "MintX"
  /\ resolved w "sig" = Some "MintX"
  /\ unspecified (Index.checks_mode absent)
  /\ Sem.run w (Index.processGrpcMint absent "MintX") Index.initialState
     = Sem.run w
         (Index.fullCheck absent "MintX"
            (Index.swapAndReport absent "MintX" (Index.reportGrpc "MintX")))
         (Sem.set_mint Index.initialState "MintX")
  /\ unrecognized (Index.checks_mode other)
  /\ Sem.run w (Index.processGrpcMint other "MintX") Index.initialState
     = Sem.run w
         (Index.swapAndReport other "MintX" (Index.reportGrpc "MintX"))
         (Sem.set_mint Index.initialState "MintX").
Proof.
  intros w absent other.
  assert (H1 : Index.CURRENT_MINT Index.initialState <> "MintX") by discriminate.
  assert (H2 : resolved w "sig" = Some "MintX") by reflexivity.
  assert (H3 : unspecified (Index.checks_mode absent)) by (left; reflexivity).
  assert (H4 : unrecognized (Index.checks_mode other)).
  { exists "none". repeat split; discriminate. }
  split; [exact H1|]. split; [exact H2|]. split; [exact H3|].
  split.
  - exact (proj1 (proj2
      (proj1 (check_mode_default absent w Index.initialState "MintX" "sig" H1 H2)
             H3))).
  - split; [exact H4|].
    exact (proj1
      (proj2 (proj2 (check_mode_default other w Index.initialState "MintX" "sig"
                                         H1 H2)) H4)).
Defined.

(** C5 as stated fails.  With the mode set to ["none"], a candidate that
    the full chain would reject twice over (it ends in "pump" with the
    suffix rejection on, and the rug check does not confirm it) is bought
    without any check being made, on either transport. *)
Lemma unrecognized_mode_counterexample :
  let config := sampleConfig (Some "none") 1 in
  let w :=
    {| Sem.connection := sampleConnection 1000;
       Sem.sniperoo := sampleApi;
       Sem.signatureLookup := fun _ => Ok (Some "abcpump");
       Sem.rugCheck := fun _ => Ok false |} in
  let grpc :=
    Sem.trace_of (Sem.run w (Index.processGrpcMint config "abcpump")
                          Index.initialState) in
  let ws :=
    Sem.trace_of (Sem.run w (Index.processWebsocketSignature config "sig")
                          Index.initialState) in
  JsString.endsWith (JsString.toLowerCase (JsString.trim "abcpump")) "pump"
    && Index.ignore_ends_with_pump config = true
  /\ Sem.rugCheck w "abcpump" = Ok false
  /\ (Sem.check_queried grpc = false /\ Sem.buy_attempted grpc = true)
  /\ (Sem.check_queried ws = false /\ Sem.buy_attempted ws = true).
Proof. vm_compute. repeat split. Qed.

(* --------------------------------------------------------------------- *)
(** ** The last-seen slot                                                 *)
(* --------------------------------------------------------------------- *)

Section SlotDiscipline.
Import Index Sem.

Definition writes_slot (o : Op) : bool :=
  match o with WriteCurrentMint _ => true | _ => false end.

(** The reply is [false] from [buyToken]. *)
Definition buy_failed (c : Call) : Reply c -> bool :=
  match c return Reply c -> bool with
  | CBuyToken _ _ _ _ _ => fun x => reports_failure x
  | _ => fun _ => false
  end.

(** The program writes the slot only to empty it, and that only as the
    first thing it does on learning that [buyToken] gave [false].
    [must_clear] tells whether it has just learnt so. *)
Fixpoint slot_discipline {A} (must_clear : bool) (p : Prog A) : Prop :=
  match p with
  | Ret _ | Throw _ => must_clear = false
  | Sync o k =>
      (if must_clear then o = WriteCurrentMint "" else writes_slot o = false)
      /\ forall x, slot_discipline false (k x)
  | Await c k =>
      must_clear = false /\ forall x, slot_discipline (buy_failed c x) (k x)
  end.

(** The same, told turn by turn: whenever the suspended program is resumed
    with a reply, that turn empties the slot if the reply is [false] from
    [buyToken] and leaves it alone otherwise, in whatever state the module
    is by then. *)
Inductive turns_ok : Prog unit -> Prop :=
| turns_settled : forall p,
    match p with Await _ _ => False | _ => True end -> turns_ok p
| turns_await : forall c k,
    (forall (x : Reply c) st,
       CURRENT_MINT (fst (fst (advance (k x) st)))
       = (if buy_failed c x then "" else CURRENT_MINT st)) ->
    (forall (x : Reply c) st, turns_ok (snd (advance (k x) st))) ->
    turns_ok (Await c k).

Lemma do_op_keeps_slot o st :
  writes_slot o = false ->
  CURRENT_MINT (fst (fst (do_op o st))) = CURRENT_MINT st.
Proof. destruct o; cbn; intros H; try discriminate; reflexivity. Qed.

Lemma slot_discipline_turns (p : Prog unit) :
  forall must_clear st,
    slot_discipline must_clear p ->
    CURRENT_MINT (fst (fst (advance p st)))
    = (if must_clear then "" else CURRENT_MINT st)
    /\ turns_ok (snd (advance p st)).
Proof.
  induction p as [a|e|o k IH|c k IH]; intros b st Hp; cbn in Hp.
  - subst b. cbn. split; [reflexivity | now apply turns_settled].
  - subst b. cbn. split; [reflexivity | now apply turns_settled].
  - destruct Hp as [Ho Hk]. cbn [advance].
    destruct b.
    + subst o. cbn [do_op].
      destruct (IH tt false (set_mint st "") (Hk tt)) as [Hslot Hturns].
      destruct (advance (k tt) (set_mint st "")) as [[st2 tr] p'].
      cbn in *. split; assumption.
    + pose proof (do_op_keeps_slot o st Ho) as Hkeep.
      destruct (do_op o st) as [[st1 x] ev]. cbn [fst] in Hkeep.
      destruct (IH x false st1 (Hk x)) as [Hslot Hturns].
      destruct (advance (k x) st1) as [[st2 tr] p'].
      cbn in *. split; [congruence | assumption].
  - destruct Hp as [-> Hk]. cbn. split; [reflexivity|].
    apply turns_await; intros x st';
      destruct (IH x (buy_failed c x) st' (Hk x)) as [Hslot Hturns]; assumption.
Qed.

Variable config : Config.

Ltac walk_program :=
  repeat first
    [ exact I
    | reflexivity
    | split
    | progress intros
    | match goal with x : result _ |- _ => destruct x end
    | match goal with x : Reply _ |- _ => destruct x end
    | match goal with x : bool |- _ => destruct x end
    | progress cbn
    | split_on_test ].

Lemma checkAndSwapGrpc_discipline m :
  slot_discipline false (checkAndSwapGrpc config m).
Proof. unfold_pipeline. cbn. walk_program. Qed.

Lemma checkAndSwapWebsocket_discipline m :
  slot_discipline false (checkAndSwapWebsocket config m).
Proof. unfold_pipeline. cbn. walk_program. Qed.

End SlotDiscipline.



(* --------------------------------------------------------------------- *)
(** ** Errors of check collaborators                                      *)
(* --------------------------------------------------------------------- *)

(** A streamed pool-creation update that pairs [m] with the base asset. *)
Definition createPoolUpdate (config : Index.Config) (m : string)
  : Index.SubscribeUpdate :=
  {| Index.filters := ["pumpswap"];
     Index.update_transaction :=
       Some {| Index.update_slot := 100;
               Index.transaction :=
                 Some {| Index.tx_signature := "sig";
                         Index.meta :=
                           Some {| Index.logMessages :=
                                     Some ["Program log: Instruction: CreatePool"];
                                   Index.postTokenBalances :=
                                     Some [mkTokenBalance 0 m;
                                           mkTokenBalance 1 (Index.WSOL_MINT config)];
                                   Index.preTokenBalances := None |} |} |} |}.

(** C4 fails on the streaming transport in [snipe] mode.  When the
    authority lookup throws, [getTokenAuthorities] throws the error again,
    [processGrpcMint] and [processGrpcData] let it through, and the promise
    of the [data] handler rejects with nobody to handle it.  No purchase is
    attempted.  On the socket transport the same error ends in the [catch]
    callback of the evaluation, which resolves. *)
Theorem grpc_snipe_lookup_error_escapes :
  let config := sampleConfig (Some "snipe") 1 in
  let w := sampleWorld deadConnection sampleApi (Ok true) in
  let data := createPoolUpdate config "MintX" in
  let r := Sem.run w (Index.processGrpcData config data) Index.initialState in
  TokenHandler.getTokenAuthorities (Sem.connection w) "MintX" = Err "fetch failed"
  /\ Sem.outcome_of r = Err "fetch failed"
  /\ Sem.buy_attempted (Sem.trace_of r) = false
  /\ (exists sys, Sem.reachable (Sem.grpcHandler config) sys
                  /\ Sem.unhandled sys = ["fetch failed"])
  /\ Sem.outcome_of (Sem.run w (Index.evaluation config "sig") Index.initialState)
     = Ok tt.
Proof.
  intros config w data r.
  split; [reflexivity|]. split; [vm_compute; reflexivity|].
  split; [vm_compute; reflexivity|]. split; [|vm_compute; reflexivity].
  eexists. split.
  - eapply Sem.reach_step.
    + eapply Sem.reach_step; [apply Sem.reach_init|].
      eapply Sem.step_admit with (data := data); [reflexivity|].
      vm_compute. reflexivity.
    + eapply Sem.step_resume
        with (before := []) (after := [])
             (c := Index.CGetTokenAuthorities "MintX")
             (x := Err "fetch failed").
      * cbn. reflexivity.
      * cbn. reflexivity.
  - reflexivity.
Qed.

(* --------------------------------------------------------------------- *)
(** ** The gate of the socket transport                                   *)
(* --------------------------------------------------------------------- *)

Section WebsocketGate.
Import Index Sem.
Local Open Scope list_scope.
Variable config : Config.

(** The message is a log notification that mentions one of the watched
    instructions and carries the signature [signature], so that it
    passes the tests of lines 93-115. *)
Definition createNotification (parsedData : ParsedData) (signature : string)
  : Prop :=
  pd_result_defined parsedData = false
  /\ pd_error parsedData = false
  /\ pd_signature parsedData = Some signature
  /\ signature <> ""
  /\ exists logs,
       pd_logs parsedData = Some logs
       /\ existsb (fun log =>
            match log with
            | Some log =>
                existsb (fun instruction => JsString.includes log instruction)
                  (map pool_instruction
                       (filter pool_enabled (WSS_SUBSCRIBE_LP config)))
            | None => false
            end) logs = true.

(** What the tail of an evaluation adds once the pipeline has settled. *)
Definition epilogue (r : result unit) : Trace :=
  match r with
  | Ok _ => [EvCall CTick]
  | Err _ => [EvCall CTick; EvLog "Error processing transaction"; EvCall CTick]
  end.

Lemma run_evaluation w signature st :
  run w (evaluation config signature) st =
  let '(st1, tr1, r1) := run w (processWebsocketSignature config signature) st in
  (set_active st1 (activeTransactions st1 - 1), tr1 ++ epilogue r1, Ok tt).
Proof.
  unfold evaluation, promise_finally, promise_catch.
  rewrite !run_settle.
  destruct (run w (processWebsocketSignature config signature) st)
    as [[st1 tr1] [[]|e]]; cbn; rewrite ?app_nil_r, <- ?app_assoc; reflexivity.
Qed.

Lemma gate_cases data st :
  (exists tr, wssHandler config data st = (st, tr, None))
  \/ (activeTransactions st < MAX_CONCURRENT config
      /\ exists signature,
           wssHandler config data st
           = (set_active st (activeTransactions st + 1), [],
              Some (evaluation config signature))).
Proof.
  unfold wssHandler, onMessage, try_catch.
  destruct data as [pd|e]; cbn; [|left; eauto].
  destruct (pd_result_defined pd && negb (pd_error pd)); cbn; [left; eauto|].
  destruct (pd_error pd); cbn; [left; eauto|].
  destruct (pd_logs pd) as [logs|]; cbn; [|left; eauto].
  destruct (pd_signature pd) as [signature|]; cbn; [|left; eauto].
  destruct (negb (JsString.truthy signature)); cbn; [left; eauto|].
  match goal with |- context [negb ?b] => destruct b end; cbn; [|left; eauto].
  destruct (activeTransactions st >=? MAX_CONCURRENT config) eqn:Hfull; cbn.
  - left; eauto.
  - right. split; [|eauto].
    rewrite Z.geb_leb in Hfull. apply Z.leb_gt in Hfull. exact Hfull.
Qed.

Lemma gate_on_notification parsedData signature st :
  createNotification parsedData signature ->
  wssHandler config (Ok parsedData) st =
  if activeTransactions st >=? MAX_CONCURRENT config
  then (st, [EvLog "Max concurrent transactions reached, skipping..."], None)
  else (set_active st (activeTransactions st + 1), [],
        Some (evaluation config signature)).
Proof.
  intros (Hres & Herr & Hsig & Hne & logs & Hlogs & Hcreate).
  apply String.eqb_neq in Hne.
  unfold wssHandler, onMessage, try_catch.
  cbn [bind settle of_result].
  rewrite Hres, Herr, Hlogs, Hsig. cbn [andb negb].
  unfold JsString.truthy. rewrite Hne, Hcreate. cbn.
  destruct (activeTransactions st >=? MAX_CONCURRENT config); reflexivity.
Qed.

End WebsocketGate.

Section EvaluationObservations.
Import Index Sem.
Local Open Scope list_scope.

Lemma buy_attempted_epilogue tr r :
  buy_attempted (tr ++ epilogue r) = buy_attempted tr.
Proof.
  unfold buy_attempted. rewrite existsb_app.
  destruct r; cbn; now rewrite orb_false_r.
Qed.

Lemma check_queried_epilogue tr r :
  check_queried (tr ++ epilogue r) = check_queried tr.
Proof.
  unfold check_queried. rewrite existsb_app.
  destruct r; cbn; now rewrite orb_false_r.
Qed.

Lemma dropped_as_duplicate_epilogue tr r :
  dropped_as_duplicate (tr ++ epilogue r) = dropped_as_duplicate tr.
Proof.
  unfold dropped_as_duplicate, logged. rewrite existsb_app.
  destruct r; cbn; now rewrite orb_false_r.
Qed.

Lemma purchase_failed_epilogue config w m tr r :
  purchase_failed config w m (tr ++ epilogue r) = purchase_failed config w m tr.
Proof. unfold purchase_failed. now rewrite buy_attempted_epilogue. Qed.

(** The pipeline of the socket transport never touches the counter. *)
Lemma ws_pipeline_keeps_counter config w signature st :
  activeTransactions
    (final_state (run w (processWebsocketSignature config signature) st))
  = activeTransactions st.
Proof.
  destruct (resolved w signature) as [m|] eqn:Hres.
  - destruct (String.eqb (CURRENT_MINT st) m) eqn:Heq.
    + apply String.eqb_eq in Heq.
      destruct (ws_duplicate config w st signature m Hres Heq) as [-> _].
      reflexivity.
    + apply String.eqb_neq in Heq.
      now destruct (ws_admitted config w st signature m Hres Heq) as (_ & -> & _).
  - destruct (ws_unresolved config w st signature Hres) as [-> _]. reflexivity.
Qed.

(** Every evaluation resolves, having taken one off the counter. *)
Lemma evaluation_finalizes config w signature st :
  let r := run w (evaluation config signature) st in
  outcome_of r = Ok tt
  /\ activeTransactions (final_state r) = activeTransactions st - 1.
Proof.
  cbv zeta. rewrite run_evaluation.
  pose proof (ws_pipeline_keeps_counter config w signature st) as Hkeep.
  destruct (run w (processWebsocketSignature config signature) st)
    as [[st1 tr1] r1].
  cbn in *. now rewrite Hkeep.
Qed.

End EvaluationObservations.

(* --------------------------------------------------------------------- *)
(** ** The turn in which a candidate takes the slot                       *)
(* --------------------------------------------------------------------- *)

Definition duplicateLines : Sem.Trace :=
  [Sem.EvLog "[Process Transaction] Skipping duplicate mint to prevent mint spamming";
   Sem.EvLog "[Process Transaction] Looking for new Liquidity Pools again"].

Section SlotTurns.
Import Index Sem.
Variable config : Config.

Lemma grpc_duplicate_turn st m :
  CURRENT_MINT st = m ->
  advance (processGrpcMint config m) st = (st, duplicateLines, Ret tt).
Proof.
  intros Heq. apply String.eqb_eq in Heq.
  unfold processGrpcMint, skipDuplicate, lookingAgain. cbn. now rewrite Heq.
Qed.

Lemma grpc_first_turn st m :
  CURRENT_MINT (fst (fst (advance (processGrpcMint config m) st))) = m.
Proof.
  destruct (String.eqb (CURRENT_MINT st) m) eqn:Heq.
  - apply String.eqb_eq in Heq. now rewrite grpc_duplicate_turn.
  - unfold processGrpcMint. cbn -[checkAndSwapGrpc]. rewrite Heq.
    cbn -[checkAndSwapGrpc].
    destruct (slot_discipline_turns (checkAndSwapGrpc config m) false
                (set_mint st m) (checkAndSwapGrpc_discipline config m))
      as [Hslot _].
    destruct (advance (checkAndSwapGrpc config m) (set_mint st m))
      as [[st2 tr] p']. exact Hslot.
Qed.

(** What [processWebsocketSignature] does once the lookup has answered
    with [m]: lines 180-270. *)
Definition afterLookup (m : string) : Prog unit :=
  bind (log "[Process Transaction] Token CA extracted successfully")
    (fun _ => bind readCurrentMint (fun current =>
       if String.eqb current m then skipDuplicate
       else bind (writeCurrentMint m)
              (fun _ => checkAndSwapWebsocket config m))).

Lemma ws_first_turn signature st :
  exists k,
    advance (processWebsocketSignature config signature) st
    = (st, firstn 4 (wsPrologue signature),
       Await (CGetMintFromSignature signature) k)
    /\ forall m, m <> "" -> k (Ok (Some m)) = afterLookup m.
Proof.
  unfold processWebsocketSignature. cbn -[checkAndSwapWebsocket].
  eexists. split; [reflexivity|].
  intros m Hm. apply String.eqb_neq in Hm.
  cbn -[checkAndSwapWebsocket]. unfold JsString.truthy. rewrite Hm.
  reflexivity.
Qed.

Lemma ws_duplicate_turn st m :
  CURRENT_MINT st = m ->
  advance (afterLookup m) st
  = (st, EvLog "[Process Transaction] Token CA extracted successfully"
         :: duplicateLines, Ret tt).
Proof.
  intros Heq. apply String.eqb_eq in Heq.
  unfold afterLookup, skipDuplicate, lookingAgain. cbn. now rewrite Heq.
Qed.

Lemma ws_claim_turn st m :
  CURRENT_MINT (fst (fst (advance (afterLookup m) st))) = m.
Proof.
  destruct (String.eqb (CURRENT_MINT st) m) eqn:Heq.
  - apply String.eqb_eq in Heq. now rewrite ws_duplicate_turn.
  - unfold afterLookup. cbn -[checkAndSwapWebsocket]. rewrite Heq.
    cbn -[checkAndSwapWebsocket].
    destruct (slot_discipline_turns (checkAndSwapWebsocket config m) false
                (set_mint st m) (checkAndSwapWebsocket_discipline config m))
      as [Hslot _].
    destruct (advance (checkAndSwapWebsocket config m) (set_mint st m))
      as [[st2 tr] p']. exact Hslot.
Qed.

End SlotTurns.

Section EvaluationTurns.
Import Index Sem.

(** A program suspended at an [await] stays suspended there when
    something is to follow it. *)
Lemma advance_settle_await {A B} (p : Prog A) (f : result A -> Prog B) st :
  match snd (advance p st) with
  | Await c k =>
      advance (settle p f) st
      = (fst (fst (advance p st)), snd (fst (advance p st)),
         Await c (fun x => settle (k x) f))
  | _ => True
  end.
Proof.
  revert st. induction p as [a|e|o k0 IH|c0 k0 IH]; intros st; cbn;
    try exact I; try reflexivity.
  destruct (do_op o st) as [[st' x] ev]. specialize (IH x st').
  destruct (advance (k0 x) st') as [[st2 tr2] p']. cbn in IH |- *.
  destruct p'; try exact I. now rewrite IH.
Qed.

(** What follows a program does not touch the state in the turn in which
    the program ends, if its own first turn never does. *)
Lemma advance_settle_idle {A B} (p : Prog A) (f : result A -> Prog B) :
  (forall r st, fst (fst (advance (f r) st)) = st) ->
  forall st, fst (fst (advance (settle p f) st)) = fst (fst (advance p st)).
Proof.
  intros Hf. induction p as [a|e|o k IH|c k IH]; intros st; cbn.
  - apply Hf.
  - apply Hf.
  - destruct (do_op o st) as [[st' x] ev]. specialize (IH x st').
    destruct (advance (settle (k x) f) st') as [[s1 t1] p1].
    destruct (advance (k x) st') as [[s2 t2] p2]. exact IH.
  - reflexivity.
Qed.

(** The first turn of an evaluation on the socket transport prints four
    lines and asks for the signature, reading and writing nothing; the
    turn that learns the candidate ends with the candidate in the slot. *)
Lemma evaluation_turns config signature st :
  exists k,
    advance (evaluation config signature) st
    = (st, firstn 4 (wsPrologue signature),
       Await (CGetMintFromSignature signature) k)
    /\ forall m st', m <> "" ->
         CURRENT_MINT (fst (fst (advance (k (Ok (Some m))) st'))) = m.
Proof.
  destruct (ws_first_turn config signature st) as (k & Hk & Hafter).
  unfold evaluation, promise_finally, promise_catch.
  pose proof (advance_settle_await (processWebsocketSignature config signature)
                (fun r => match r with
                          | Ok a => Ret a
                          | Err e =>
                              Await CTick
                                (fun _ => log "Error processing transaction")
                          end) st) as Hcatch.
  rewrite Hk in Hcatch. cbn [fst snd] in Hcatch.
  match type of Hcatch with
  | advance ?q st = _ =>
      pose proof (advance_settle_await q
                    (fun r => Await CTick
                                (fun _ => bind (Sync DecrActive (fun _ => Ret tt))
                                               (fun _ => of_result r))) st)
        as Hfinally
  end.
  rewrite Hcatch in Hfinally. cbn [fst snd] in Hfinally.
  eexists. split; [exact Hfinally|].
  intros m st' Hm. cbv beta.
    rewrite !advance_settle_idle.
    + rewrite (Hafter m Hm). apply ws_claim_turn.
    + intros [a|e] st0; reflexivity.
    + intros r st0. reflexivity.
Qed.

End EvaluationTurns.

(** C2 (as the code has it).  On the socket transport a pool-creation
    notification is dropped when [activeTransactions] has reached the
    limit; otherwise the counter is incremented at once and the evaluation
    started.  Only inside that evaluation is the identifier resolved and
    compared with [CURRENT_MINT]: the first turn of the evaluation asks
    for the signature and reads and writes nothing, and the turn that
    learns the candidate ends with the candidate in the slot.  An
    unresolved signature or a duplicate ends the evaluation with the slot
    untouched and nothing queried or bought; any other candidate ends it
    with the slot holding the candidate, or empty when the purchase was
    attempted and reported failure.  Whichever way the evaluation ends,
    the counter is back at its value from before the admission. *)
Theorem gate_admission_order :
  forall (config : Index.Config) (w : Sem.World) (st : Index.State)
         (parsedData : Index.ParsedData) (signature : string),
    createNotification config parsedData signature ->
    let gate := Sem.wssHandler config (Ok parsedData) st in
    let admitted := Sem.set_active st (Index.activeTransactions st + 1) in
    let ev := Sem.run w (Index.evaluation config signature) admitted in
    (Index.MAX_CONCURRENT config <= Index.activeTransactions st ->
       gate = (st, [Sem.EvLog "Max concurrent transactions reached, skipping..."],
               None))
    /\ (Index.activeTransactions st < Index.MAX_CONCURRENT config ->
          gate = (admitted, [], Some (Index.evaluation config signature)))
    /\ (Sem.outcome_of ev = Ok tt
        /\ Index.activeTransactions (Sem.final_state ev)
           = Index.activeTransactions st)
    /\ (resolved w signature = None ->
          Index.CURRENT_MINT (Sem.final_state ev) = Index.CURRENT_MINT st
          /\ Sem.buy_attempted (Sem.trace_of ev) = false
          /\ Sem.check_queried (Sem.trace_of ev) = false)
    /\ (forall m, resolved w signature = Some m ->
          Index.CURRENT_MINT st = m ->
          Index.CURRENT_MINT (Sem.final_state ev) = m
          /\ dropped_as_duplicate (Sem.trace_of ev) = true
          /\ Sem.buy_attempted (Sem.trace_of ev) = false
          /\ Sem.check_queried (Sem.trace_of ev) = false)
    /\ (forall m, resolved w signature = Some m ->
          Index.CURRENT_MINT st <> m ->
          dropped_as_duplicate (Sem.trace_of ev) = false
          /\ Index.CURRENT_MINT (Sem.final_state ev)
             = (if purchase_failed config w m (Sem.trace_of ev) then "" else m))
    /\ (exists k,
          Sem.advance (Index.evaluation config signature) admitted
          = (admitted, firstn 4 (wsPrologue signature),
             Index.Await (Index.CGetMintFromSignature signature) k)
          /\ forall m st', m <> "" ->
               Index.CURRENT_MINT
                 (fst (fst (Sem.advance (k (Ok (Some m))) st'))) = m).
Proof.
  intros config w st parsedData signature Hnote gate admitted ev.
  pose proof (gate_on_notification config parsedData signature st Hnote) as Hgate.
  fold gate in Hgate.
  assert (Hev : ev =
    let '(st1, tr1, r1) :=
      Sem.run w (Index.processWebsocketSignature config signature) admitted in
    (Sem.set_active st1 (Index.activeTransactions st1 - 1),
     (tr1 ++ epilogue r1)%list, Ok tt))
    by apply run_evaluation.
  split; [|split; [|split; [|split; [|split; [|split]]]]].
  - intros Hfull. rewrite Hgate.
    destruct (Index.activeTransactions st >=? Index.MAX_CONCURRENT config)
      eqn:Hge; [reflexivity|].
    rewrite Z.geb_leb in Hge. apply Z.leb_gt in Hge. lia.
  - intros Hfree. rewrite Hgate.
    destruct (Index.activeTransactions st >=? Index.MAX_CONCURRENT config)
      eqn:Hge; [|reflexivity].
    rewrite Z.geb_leb in Hge. apply Z.leb_le in Hge. lia.
  - destruct (evaluation_finalizes config w signature admitted) as [Hok Hcount].
    fold ev in Hok, Hcount. split; [exact Hok|].
    rewrite Hcount. unfold admitted. cbn. lia.
  - intros Hres.
    destruct (ws_unresolved config w admitted signature Hres) as (Hst & Hbuy & Hchk).
    rewrite Hev.
    destruct (Sem.run w (Index.processWebsocketSignature config signature) admitted)
      as [[st1 tr1] r1].
    cbn in Hst, Hbuy, Hchk |- *. subst st1.
    rewrite buy_attempted_epilogue, check_queried_epilogue. auto.
  - intros m Hres Heq.
    destruct (ws_duplicate config w admitted signature m Hres Heq)
      as (Hst & Hdup & Hbuy & Hchk).
    rewrite Hev.
    destruct (Sem.run w (Index.processWebsocketSignature config signature) admitted)
      as [[st1 tr1] r1].
    cbn in Hst, Hdup, Hbuy, Hchk |- *. subst st1.
    rewrite dropped_as_duplicate_epilogue, buy_attempted_epilogue,
      check_queried_epilogue. auto.
  - intros m Hres Hne.
    destruct (ws_admitted config w admitted signature m Hres Hne)
      as (Hslot & _ & Hdup).
    rewrite Hev.
    destruct (Sem.run w (Index.processWebsocketSignature config signature) admitted)
      as [[st1 tr1] r1].
    cbn in Hslot, Hdup |- *.
    rewrite dropped_as_duplicate_epilogue, purchase_failed_epilogue. auto.
  - apply evaluation_turns.
Qed.

(** A log notification for a pool creation, signed ["sig"]. *)
Definition sampleNotification : Index.ParsedData :=
  {| Index.pd_result_defined := false;
     Index.pd_error := false;
     Index.pd_logs :=
       Some [Some "Program log: Instruction: Swap";
             Some "Program log: Instruction: CreatePool"];
     Index.pd_signature := Some "sig" |}.

Lemma sampleNotification_create mode limit :
  createNotification (sampleConfig mode limit) sampleNotification "sig".
Proof.
  unfold createNotification. cbn.
  repeat split; try discriminate.
  eexists. split; reflexivity.
Defined.

Lemma gate_admission_order_witness :
  let config := sampleConfig (Some "snipe") 1 in
  let w := sampleWorld (sampleConnection 1000) sampleApi (Ok true) in
  let admitted := Sem.set_active Index.initialState 1 in
  createNotification config sampleNotification "sig"
  /\ Index.activeTransactions Index.initialState < Index.MAX_CONCURRENT config
  /\ Sem.wssHandler config (Ok sampleNotification) Index.initialState
     = (admitted, [], Some (Index.evaluation config "sig"))
  /\ Index.activeTransactions
       (Sem.final_state (Sem.run w (Index.evaluation config "sig") admitted))
     = 0.
Proof.
  intros config w admitted.
  pose proof (sampleNotification_create (Some "snipe") 1) as Hnote.
  assert (Hfree : Index.activeTransactions Index.initialState
                  < Index.MAX_CONCURRENT config) by reflexivity.
  pose proof (gate_admission_order config w Index.initialState
                sampleNotification "sig" Hnote) as H.
  split; [exact Hnote|]. split; [exact Hfree|].
  split.
  - exact (proj1 (proj2 H) Hfree).
  - exact (proj2 (proj1 (proj2 (proj2 H)))).
Defined.

(** C2 as stated fails on the socket transport.  With the slot holding
    ["MintX"] and the counter at 0, a notification whose signature resolves
    to ["MintX"] raises the counter to 1 and is only then dropped as a
    duplicate; one whose signature resolves to nothing raises the counter
    just the same. *)
Lemma counter_raised_for_dropped_event_counterexample :
  let config := sampleConfig (Some "snipe") 1 in
  let st := {| Index.activeTransactions := 0; Index.CURRENT_MINT := "MintX" |} in
  let same := sampleWorld (sampleConnection 1000) sampleApi (Ok true) in
  let none :=
    {| Sem.connection := sampleConnection 1000;
       Sem.sniperoo := sampleApi;
       Sem.signatureLookup := fun _ => Ok None;
       Sem.rugCheck := fun _ => Ok true |} in
  let gate := Sem.wssHandler config (Ok sampleNotification) st in
  let admitted := fst (fst gate) in
  snd gate = Some (Index.evaluation config "sig")
  /\ Index.activeTransactions st = 0
  /\ Index.activeTransactions admitted = 1
  /\ dropped_as_duplicate
       (Sem.trace_of (Sem.run same (Index.evaluation config "sig") admitted))
     = true
  /\ resolved none "sig" = None
  /\ Sem.logged "[Process Transaction] No valid token CA could be extracted"
       (Sem.trace_of (Sem.run none (Index.evaluation config "sig") admitted))
     = true.
Proof. vm_compute. repeat split. Qed.

(* --------------------------------------------------------------------- *)
(** ** The in-flight counter under interleaving                           *)
(* --------------------------------------------------------------------- *)

Section CounterDiscipline.
Import Index Sem.
Local Open Scope list_scope.

Definition touches_counter (o : Op) : bool :=
  match o with IncrActive | DecrActive => true | _ => false end.

(** The program never touches the counter. *)
Fixpoint quiet {A} (p : Prog A) : Prop :=
  match p with
  | Ret _ | Throw _ => True
  | Sync o k => touches_counter o = false /\ forall x, quiet (k x)
  | Await c k => forall x, quiet (k x)
  end.

(** The program never touches the counter and never rejects. *)
Fixpoint calm {A} (p : Prog A) : Prop :=
  match p with
  | Ret _ => True
  | Throw _ => False
  | Sync o k => touches_counter o = false /\ forall x, calm (k x)
  | Await c k => forall x, calm (k x)
  end.

(** Along every path the program decrements the counter exactly once,
    as the last thing it does, never increments it, and resolves. *)
Fixpoint finalizing (p : Prog unit) : Prop :=
  match p with
  | Ret _ | Throw _ => False
  | Sync o k =>
      (o = DecrActive /\ forall x, k x = Ret tt)
      \/ (touches_counter o = false /\ forall x, finalizing (k x))
  | Await c k => forall x, finalizing (k x)
  end.

(** A suspended promise chain that is yet to finalize. *)
Definition awaiting (p : Prog unit) : Prop :=
  match p with
  | Await c k => forall x, finalizing (k x)
  | _ => False
  end.

Lemma quiet_settle {A B} (p : Prog A) (f : result A -> Prog B) :
  quiet p -> (forall r, quiet (f r)) -> quiet (settle p f).
Proof.
  intros Hp Hf. induction p as [a|e|o k IH|c k IH]; cbn in *; auto.
  destruct Hp as [Ho Hk]. split; auto.
Qed.

Lemma calm_settle {A B} (p : Prog A) (f : result A -> Prog B) :
  quiet p -> (forall r, calm (f r)) -> calm (settle p f).
Proof.
  intros Hp Hf. induction p as [a|e|o k IH|c k IH]; cbn in *; auto.
  destruct Hp as [Ho Hk]. split; auto.
Qed.

Lemma finalizing_settle (p : Prog unit) (f : result unit -> Prog unit) :
  calm p -> (forall a, finalizing (f (Ok a))) -> finalizing (settle p f).
Proof.
  intros Hp Hf. induction p as [a|e|o k IH|c k IH]; cbn in *; auto.
  - contradiction.
  - destruct Hp as [Ho Hk]. right. split; auto.
Qed.

Lemma quiet_bind {A B} (p : Prog A) (f : A -> Prog B) :
  quiet p -> (forall a, quiet (f a)) -> quiet (bind p f).
Proof.
  intros Hp Hf. apply quiet_settle; [exact Hp|].
  intros [a|e]; cbn; auto.
Qed.

Lemma do_op_keeps_counter o st :
  touches_counter o = false ->
  activeTransactions (fst (fst (do_op o st))) = activeTransactions st.
Proof. destruct o; cbn; intros H; try discriminate; reflexivity. Qed.

(** One turn of a finalizing chain either suspends it again, the counter
    unchanged, or ends it, the counter one lower. *)
Lemma advance_finalizing p :
  finalizing p ->
  forall st,
    (snd (advance p st) = Ret tt
     /\ activeTransactions (fst (fst (advance p st))) = activeTransactions st - 1)
    \/ (awaiting (snd (advance p st))
        /\ activeTransactions (fst (fst (advance p st))) = activeTransactions st).
Proof.
  induction p as [a|e|o k IH|c k IH]; cbn; intros Hp st; try contradiction.
  - destruct Hp as [[-> Hk] | [Ho Hk]].
    + cbn. rewrite (Hk tt). cbn. left. split; reflexivity.
    + pose proof (do_op_keeps_counter o st Ho) as Hkeep.
      destruct (do_op o st) as [[st1 x] ev]. cbn in Hkeep.
      specialize (IH x (Hk x) st1).
      destruct (advance (k x) st1) as [[st2 tr] p']. cbn in *.
      rewrite Hkeep in IH. exact IH.
  - right. split; [exact Hp | reflexivity].
Qed.

Variable config : Config.

Lemma pipeline_quiet signature :
  quiet (processWebsocketSignature config signature).
Proof.
  unfold_pipeline. cbn.
  repeat first
    [ exact I
    | reflexivity
    | split
    | progress intros
    | match goal with x : result _ |- _ => destruct x end
    | match goal with x : Reply _ |- _ => destruct x end
    | match goal with x : option _ |- _ => destruct x end
    | progress cbn
    | split_on_test ].
Qed.

Lemma evaluation_finalizing signature : finalizing (evaluation config signature).
Proof.
  unfold evaluation, promise_finally, promise_catch.
  apply finalizing_settle.
  - apply calm_settle; [apply pipeline_quiet|].
    intros [a|e]; cbn; auto.
  - intros []. cbn. intros _. left. split; [reflexivity|]. intros _. reflexivity.
Qed.

(** The invariant of the socket transport. *)
Definition counter_invariant (sys : Sys) : Prop :=
  activeTransactions (shared sys) = Z.of_nat (List.length (pending sys))
  /\ Forall awaiting (pending sys)
  /\ unhandled sys = []
  /\ activeTransactions (shared sys) <= MAX_CONCURRENT config.

Lemma suspended_awaiting p :
  awaiting p -> suspended p = [p] /\ rejection p = [].
Proof. destruct p; cbn; intros H; try contradiction. split; reflexivity. Qed.

Lemma counter_invariant_step sys sys' :
  counter_invariant sys ->
  step (wssHandler config) sys sys' ->
  counter_invariant sys'.
Proof.
  intros (Hcount & Hall & Hun & Hmax) Hstep.
  destruct Hstep
    as [sys data st1 tr Hh
       | sys data st1 tr task st2 tr2 task' Hh Hadv
       | sys before c k after x st2 tr2 task' Hpend Hadv].
  - (* the handler starts nothing *)
    destruct (gate_cases config data (shared sys)) as [[tr' Hg] | [_ [s Hg]]];
      rewrite Hg in Hh; inversion Hh; subst.
    repeat split; assumption.
  - (* the handler starts an evaluation *)
    destruct (gate_cases config data (shared sys)) as [[tr' Hg] | [Hfree [s Hg]]];
      rewrite Hg in Hh; inversion Hh; subst; clear Hh Hg.
    pose proof (advance_finalizing _ (evaluation_finalizing s)
                  (set_active (shared sys) (activeTransactions (shared sys) + 1)))
      as Hfin.
    rewrite Hadv in Hfin. cbn [fst snd set_active activeTransactions] in Hfin.
    clear Hadv. unfold counter_invariant. cbn [shared pending unhandled].
    destruct Hfin as [[-> Hact] | [Haw Hact]].
    + cbn [suspended rejection]. rewrite !app_nil_r.
      repeat split; try assumption; lia.
    + destruct (suspended_awaiting _ Haw) as [-> ->]. rewrite app_nil_r.
      repeat split; try assumption.
      * rewrite length_app. cbn [List.length]. lia.
      * apply Forall_app. split; [assumption | now constructor].
      * lia.
  - (* a suspended evaluation goes on *)
    rewrite Hpend in Hcount, Hall.
    apply Forall_app in Hall. destruct Hall as [Hb Hrest].
    inversion Hrest as [|? ? Hk Ha]; subst. cbn [awaiting] in Hk.
    pose proof (advance_finalizing _ (Hk x) (shared sys)) as Hfin.
    rewrite Hadv in Hfin. cbn [fst snd] in Hfin. clear Hadv.
    unfold counter_invariant. cbn [shared pending unhandled].
    rewrite length_app in Hcount. cbn [List.length] in Hcount.
    destruct Hfin as [[-> Hact] | [Haw Hact]].
    + cbn [suspended rejection]. rewrite app_nil_r. cbn [app].
      rewrite length_app.
      repeat split; try assumption; try lia.
      apply Forall_app. split; assumption.
    + destruct (suspended_awaiting _ Haw) as [-> ->]. rewrite app_nil_r.
      rewrite !length_app. cbn [List.length app].
      repeat split; try assumption; try lia.
      apply Forall_app. split; [assumption | now constructor].
Qed.

Lemma counter_invariant_reachable sys :
  0 <= MAX_CONCURRENT config ->
  reachable (wssHandler config) sys ->
  counter_invariant sys.
Proof.
  intros Hmax Hreach. induction Hreach as [|s s' _ IH Hstep].
  - repeat split; [constructor | exact Hmax].
  - eapply counter_invariant_step; eassumption.
Qed.

End CounterDiscipline.

(** X25.  On the socket transport, with a limit that
    is not negative, in every state the event loop can reach:
    [activeTransactions] lies between 0 and the limit and equals the number
    of evaluations that are suspended; it is 0 when none is; no rejection
    is left unhandled; and a message that arrives while the counter equals
    the limit starts no evaluation and changes nothing.  Every evaluation
    decrements the counter exactly once along every path, as its last act,
    and resolves whatever the pipeline did. *)
Theorem in_flight_counter_websocket :
  forall (config : Index.Config) (sys : Sem.Sys),
    0 <= Index.MAX_CONCURRENT config ->
    Sem.reachable (Sem.wssHandler config) sys ->
    let active := Index.activeTransactions (Sem.shared sys) in
    (0 <= active <= Index.MAX_CONCURRENT config)
    /\ active = Z.of_nat (List.length (Sem.pending sys))
    /\ (Sem.pending sys = [] -> active = 0)
    /\ Sem.unhandled sys = []
    /\ (active = Index.MAX_CONCURRENT config ->
        forall data, exists tr,
          Sem.wssHandler config data (Sem.shared sys) = (Sem.shared sys, tr, None))
    /\ (forall signature, finalizing (Index.evaluation config signature))
    /\ (forall w signature st,
          let r := Sem.run w (Index.evaluation config signature) st in
          Sem.outcome_of r = Ok tt
          /\ Index.activeTransactions (Sem.final_state r)
             = Index.activeTransactions st - 1).
Proof.
  intros config sys Hmax Hreach active.
  destruct (counter_invariant_reachable config sys Hmax Hreach)
    as (Hcount & _ & Hun & Hle).
  fold active in Hcount, Hle.
  split; [lia|]. split; [exact Hcount|].
  split; [intros Hnil; rewrite Hcount, Hnil; reflexivity|].
  split; [exact Hun|].
  split.
  - intros Hfull data.
    destruct (gate_cases config data (Sem.shared sys)) as [Hdrop | [Hfree _]].
    + exact Hdrop.
    + fold active in Hfree. lia.
  - split.
    + apply evaluation_finalizing.
    + intros w signature st. apply evaluation_finalizes.
Qed.

(** The event loop after one notification has been admitted. *)
Definition admittedSys (config : Index.Config) : Sem.Sys :=
  let started :=
    Sem.advance (Index.evaluation config "sig")
                (Sem.set_active Index.initialState 1) in
  {| Sem.shared := fst (fst started);
     Sem.pending := (Sem.pending Sem.initialSys ++ Sem.suspended (snd started))%list;
     Sem.unhandled :=
       (Sem.unhandled Sem.initialSys ++ Sem.rejection (snd started))%list |}.

Lemma admittedSys_reachable :
  Sem.reachable (Sem.wssHandler (sampleConfig (Some "snipe") 1))
                (admittedSys (sampleConfig (Some "snipe") 1)).
Proof.
  eapply Sem.reach_step; [apply Sem.reach_init|].
  unfold admittedSys.
  eapply Sem.step_admit
    with (data := Ok sampleNotification)
         (tr2 := snd (fst (Sem.advance
                             (Index.evaluation (sampleConfig (Some "snipe") 1) "sig")
                             (Sem.set_active Index.initialState 1)))).
  - reflexivity.
  - rewrite <- !surjective_pairing. reflexivity.
Defined.

Lemma in_flight_counter_websocket_witness :
  let config := sampleConfig (Some "snipe") 1 in
  0 <= Index.MAX_CONCURRENT config
  /\ Sem.reachable (Sem.wssHandler config) (admittedSys config)
  /\ Index.activeTransactions (Sem.shared (admittedSys config)) = 1
  /\ Index.activeTransactions (Sem.shared (admittedSys config))
     = Z.of_nat (List.length (Sem.pending (admittedSys config)))
  /\ forall data, exists tr,
       Sem.wssHandler config data (Sem.shared (admittedSys config))
       = (Sem.shared (admittedSys config), tr, None).
Proof.
  intros config.
  assert (H0 : 0 <= Index.MAX_CONCURRENT config) by (vm_compute; discriminate).
  pose proof admittedSys_reachable as H1. fold config in H1.
  pose proof (in_flight_counter_websocket config (admittedSys config) H0 H1) as H.
  split; [exact H0|]. split; [exact H1|].
  split; [reflexivity|].
  split; [exact (proj1 (proj2 H))|].
  exact (proj1 (proj2 (proj2 (proj2 (proj2 H)))) eq_refl).
Defined.

(** C3.  The code breaks the claim on the streaming transport: its
    [data] handler has neither the test of the limit, nor the increment,
    nor the decrement on settling that the [message] handler of the socket
    transport has.  With the limit at 1, two updates for different assets
    leave two evaluations in flight at once, neither dropped, while the
    counter still reads 0; and with the limit at 0 an update that arrives
    while the counter equals the limit is evaluated all the same.  On the
    socket transport, with the limit at 1 and one evaluation in flight,
    the next notification is dropped. *)
Theorem grpc_counter_not_gated :
  let config := sampleConfig (Some "snipe") 1 in
  let closed := sampleConfig (Some "snipe") 0 in
  (exists sys,
     Sem.reachable (Sem.grpcHandler config) sys
     /\ Index.MAX_CONCURRENT config = 1
     /\ List.length (Sem.pending sys) = 2%nat
     /\ Index.activeTransactions (Sem.shared sys) = 0)
  /\ (exists sys,
        Sem.reachable (Sem.grpcHandler closed) sys
        /\ Index.activeTransactions Index.initialState
           = Index.MAX_CONCURRENT closed
        /\ List.length (Sem.pending sys) = 1%nat
        /\ Index.CURRENT_MINT (Sem.shared sys) = "MintX")
  /\ (Sem.reachable (Sem.wssHandler config) (admittedSys config)
      /\ List.length (Sem.pending (admittedSys config)) = 1%nat
      /\ Sem.wssHandler config (Ok sampleNotification)
           (Sem.shared (admittedSys config))
         = (Sem.shared (admittedSys config),
            [Sem.EvLog "Max concurrent transactions reached, skipping..."],
            None)).
Proof.
  intros config closed. split; [|split].
  3: { split; [apply admittedSys_reachable|]. split; reflexivity. }
  - eexists. split.
    + eapply Sem.reach_step.
      * eapply Sem.reach_step; [apply Sem.reach_init|].
        eapply Sem.step_admit with (data := createPoolUpdate config "MintX");
          [reflexivity|].
        vm_compute. reflexivity.
      * eapply Sem.step_admit with (data := createPoolUpdate config "MintY");
          [reflexivity|].
        vm_compute. reflexivity.
    + repeat split; reflexivity.
  - eexists. split.
    + eapply Sem.reach_step; [apply Sem.reach_init|].
      eapply Sem.step_admit with (data := createPoolUpdate closed "MintX");
        [reflexivity|].
      vm_compute. reflexivity.
    + repeat split; reflexivity.
Qed.

(* --------------------------------------------------------------------- *)
(** ** The streaming listener and stream errors                           *)
(* --------------------------------------------------------------------- *)

Section StreamErrors.
Import GrpcListener.
Local Open Scope list_scope.

Lemma subscriptions_app a b :
  subscriptions (a ++ b) = (subscriptions a + subscriptions b)%nat.
Proof. unfold subscriptions. now rewrite filter_app, length_app. Qed.

Lemma exits_app a b : exits (a ++ b) = exits a || exits b.
Proof. unfold exits. apply existsb_app. Qed.

(** Handling stream events opens no stream and exits nothing. *)
Lemma listen_no_subscribe events p :
  subscriptions (fst (listen events p)) = 0%nat
  /\ exits (fst (listen events p)) = false.
Proof.
  revert p. induction events as [|ev rest IH]; intros p; cbn [listen];
    [cbn; auto|].
  destruct (onEvent ev p) as [p' acts] eqn:Hev.
  specialize (IH p'). destruct (listen rest p') as [acts' final].
  cbn [fst snd] in *. destruct IH as [IHs IHe].
  rewrite !subscriptions_app, !exits_app, IHs, IHe.
  destruct ev, p; cbn in Hev; inversion Hev; subst; cbn; auto.
Qed.

(** A settled promise stays as it is. *)
Lemma listen_settled events p :
  p <> Pending -> snd (listen events p) = p.
Proof.
  revert p. induction events as [|ev rest IH]; intros p Hp; cbn; [reflexivity|].
  destruct (onEvent ev p) as [p' acts] eqn:Hev.
  assert (Hp' : p' = p)
    by (destruct ev, p; cbn in Hev; inversion Hev; congruence).
  subst p'. specialize (IH p Hp).
  destruct (listen rest p) as [acts' final]. exact IH.
Qed.

(** Data alone leaves the promise pending; the first error rejects it,
    and the listener runs its [catch]. *)
Lemma listen_until_error before error after :
  forallb is_data before = true ->
  snd (listen (before ++ OnError error :: after) Pending) = Rejected error
  /\ exists pre post,
       fst (listen (before ++ OnError error :: after) Pending)
       = pre ++ [Console "Stream error"; StreamEnd;
                 Console "Error in subscription process"; StreamEnd] ++ post.
Proof.
  induction before as [|ev before IH]; intros Hdata.
  - cbn.
    pose proof (listen_settled after (Rejected error)) as Hs.
    destruct (listen after (Rejected error)) as [acts final]. cbn in *.
    split; [apply Hs; discriminate|].
    exists [], acts. reflexivity.
  - cbn in Hdata. apply andb_true_iff in Hdata. destruct Hdata as [Hev Hrest].
    destruct ev; try discriminate. cbn.
    destruct (IH Hrest) as [Hfinal (pre & post & Hacts)].
    destruct (listen (before ++ OnError error :: after) Pending) as [acts final].
    cbn in *. split; [exact Hfinal|].
    exists (ProcessData data :: pre), post. now rewrite Hacts.
Qed.

End StreamErrors.

(** C7.  The code breaks the claim: the streaming transport has no
    reconnection, which the socket transport has (its manager is set up
    with a backoff and an unbounded number of retries).  The stream is
    opened exactly once, whatever happens afterwards.  When, after any
    amount of data, the stream reports an error, the error is logged, the
    stream is ended, the [catch] of [startGrpcListener] logs it and ends
    the stream again, and [startGrpcListener] returns: the listening loop
    is lost, and the process does not even exit through the fatal
    handler. *)
Theorem grpc_stream_error_ends_listener :
  forall (programIds : list string) (before after : list GrpcListener.StreamEvent)
         (error : JsError),
    forallb GrpcListener.is_data before = true ->
    let events := (before ++ GrpcListener.OnError error :: after)%list in
    let out := GrpcListener.main programIds (Ok tt) None events in
    snd out = GrpcListener.Returned
    /\ GrpcListener.subscriptions (fst out) = 1%nat
    /\ GrpcListener.exits (fst out) = false
    /\ (exists pre post,
          fst out
          = (pre ++ [GrpcListener.Console "Stream error"; GrpcListener.StreamEnd;
                     GrpcListener.Console "Error in subscription process";
                     GrpcListener.StreamEnd] ++ post)%list)
    /\ (forall subscribe write events',
          GrpcListener.subscriptions
            (fst (GrpcListener.main programIds subscribe write events')) = 1%nat).
Proof.
  intros programIds before after error Hdata events out.
  destruct (listen_until_error before error after Hdata)
    as [Hfinal (pre & post & Hacts)].
  destruct (listen_no_subscribe events GrpcListener.Pending) as [Hsub Hexit].
  fold events in Hfinal, Hacts.
  unfold out, GrpcListener.main, GrpcListener.startGrpcListener.
  destruct (GrpcListener.listen events GrpcListener.Pending) as [acts final].
  cbn in Hfinal, Hacts, Hsub, Hexit. subst final. cbn.
  split; [reflexivity|]. split; [now rewrite Hsub|]. split; [exact Hexit|].
  split.
  - exists (GrpcListener.Clear
            :: GrpcListener.Console "Starting Solana Token Sniper via gRPC..."
            :: GrpcListener.Subscribe :: GrpcListener.Write programIds
            :: GrpcListener.Console "Geyser connection and subscription established"
            :: pre), post.
    now rewrite Hacts.
  - intros subscribe write events'.
    unfold GrpcListener.main, GrpcListener.startGrpcListener.
    destruct subscribe as [[]|e]; [|reflexivity].
    destruct write as [e|]; [reflexivity|].
    destruct (listen_no_subscribe events' GrpcListener.Pending) as [Hsub' _].
    destruct (GrpcListener.listen events' GrpcListener.Pending) as [acts' final'].
    cbn in Hsub'.
    destruct final'; cbn; now rewrite Hsub'.
Qed.

Lemma grpc_stream_error_ends_listener_witness :
  let events :=
    [GrpcListener.OnData (createPoolUpdate (sampleConfig None 1) "MintX");
     GrpcListener.OnError "14 UNAVAILABLE: Connection dropped"] in
  let out := GrpcListener.main ["pAMM"] (Ok tt) None events in
  forallb GrpcListener.is_data
    [GrpcListener.OnData (createPoolUpdate (sampleConfig None 1) "MintX")] = true
  /\ snd out = GrpcListener.Returned
  /\ GrpcListener.subscriptions (fst out) = 1%nat.
Proof.
  intros events out.
  assert (H : forallb GrpcListener.is_data
                [GrpcListener.OnData (createPoolUpdate (sampleConfig None 1) "MintX")]
              = true) by reflexivity.
  pose proof (grpc_stream_error_ends_listener ["pAMM"]
                [GrpcListener.OnData (createPoolUpdate (sampleConfig None 1) "MintX")]
                [] "14 UNAVAILABLE: Connection dropped" H) as Hthm.
  split; [exact H|].
  split; [exact (proj1 Hthm) | exact (proj1 (proj2 Hthm))].
Defined.

(** One stream error, with no shutdown requested and no reconnect attempt
    made, and the listener has returned: all it did was log, end the
    stream and stop. *)
Lemma grpc_stream_error_trace :
  GrpcListener.main ["pAMM"] (Ok tt) None
    [GrpcListener.OnError "14 UNAVAILABLE: Connection dropped"]
  = ([GrpcListener.Clear;
      GrpcListener.Console "Starting Solana Token Sniper via gRPC...";
      GrpcListener.Subscribe;
      GrpcListener.Write ["pAMM"];
      GrpcListener.Console "Geyser connection and subscription established";
      GrpcListener.Console "Stream error";
      GrpcListener.StreamEnd;
      GrpcListener.Console "Error in subscription process";
      GrpcListener.StreamEnd],
     GrpcListener.Returned).
Proof. reflexivity. Qed.

(* ===================================================================== *)
(** * Further properties                                                  *)
(* ===================================================================== *)

(* --------------------------------------------------------------------- *)
(** ** Authority lookup                                                   *)
(* --------------------------------------------------------------------- *)

Lemma getTokenAuthorities_status conn mintAddress s :
  TokenHandler.getTokenAuthorities conn mintAddress = Ok s ->
  TokenHandler.mintAddress s = mintAddress
  /\ TokenHandler.isSecure s
     = negb (TokenHandler.hasMintAuthority s)
       && negb (TokenHandler.hasFreezeAuthority s)
  /\ exists pk info,
       TokenHandler.PublicKey_new conn mintAddress = Ok pk
       /\ TokenHandler.getMint conn pk = Ok info
       /\ TokenHandler.mintAuthorityAddress s = TokenHandler.mintAuthority info
       /\ TokenHandler.freezeAuthorityAddress s = TokenHandler.freezeAuthority info
       /\ TokenHandler.hasMintAuthority s
          = TokenHandler.is_some (TokenHandler.mintAuthority info)
       /\ TokenHandler.hasFreezeAuthority s
          = TokenHandler.is_some (TokenHandler.freezeAuthority info).
Proof.
  unfold TokenHandler.getTokenAuthorities, Res.try_catch, Res.bind.
  destruct (TokenHandler.invalidAddress mintAddress); [discriminate|].
  destruct (TokenHandler.PublicKey_new conn mintAddress) as [pk|e0] eqn:Hpk;
    [|discriminate].
  destruct (TokenHandler.getMint conn pk) as [info|e1] eqn:Hmint; [|discriminate].
  intros H. injection H as <-. cbn.
  split; [reflexivity|]. split; [reflexivity|].
  exists pk, info. repeat split; assumption || reflexivity.
Qed.

(** X1.  [getTokenAuthorities] fails in exactly three ways and passes the
    error on unchanged: an empty or blank address fails with "Invalid mint
    address" whatever the provider would say, otherwise the error of the
    [PublicKey] constructor or of [getMint] is the error thrown.  When it
    succeeds, the status is about the address asked for, it reports each
    authority exactly when [getMint] shows one, and [isSecure] holds
    exactly when neither authority is present. *)
Theorem getTokenAuthorities_outcomes :
  forall (conn : TokenHandler.Connection) (mintAddress : string),
    (forall e,
       TokenHandler.getTokenAuthorities conn mintAddress = Err e <->
       (TokenHandler.invalidAddress mintAddress = true
        /\ e = "Invalid mint address")
       \/ (TokenHandler.invalidAddress mintAddress = false
           /\ TokenHandler.PublicKey_new conn mintAddress = Err e)
       \/ (TokenHandler.invalidAddress mintAddress = false
           /\ exists pk, TokenHandler.PublicKey_new conn mintAddress = Ok pk
                         /\ TokenHandler.getMint conn pk = Err e))
    /\ (forall s,
          TokenHandler.getTokenAuthorities conn mintAddress = Ok s ->
          TokenHandler.mintAddress s = mintAddress
          /\ TokenHandler.isSecure s
             = negb (TokenHandler.hasMintAuthority s)
               && negb (TokenHandler.hasFreezeAuthority s)
          /\ exists pk info,
               TokenHandler.PublicKey_new conn mintAddress = Ok pk
               /\ TokenHandler.getMint conn pk = Ok info
               /\ TokenHandler.mintAuthorityAddress s
                  = TokenHandler.mintAuthority info
               /\ TokenHandler.freezeAuthorityAddress s
                  = TokenHandler.freezeAuthority info
               /\ TokenHandler.hasMintAuthority s
                  = TokenHandler.is_some (TokenHandler.mintAuthority info)
               /\ TokenHandler.hasFreezeAuthority s
                  = TokenHandler.is_some (TokenHandler.freezeAuthority info)).
Proof.
  intros conn m. split; [|intros s; apply getTokenAuthorities_status].
  intros e.
  unfold TokenHandler.getTokenAuthorities, Res.try_catch, Res.bind.
  destruct (TokenHandler.invalidAddress m) eqn:Hinv.
  - split.
    + intros H. injection H as <-. left. split; reflexivity.
    + intros [[_ ->] | [[H _] | [H _]]]; [reflexivity | discriminate ..].
  - destruct (TokenHandler.PublicKey_new conn m) as [pk|e0] eqn:Hpk.
    + destruct (TokenHandler.getMint conn pk) as [info|e1] eqn:Hmint.
      * split; [discriminate|].
        intros [[H _] | [[_ H] | [_ (pk' & Hpk' & H)]]]; try discriminate.
        injection Hpk' as <-. rewrite Hmint in H. discriminate.
      * split.
        -- intros H. injection H as <-. right. right.
           split; [reflexivity|]. exists pk. split; [reflexivity | exact Hmint].
        -- intros [[H _] | [[_ H] | [_ (pk' & Hpk' & H)]]]; try discriminate.
           injection Hpk' as <-. rewrite Hmint in H. injection H as <-.
           reflexivity.
    + split.
      * intros H. injection H as <-. right. left. split; reflexivity.
      * intros [[H _] | [[_ H] | [_ (pk' & Hpk' & _)]]]; try discriminate.
        injection H as <-. reflexivity.
Qed.

(** X2.  [isTokenSecure] never throws.  It answers [true] exactly when the
    lookup succeeds and each authority found is allowed by the setting
    given for it; so a failed lookup counts as insecure, and a token that
    [getTokenAuthorities] calls secure passes under every setting. *)
Theorem isTokenSecure_verdict :
  forall (conn : TokenHandler.Connection)
         (allowMintAuthority allowFreezeAuthority : bool) (mintAddress : string),
    (exists b,
       TokenHandler.isTokenSecure conn allowMintAuthority allowFreezeAuthority
         mintAddress = Ok b)
    /\ (TokenHandler.isTokenSecure conn allowMintAuthority allowFreezeAuthority
          mintAddress = Ok true <->
        exists s,
          TokenHandler.getTokenAuthorities conn mintAddress = Ok s
          /\ (TokenHandler.hasMintAuthority s = true -> allowMintAuthority = true)
          /\ (TokenHandler.hasFreezeAuthority s = true ->
              allowFreezeAuthority = true))
    /\ (forall e,
          TokenHandler.getTokenAuthorities conn mintAddress = Err e ->
          TokenHandler.isTokenSecure conn allowMintAuthority allowFreezeAuthority
            mintAddress = Ok false)
    /\ (forall s,
          TokenHandler.getTokenAuthorities conn mintAddress = Ok s ->
          TokenHandler.isSecure s = true ->
          TokenHandler.isTokenSecure conn allowMintAuthority allowFreezeAuthority
            mintAddress = Ok true).
Proof.
  intros conn am af m.
  unfold TokenHandler.isTokenSecure, Res.try_catch, Res.bind.
  destruct (TokenHandler.getTokenAuthorities conn m) as [s|e] eqn:Hget.
  - split; [eauto|]. split; [|split].
    + split.
      * intros H. injection H as H. exists s. split; [reflexivity|].
        apply andb_true_iff in H. destruct H as [H1 H2].
        apply orb_true_iff in H1. apply orb_true_iff in H2.
        split; intros Hh; [destruct H1 as [H1|H1] | destruct H2 as [H2|H2]];
          try assumption; rewrite Hh in *; discriminate.
      * intros (s' & Hs' & H1 & H2). injection Hs' as <-. f_equal.
        apply andb_true_iff. split; apply orb_true_iff.
        -- destruct (TokenHandler.hasMintAuthority s); [right; auto | left; reflexivity].
        -- destruct (TokenHandler.hasFreezeAuthority s); [right; auto | left; reflexivity].
    + intros e H. discriminate.
    + intros s' Hs' Hsec. injection Hs' as <-.
      destruct (getTokenAuthorities_status conn m s Hget) as (_ & Hs & _).
      rewrite Hs in Hsec.
      apply andb_true_iff in Hsec. destruct Hsec as [H1 H2].
      rewrite H1, H2. reflexivity.
  - split; [eauto|]. split; [|split].
    + split; [discriminate|]. intros (s & Hs & _). discriminate.
    + reflexivity.
    + intros s H. discriminate.
Qed.

(* --------------------------------------------------------------------- *)
(** ** The quick-rug-pull heuristic looks at one transaction              *)
(* --------------------------------------------------------------------- *)

(** The connection [conn] with the answer of [getSignaturesForAddress]
    replaced. *)
Definition with_signatures (conn : TokenHandler.Connection)
  (answer : result (list TokenHandler.ConfirmedSignatureInfo))
  : TokenHandler.Connection :=
  {| TokenHandler.PublicKey_new := TokenHandler.PublicKey_new conn;
     TokenHandler.getMint := TokenHandler.getMint conn;
     TokenHandler.getSignaturesForAddress := fun _ => answer;
     TokenHandler.getBlockTime := TokenHandler.getBlockTime conn;
     TokenHandler.Date_now := TokenHandler.Date_now conn |}.

(** X3.  The verdict of [isQuickRugPull] depends on the listed history
    only through the slot of its last entry: the entries before it and
    the signature of the last one do not matter.  With an empty list, or
    when the list cannot be fetched, the verdict is [false]. *)
Theorem isQuickRugPull_oldest_only :
  forall (conn : TokenHandler.Connection) (mintAddress : string)
         (front front' : list TokenHandler.ConfirmedSignatureInfo)
         (sig sig' : string) (oldestSlot : Z) (e : JsError),
    TokenHandler.isQuickRugPull
      (with_signatures conn
         (Ok (front ++ [TokenHandler.mkSignatureInfo sig oldestSlot])%list))
      mintAddress
    = TokenHandler.isQuickRugPull
        (with_signatures conn
           (Ok (front' ++ [TokenHandler.mkSignatureInfo sig' oldestSlot])%list))
        mintAddress
    /\ TokenHandler.isQuickRugPull (with_signatures conn (Ok [])) mintAddress
       = Ok false
    /\ TokenHandler.isQuickRugPull (with_signatures conn (Err e)) mintAddress
       = Ok false.
Proof.
  intros conn m front front' sig sig' sl e.
  unfold TokenHandler.isQuickRugPull, Res.try_catch, Res.bind, with_signatures.
  cbn [TokenHandler.PublicKey_new TokenHandler.getSignaturesForAddress
       TokenHandler.getBlockTime TokenHandler.Date_now].
  destruct (TokenHandler.invalidAddress m); [repeat split; reflexivity|].
  destruct (TokenHandler.PublicKey_new conn m) as [pk|e0];
    [|repeat split; reflexivity].
  rewrite !rev_app_distr. cbn [rev app TokenHandler.slot].
  repeat split; reflexivity.
Qed.

(* --------------------------------------------------------------------- *)
(** ** The requests of one [buyToken] call                                *)
(* --------------------------------------------------------------------- *)

Lemma usable_address (tokenAddress : string) :
  JsString.trim tokenAddress <> "" ->
  TokenHandler.invalidAddress tokenAddress = false.
Proof.
  intros Htrim. unfold TokenHandler.invalidAddress, JsString.truthy.
  apply orb_false_iff. split.
  - rewrite negb_involutive. apply String.eqb_neq.
    intros ->. apply Htrim. reflexivity.
  - now apply String.eqb_neq.
Qed.

Lemma positive_amount (inputAmount : Q) :
  (0 < inputAmount)%Q -> Qle_bool inputAmount 0 = false.
Proof.
  intros Hpos. destruct (Qle_bool inputAmount 0) eqn:Hle; [|reflexivity].
  apply Qle_bool_iff in Hle. exfalso. revert Hle. now apply Qlt_not_le.
Qed.

Definition succeeded (o : SniperooHandler.PostOutcome) : bool :=
  match o with SniperooHandler.PostOk => true | _ => false end.

(** What a call settles with when [o] is the outcome of its last
    request: it rejects when the test of the signature throws, and
    otherwise answers whether the request succeeded. *)
Definition settled (o : SniperooHandler.PostOutcome) : result bool :=
  match SniperooHandler.isRetryable o with
  | Err thrown => Err thrown
  | Ok _ => Ok (succeeded o)
  end.

Section BuyTokenShape.
Import SniperooHandler.
Local Open Scope nat_scope.
Local Open Scope list_scope.

Variable api : Api.
Variables (tokenAddress : string) (inputAmount tp sl : Q).
Hypothesis Haddress : TokenHandler.invalidAddress tokenAddress = false.
Hypothesis Hamount : Qle_bool inputAmount 0 = false.

(** From attempt [r] on, the requests are numbered [r .. stop], all with
    the same body; [stop] is the first attempt that is not to be retried. *)
Lemma attempt_shape : forall k sell r,
  MAX_RETRIES - r <= k ->
  r <= MAX_RETRIES ->
  let body := requestOf api tokenAddress inputAmount tp sl sell in
  let out := attemptBuyToken api tokenAddress inputAmount tp sl sell r in
  exists stop,
    r <= stop <= MAX_RETRIES
    /\ posts (fst out) = map (fun n => (n, body)) (seq r (S stop - r))
    /\ (forall n, r <= n < stop -> isRetryable (axios_post api n body) = Ok true)
    /\ (stop < MAX_RETRIES -> isRetryable (axios_post api stop body) <> Ok true)
    /\ snd out = settled (axios_post api stop body).
Proof.
  assert (Hstop : forall sell r,
    r <= MAX_RETRIES ->
    let body := requestOf api tokenAddress inputAmount tp sl sell in
    forall tr res,
      posts tr = [(r, body)] ->
      res = settled (axios_post api r body) ->
      (r < MAX_RETRIES -> isRetryable (axios_post api r body) <> Ok true) ->
      exists stop,
        r <= stop <= MAX_RETRIES
        /\ posts (fst (tr, res)) = map (fun n => (n, body)) (seq r (S stop - r))
        /\ (forall n, r <= n < stop ->
              isRetryable (axios_post api n body) = Ok true)
        /\ (stop < MAX_RETRIES ->
              isRetryable (axios_post api stop body) <> Ok true)
        /\ snd (tr, res) = settled (axios_post api stop body)).
  { intros sell r Hr body tr res Hposts Hres Hnot.
    exists r. replace (S r - r) with 1 by lia. cbn [fst snd map seq].
    split; [lia|]. split; [exact Hposts|]. split; [intros; lia|].
    split; assumption. }
  induction k as [|k IH]; intros sell r Hk Hr body out; subst out;
    rewrite attempt_unfold, Haddress, Hamount; cbv zeta; fold body.
  - (* r = MAX_RETRIES: no retry is left *)
    assert (r = MAX_RETRIES) by lia. subst r.
    unfold settled.
    destruct (axios_post api MAX_RETRIES body) eqn:Hpost;
      [ | destruct (isRetryable (PostAxiosError response)) as [[|]|thrown] eqn:Hsig
        | ];
      rewrite ?Nat.ltb_irrefl, ?andb_false_r;
      apply (Hstop sell MAX_RETRIES Hr); fold body;
        unfold settled; rewrite ?Hpost, ?Hsig; try reflexivity; intros; lia.
  - unfold settled.
    destruct (axios_post api r body) as [|resp|e] eqn:Hpost.
    + apply (Hstop sell r Hr); fold body; unfold settled; rewrite ?Hpost;
        try reflexivity. intros _. discriminate.
    + destruct (isRetryable (PostAxiosError resp)) as [retry|thrown] eqn:Hsig.
      2: { apply (Hstop sell r Hr); fold body; unfold settled;
             rewrite ?Hpost, ?Hsig; try reflexivity. intros _. discriminate. }
      destruct (retry && (r <? MAX_RETRIES)) eqn:Hretry.
      * apply andb_true_iff in Hretry. destruct Hretry as [-> Hlt].
        apply Nat.ltb_lt in Hlt.
        set (sell' := if isZero tp || isZero sl then false else sell).
        destruct (IH sell' (S r) ltac:(lia) ltac:(lia))
          as (stop & Hrange & Hposts & Hbefore & Hstop' & Hres).
        cbv zeta in Hposts, Hbefore, Hstop', Hres.
        pose proof (requestOf_idem api tokenAddress inputAmount tp sl sell)
          as Hidem.
        fold sell' in Hidem. fold body in Hidem.
        rewrite Hidem in Hposts, Hbefore, Hstop', Hres.
        exists stop. cbn [fst snd posts].
        split; [lia|]. split.
        { rewrite Hposts. replace (S stop - r) with (S (S stop - S r)) by lia.
          reflexivity. }
        split.
        { intros n Hn. destruct (Nat.eq_dec n r) as [->|Hne].
          - rewrite Hpost. exact Hsig.
          - apply Hbefore. lia. }
        split; [exact Hstop'|]. exact Hres.
      * apply (Hstop sell r Hr); fold body; unfold settled;
          rewrite ?Hpost, ?Hsig; try reflexivity.
        intros Hlt. apply Nat.ltb_lt in Hlt. rewrite Hlt, andb_true_r in Hretry.
        subst retry. discriminate.
    + apply (Hstop sell r Hr); fold body; unfold settled; rewrite ?Hpost;
        try reflexivity. intros _. discriminate.
Qed.

End BuyTokenShape.

(** X4.  With a usable address and a positive amount, [buyToken] sends
    requests number 0 to [stop], where [stop] is the first attempt, among
    at most four, whose outcome is not the retryable failure (or the fourth
    attempt).  What the call settles with is decided by request [stop]
    alone: it answers [true] when that request succeeds, it rejects when
    the test of the signature throws on its failure, and it answers
    [false] otherwise.  In particular, when all four attempts fail in the
    retryable way, four requests are sent and the result is [false]. *)
Theorem buyToken_request_count :
  forall (api : SniperooHandler.Api) (tokenAddress : string)
         (inputAmount : Q) (sell : bool) (tp sl : Q),
    JsString.trim tokenAddress <> "" ->
    (0 < inputAmount)%Q ->
    let body := requestOf api tokenAddress inputAmount tp sl sell in
    let out := SniperooHandler.buyToken api tokenAddress inputAmount sell tp sl in
    (exists stop,
       (stop <= SniperooHandler.MAX_RETRIES)%nat
       /\ posts (fst out) = map (fun n => (n, body)) (seq 0 (S stop))
       /\ (forall n, (n < stop)%nat ->
             SniperooHandler.isRetryable (SniperooHandler.axios_post api n body)
             = Ok true)
       /\ ((stop < SniperooHandler.MAX_RETRIES)%nat ->
             SniperooHandler.isRetryable (SniperooHandler.axios_post api stop body)
             <> Ok true)
       /\ snd out = settled (SniperooHandler.axios_post api stop body))
    /\ ((forall n, (n <= SniperooHandler.MAX_RETRIES)%nat ->
           SniperooHandler.isRetryable (SniperooHandler.axios_post api n body)
           = Ok true) ->
        List.length (posts (fst out)) = 4%nat /\ snd out = Ok false)
    /\ (forall thrown,
          SniperooHandler.isRetryable (SniperooHandler.axios_post api 0 body)
          = Err thrown ->
          posts (fst out) = [(0%nat, body)] /\ snd out = Err thrown).
Proof.
  intros api tok amt sell tp sl Htrim Hpos body out.
  destruct (attempt_shape api tok amt tp sl (usable_address tok Htrim)
              (positive_amount amt Hpos) SniperooHandler.MAX_RETRIES sell 0%nat
              ltac:(lia) ltac:(lia))
    as (stop & Hrange & Hposts & Hbefore & Hstop & Hres).
  fold body in Hposts, Hbefore, Hstop, Hres.
  change (SniperooHandler.attemptBuyToken api tok amt tp sl sell 0) with out
    in Hposts, Hres.
  rewrite Nat.sub_0_r in Hposts.
  split; [|split].
  - exists stop. split; [lia|]. split; [exact Hposts|].
    split; [intros n Hn; apply Hbefore; lia|]. split; assumption.
  - intros Hall.
    assert (stop = SniperooHandler.MAX_RETRIES).
    { destruct (Nat.eq_dec stop SniperooHandler.MAX_RETRIES) as [|Hne];
        [assumption|].
      exfalso. apply Hstop; [lia|]. apply Hall. lia. }
    subst stop. split.
    + rewrite Hposts, length_map, length_seq. reflexivity.
    + rewrite Hres. unfold settled.
      rewrite (Hall SniperooHandler.MAX_RETRIES (Nat.le_refl _)).
      destruct (SniperooHandler.axios_post api SniperooHandler.MAX_RETRIES body)
        eqn:Hlast; try reflexivity.
      specialize (Hall SniperooHandler.MAX_RETRIES (Nat.le_refl _)).
      rewrite Hlast in Hall. discriminate.
  - intros thrown Hth.
    assert (stop = 0%nat).
    { destruct stop as [|stop]; [reflexivity|].
      rewrite (Hbefore 0%nat) in Hth by lia. discriminate. }
    subst stop. split; [exact Hposts|].
    rewrite Hres. unfold settled. now rewrite Hth.
Qed.

(** A trading service whose every answer is the retryable failure. *)
Definition flakyApi : SniperooHandler.Api :=
  {| SniperooHandler.SNIPEROO_PUBKEY := "Wallet";
     SniperooHandler.axios_post := fun _ _ =>
       SniperooHandler.PostAxiosError
         (Some {| SniperooHandler.status := 400;
                  SniperooHandler.data :=
                    Some {| SniperooHandler.code_error :=
                              Some "INTERNAL_SERVER_ERROR";
                            SniperooHandler.message :=
                              Some (SniperooHandler.MessageString
                                      "Transaction failed due to an unknown reason") |} |}) |}.

Lemma buyToken_request_count_witness :
  JsString.trim "MintX" <> ""
  /\ (0 < 1 # 100)%Q
  /\ List.length
       (posts (fst (SniperooHandler.buyToken flakyApi "MintX" (1 # 100) true 50 15)))
     = 4%nat
  /\ snd (SniperooHandler.buyToken flakyApi "MintX" (1 # 100) true 50 15)
     = Ok false
  /\ snd (SniperooHandler.buyToken malformedApi "MintX" (1 # 100) true 50 15)
     = Err SniperooHandler.includesTypeError.
Proof.
  assert (Ht : JsString.trim "MintX" <> "") by (vm_compute; discriminate).
  assert (Hp : (0 < 1 # 100)%Q) by reflexivity.
  split; [exact Ht|]. split; [exact Hp|].
  split; [|split].
  - apply (proj1 (proj2 (buyToken_request_count flakyApi "MintX" (1 # 100)
                           true 50 15 Ht Hp))).
    intros n _. reflexivity.
  - apply (proj1 (proj2 (buyToken_request_count flakyApi "MintX" (1 # 100)
                           true 50 15 Ht Hp))).
    intros n _. reflexivity.
  - apply (proj2 (proj2 (buyToken_request_count malformedApi "MintX" (1 # 100)
                           true 50 15 Ht Hp))).
    reflexivity.
Defined.

(** X5.  Every request of one [buyToken] call carries the same body: the
    wallet of the environment alone, the token address exactly as it was
    passed (it is trimmed for validation only), the amount, the strategy
    "simple" with the two percentages as passed, and auto-sell enabled
    exactly when the sell flag was set and neither percentage is zero. *)
Theorem buyToken_requests_verbatim :
  forall (api : SniperooHandler.Api) (tokenAddress : string)
         (inputAmount : Q) (sell : bool) (tp sl : Q) (n : nat)
         (body : SniperooHandler.RequestBody),
    In (n, body)
       (posts (fst (SniperooHandler.buyToken api tokenAddress inputAmount
                      sell tp sl))) ->
    SniperooHandler.walletAddresses body = [SniperooHandler.SNIPEROO_PUBKEY api]
    /\ SniperooHandler.body_tokenAddress body = tokenAddress
    /\ SniperooHandler.body_inputAmount body = inputAmount
    /\ SniperooHandler.strategyName (SniperooHandler.autoSell body) = "simple"
    /\ SniperooHandler.profitPercentage (SniperooHandler.autoSell body) = tp
    /\ SniperooHandler.stopLossPercentage (SniperooHandler.autoSell body) = sl
    /\ SniperooHandler.enabled (SniperooHandler.autoSell body)
       = sell && negb (SniperooHandler.isZero tp)
              && negb (SniperooHandler.isZero sl).
Proof.
  intros api tok amt sell tp sl n body Hin.
  destruct (buyToken_ok api tok amt tp sl sell) as [_ _ _ _ _ _ Hbody _ _].
  rewrite (Hbody n body Hin). unfold requestOf. cbn.
  repeat split.
  destruct sell, (SniperooHandler.isZero tp), (SniperooHandler.isZero sl);
    reflexivity.
Qed.

Lemma buyToken_requests_verbatim_witness :
  In (0%nat, requestOf sampleApi " MintX " (1 # 100) 0 15 true)
     (posts (fst (SniperooHandler.buyToken sampleApi " MintX " (1 # 100)
                    true 0 15)))
  /\ SniperooHandler.body_tokenAddress
       (requestOf sampleApi " MintX " (1 # 100) 0 15 true) = " MintX "
  /\ SniperooHandler.enabled
       (SniperooHandler.autoSell
          (requestOf sampleApi " MintX " (1 # 100) 0 15 true)) = false.
Proof.
  assert (Hin : In (0%nat, requestOf sampleApi " MintX " (1 # 100) 0 15 true)
                   (posts (fst (SniperooHandler.buyToken sampleApi " MintX "
                                  (1 # 100) true 0 15))))
    by (left; reflexivity).
  pose proof (buyToken_requests_verbatim sampleApi " MintX " (1 # 100) true 0 15
                0%nat _ Hin) as H.
  split; [exact Hin|].
  split; [exact (proj1 (proj2 H))|].
  exact (proj2 (proj2 (proj2 (proj2 (proj2 (proj2 H)))))).
Defined.

(* --------------------------------------------------------------------- *)
(** ** What the pipeline passes to [buyToken]                             *)
(* --------------------------------------------------------------------- *)

Lemma or_number_not_zero (x : option Q) (d : Q) :
  SniperooHandler.isZero d = false ->
  SniperooHandler.isZero (Index.or_number x d) = false.
Proof.
  intros Hd. unfold Index.or_number, SniperooHandler.isZero in *.
  destruct x as [q|]; [|exact Hd].
  destruct (Qeq_bool q 0) eqn:Hq; assumption.
Qed.

(** X6.  The take-profit and stop-loss percentages the pipeline passes to
    [buyToken] are never zero: a configured value of 0, like a missing
    one, is replaced by 50 and 15.  So the zero guard of [buyToken] never
    fires for a purchase made by the pipeline, and every request it sends
    has auto-sell enabled exactly when [token_sell.enabled] is set. *)
Theorem pipeline_autosell_passthrough :
  forall (config : Index.Config),
    (SniperooHandler.isZero (Index.SELL_TAKE_PROFIT config) = false
     /\ SniperooHandler.isZero (Index.SELL_STOP_LOSS config) = false)
    /\ (forall q, Index.token_sell_take_profit_percent config = Some q ->
          (q == 0)%Q -> Index.SELL_TAKE_PROFIT config = 50%Q)
    /\ (forall q, Index.token_sell_stop_loss_percent config = Some q ->
          (q == 0)%Q -> Index.SELL_STOP_LOSS config = 15%Q)
    /\ (forall api m n body,
          In (n, body)
             (posts (fst (SniperooHandler.buyToken api m
                            (Index.BUY_AMOUNT config) (Index.SELL_ENABLED config)
                            (Index.SELL_TAKE_PROFIT config)
                            (Index.SELL_STOP_LOSS config)))) ->
          SniperooHandler.enabled (SniperooHandler.autoSell body)
          = Index.or_false (Index.token_sell_enabled config)).
Proof.
  intros config.
  assert (Htp : SniperooHandler.isZero (Index.SELL_TAKE_PROFIT config) = false)
    by (apply or_number_not_zero; reflexivity).
  assert (Hsl : SniperooHandler.isZero (Index.SELL_STOP_LOSS config) = false)
    by (apply or_number_not_zero; reflexivity).
  split; [split; assumption|].
  split; [|split].
  - intros q Hq Hz. apply Qeq_bool_iff in Hz.
    unfold Index.SELL_TAKE_PROFIT, Index.or_number. now rewrite Hq, Hz.
  - intros q Hq Hz. apply Qeq_bool_iff in Hz.
    unfold Index.SELL_STOP_LOSS, Index.or_number. now rewrite Hq, Hz.
  - intros api m n body Hin.
    destruct (buyToken_ok api m (Index.BUY_AMOUNT config)
                (Index.SELL_TAKE_PROFIT config) (Index.SELL_STOP_LOSS config)
                (Index.SELL_ENABLED config)) as [_ _ _ _ _ _ Hbody _ _].
    rewrite (Hbody n body Hin). unfold requestOf.
    cbn [SniperooHandler.autoSell SniperooHandler.enabled].
    rewrite Htp, Hsl. reflexivity.
Qed.

(* --------------------------------------------------------------------- *)
(** ** When a purchase is attempted                                       *)
(* --------------------------------------------------------------------- *)

(** Expose the resolution step of the socket-transport evaluation:
    [Hres : resolved w signature = Some m]. *)
Ltac resolve_signature w Hres :=
  unfold resolved in Hres;
  change (Sem.signatureLookup w ?s)
    with (Sem.answer w (Index.CGetMintFromSignature s)) in Hres;
  match type of Hres with
  | context [Sem.answer w (Index.CGetMintFromSignature ?s)] =>
      let m' := fresh "m'" in
      let Hans := fresh "Hans" in
      let Ht := fresh "Ht" in
      destruct (Sem.answer w (Index.CGetMintFromSignature s))
        as [[m'|]|?] eqn:Hans;
      try discriminate;
      destruct (JsString.truthy m') eqn:Ht; try discriminate;
      injection Hres as ->;
      unfold_pipeline; cbn; rewrite Hans; cbn; rewrite Ht; cbn
  end.

Lemma grpc_buy_only_if_live config w st m :
  Sem.buy_attempted
    (Sem.trace_of (Sem.run w (Index.processGrpcMint config m) st)) = true ->
  live config = true.
Proof. unfold_pipeline. crunch; intros; finish. Qed.

Lemma ws_buy_only_if_live config w st signature :
  Sem.buy_attempted
    (Sem.trace_of (Sem.run w (Index.processWebsocketSignature config signature) st))
  = true ->
  live config = true.
Proof. unfold_pipeline. crunch; intros; finish. Qed.

(** The verdict [isTokenSecure] gives under the settings of [config]. *)
Definition secureUnderSettings (config : Index.Config) (w : Sem.World)
  (m : string) : result bool :=
  TokenHandler.isTokenSecure (Sem.connection w)
    (Index.or_false (Index.allow_mint_authority config))
    (Index.or_false (Index.allow_freeze_authority config)) m.

(** X7.  In [snipe] mode, on either transport, an admitted candidate is
    bought exactly when a live purchase is configured and the candidate
    passes [isTokenSecure] under the configured settings: the test written
    out in the pipeline and the one of the token handler agree.  When the
    lookup throws, the evaluation rejects with that error. *)
Theorem snipe_mode_purchase :
  forall (config : Index.Config) (w : Sem.World) (st : Index.State)
         (m signature : string),
    Index.CHECK_MODE config = "snipe" ->
    Index.CURRENT_MINT st <> m ->
    resolved w signature = Some m ->
    let grpc := Sem.run w (Index.processGrpcMint config m) st in
    let ws := Sem.run w (Index.processWebsocketSignature config signature) st in
    Sem.buy_attempted (Sem.trace_of grpc)
    = live config && says_true (secureUnderSettings config w m)
    /\ Sem.buy_attempted (Sem.trace_of ws)
       = live config && says_true (secureUnderSettings config w m)
    /\ (forall e,
          TokenHandler.getTokenAuthorities (Sem.connection w) m = Err e ->
          Sem.outcome_of grpc = Err e /\ Sem.outcome_of ws = Err e).
Proof.
  intros config w st m signature Hmode Hne Hres grpc ws.
  apply String.eqb_neq in Hne.
  unfold secureUnderSettings, TokenHandler.isTokenSecure, Res.try_catch, Res.bind.
  change (TokenHandler.getTokenAuthorities (Sem.connection w) m)
    with (Sem.answer w (Index.CGetTokenAuthorities m)).
  pose proof (getTokenAuthorities_status (Sem.connection w) m) as Hstatus.
  change (TokenHandler.getTokenAuthorities (Sem.connection w) m)
    with (Sem.answer w (Index.CGetTokenAuthorities m)) in Hstatus.
  subst grpc ws.
  destruct (Sem.answer w (Index.CGetTokenAuthorities m)) as [a|e] eqn:Hauth.
  - destruct (Hstatus a eq_refl) as (_ & Hsec & _). clear Hstatus.
    split; [|split; [|intros e' He'; discriminate]].
    + unfold_pipeline. cbn. rewrite Hne, Hmode. cbn. rewrite Hauth. cbn.
      rewrite Hsec.
      destruct (TokenHandler.hasMintAuthority a),
        (TokenHandler.hasFreezeAuthority a),
        (Index.or_false (Index.allow_mint_authority config)),
        (Index.or_false (Index.allow_freeze_authority config)),
        (String.eqb (Index.BUY_PROVIDER config) "sniperoo"),
        (Index.SIM_MODE config); crunch; finish.
    + resolve_signature w Hres. rewrite Hne, Hmode. cbn. rewrite Hauth. cbn.
      rewrite Hsec.
      destruct (TokenHandler.hasMintAuthority a),
        (TokenHandler.hasFreezeAuthority a),
        (Index.or_false (Index.allow_mint_authority config)),
        (Index.or_false (Index.allow_freeze_authority config)),
        (String.eqb (Index.BUY_PROVIDER config) "sniperoo"),
        (Index.SIM_MODE config); crunch; finish.
  - clear Hstatus. split; [|split].
    + unfold_pipeline. cbn. rewrite Hne, Hmode. cbn. rewrite Hauth. cbn.
      now rewrite andb_false_r.
    + resolve_signature w Hres. rewrite Hne, Hmode. cbn. rewrite Hauth. cbn.
      now rewrite andb_false_r.
    + intros e' He'. injection He' as <-. split.
      * unfold_pipeline. cbn. rewrite Hne, Hmode. cbn. rewrite Hauth. reflexivity.
      * resolve_signature w Hres. rewrite Hne, Hmode. cbn. rewrite Hauth.
        reflexivity.
Qed.

Lemma snipe_mode_purchase_witness :
  let config := sampleConfig (Some "snipe") 1 in
  let w := sampleWorld (sampleConnection 1000) sampleApi (Ok true) in
  Index.CHECK_MODE config = "snipe"
  /\ Index.CURRENT_MINT Index.initialState <> "MintX"
  /\ resolved w "sig" = Some "MintX"
  /\ Sem.buy_attempted
       (Sem.trace_of (Sem.run w (Index.processGrpcMint config "MintX")
                              Index.initialState))
     = live config && says_true (secureUnderSettings config w "MintX").
Proof.
  intros config w.
  assert (H1 : Index.CHECK_MODE config = "snipe") by reflexivity.
  assert (H2 : Index.CURRENT_MINT Index.initialState <> "MintX") by discriminate.
  assert (H3 : resolved w "sig" = Some "MintX") by reflexivity.
  split; [exact H1|]. split; [exact H2|]. split; [exact H3|].
  exact (proj1 (snipe_mode_purchase config w Index.initialState "MintX" "sig"
                  H1 H2 H3)).
Defined.

(** The suffix test of the [full] chain (lines 225 and 425). *)
Definition suffixRejected (config : Index.Config) (m : string) : bool :=
  JsString.endsWith (JsString.toLowerCase (JsString.trim m)) "pump"
  && Index.ignore_ends_with_pump config.

(** X8.  In [full] mode, on either transport, an admitted candidate is
    bought exactly when a live purchase is configured, the suffix test does
    not reject it and the rug check confirms it.  A candidate the suffix
    test rejects is not even submitted to the rug check. *)
Theorem full_mode_purchase :
  forall (config : Index.Config) (w : Sem.World) (st : Index.State)
         (m signature : string),
    Index.CHECK_MODE config = "full" ->
    Index.CURRENT_MINT st <> m ->
    resolved w signature = Some m ->
    let grpc := Sem.run w (Index.processGrpcMint config m) st in
    let ws := Sem.run w (Index.processWebsocketSignature config signature) st in
    let bought :=
      live config && negb (suffixRejected config m)
      && says_true (Sem.rugCheck w m) in
    Sem.buy_attempted (Sem.trace_of grpc) = bought
    /\ Sem.buy_attempted (Sem.trace_of ws) = bought
    /\ Sem.check_queried (Sem.trace_of grpc) = negb (suffixRejected config m)
    /\ Sem.check_queried (Sem.trace_of ws) = negb (suffixRejected config m).
Proof.
  intros config w st m signature Hmode Hne Hres grpc ws bought.
  apply String.eqb_neq in Hne.
  subst grpc ws bought. unfold suffixRejected.
  change (Sem.rugCheck w m) with (Sem.answer w (Index.CGetRugCheckConfirmed m)).
  split; [|split; [|split]].
  - unfold_pipeline. cbn. rewrite Hne, Hmode. cbn.
    destruct (_ && Index.ignore_ends_with_pump config);
      [cbn; now rewrite andb_false_r|].
    destruct (String.eqb (Index.BUY_PROVIDER config) "sniperoo"),
      (Index.SIM_MODE config); crunch; finish.
  - resolve_signature w Hres. rewrite Hne, Hmode. cbn.
    destruct (_ && Index.ignore_ends_with_pump config);
      [cbn; now rewrite andb_false_r|].
    destruct (String.eqb (Index.BUY_PROVIDER config) "sniperoo"),
      (Index.SIM_MODE config); crunch; finish.
  - unfold_pipeline. cbn. rewrite Hne, Hmode. cbn.
    destruct (_ && Index.ignore_ends_with_pump config); [reflexivity|].
    crunch; finish.
  - resolve_signature w Hres. rewrite Hne, Hmode. cbn.
    destruct (_ && Index.ignore_ends_with_pump config); [reflexivity|].
    crunch; finish.
Qed.

Lemma full_mode_purchase_witness :
  let config := sampleConfig (Some "full") 1 in
  let w := sampleWorld (sampleConnection 1000) sampleApi (Ok true) in
  Index.CHECK_MODE config = "full"
  /\ Index.CURRENT_MINT Index.initialState <> "MintX"
  /\ resolved w "sig" = Some "MintX"
  /\ Sem.buy_attempted
       (Sem.trace_of (Sem.run w (Index.processWebsocketSignature config "sig")
                              Index.initialState))
     = live config && negb (suffixRejected config "MintX")
       && says_true (Sem.rugCheck w "MintX").
Proof.
  intros config w.
  assert (H1 : Index.CHECK_MODE config = "full") by reflexivity.
  assert (H2 : Index.CURRENT_MINT Index.initialState <> "MintX") by discriminate.
  assert (H3 : resolved w "sig" = Some "MintX") by reflexivity.
  split; [exact H1|]. split; [exact H2|]. split; [exact H3|].
  exact (proj1 (proj2 (full_mode_purchase config w Index.initialState
                         "MintX" "sig" H1 H2 H3))).
Defined.

(** X9.  In [pumpdump] mode the socket transport makes no check at all:
    its evaluation has no branch for that mode, so an admitted candidate is
    bought whenever a live purchase is configured, without the
    quick-rug-pull heuristic or any other collaborator being asked. *)
Theorem pumpdump_mode_websocket_unchecked :
  forall (config : Index.Config) (w : Sem.World) (st : Index.State)
         (m signature : string),
    Index.CHECK_MODE config = "pumpdump" ->
    Index.CURRENT_MINT st <> m ->
    resolved w signature = Some m ->
    let ws := Sem.run w (Index.processWebsocketSignature config signature) st in
    Sem.check_queried (Sem.trace_of ws) = false
    /\ Sem.buy_attempted (Sem.trace_of ws) = live config.
Proof.
  intros config w st m signature Hmode Hne Hres ws.
  apply String.eqb_neq in Hne. subst ws.
  split; resolve_signature w Hres; rewrite Hne, Hmode; cbn; crunch; finish.
Qed.

Lemma pumpdump_mode_websocket_unchecked_witness :
  let config := sampleConfig (Some "pumpdump") 1 in
  let w := sampleWorld (sampleConnection 1990) sampleApi (Ok false) in
  Index.CHECK_MODE config = "pumpdump"
  /\ Index.CURRENT_MINT Index.initialState <> "MintX"
  /\ resolved w "sig" = Some "MintX"
  /\ TokenHandler.isQuickRugPull (Sem.connection w) "MintX" = Ok false
  /\ Sem.buy_attempted
       (Sem.trace_of (Sem.run w (Index.processWebsocketSignature config "sig")
                              Index.initialState)) = live config.
Proof.
  intros config w.
  assert (H1 : Index.CHECK_MODE config = "pumpdump") by reflexivity.
  assert (H2 : Index.CURRENT_MINT Index.initialState <> "MintX") by discriminate.
  assert (H3 : resolved w "sig" = Some "MintX") by reflexivity.
  split; [exact H1|]. split; [exact H2|]. split; [exact H3|].
  split; [reflexivity|].
  exact (proj2 (pumpdump_mode_websocket_unchecked config w Index.initialState
                  "MintX" "sig" H1 H2 H3)).
Defined.

(* --------------------------------------------------------------------- *)
(** ** What an evaluation never does                                      *)
(* --------------------------------------------------------------------- *)

Definition buy_calls (tr : Sem.Trace) : Sem.Trace := filter Sem.is_buy tr.

Definition is_sound (e : Sem.Event) : bool :=
  match e with Sem.EvSound _ => true | _ => false end.

Definition sounds (tr : Sem.Trace) : Sem.Trace := filter is_sound tr.

(** A configuration in simulation mode, everything else left out. *)
Definition simulationConfig : Index.Config :=
  {| Index.concurrent_transactions := 1;
     Index.checks_mode := Some "full";
     Index.checks_simulation_mode := Some true;
     Index.allow_mint_authority := None;
     Index.allow_freeze_authority := None;
     Index.ignore_ends_with_pump := true;
     Index.token_stream_mode := Some "wss";
     Index.liquidity_pool := [];
     Index.token_buy_provider := "sniperoo";
     Index.token_buy_sol_amount := 1 # 100;
     Index.token_buy_play_sound := Some true;
     Index.token_sell_enabled := None;
     Index.token_sell_stop_loss_percent := None;
     Index.token_sell_take_profit_percent := None;
     Index.wsol_pc_mint := "So11111111111111111111111111111111111111112" |}.

(** X10.  Without a live purchase configured (simulation mode on, or a
    provider other than "sniperoo"), no evaluation on either transport
    ever calls [buyToken], whatever the mode and the collaborators'
    answers; an admitted candidate then stays in the last-seen slot. *)
Theorem no_purchase_unless_live :
  forall (config : Index.Config) (w : Sem.World) (st : Index.State)
         (m signature : string),
    live config = false ->
    let grpc := Sem.run w (Index.processGrpcMint config m) st in
    let ws := Sem.run w (Index.processWebsocketSignature config signature) st in
    Sem.buy_attempted (Sem.trace_of grpc) = false
    /\ Sem.buy_attempted (Sem.trace_of ws) = false
    /\ (Index.CURRENT_MINT st <> m ->
        Index.CURRENT_MINT (Sem.final_state grpc) = m)
    /\ (resolved w signature = Some m -> Index.CURRENT_MINT st <> m ->
        Index.CURRENT_MINT (Sem.final_state ws) = m).
Proof.
  intros config w st m signature Hlive grpc ws.
  assert (Hg : Sem.buy_attempted (Sem.trace_of grpc) = false).
  { destruct (Sem.buy_attempted (Sem.trace_of grpc)) eqn:Hb; [|reflexivity].
    apply grpc_buy_only_if_live in Hb. congruence. }
  assert (Hw : Sem.buy_attempted (Sem.trace_of ws) = false).
  { destruct (Sem.buy_attempted (Sem.trace_of ws)) eqn:Hb; [|reflexivity].
    apply ws_buy_only_if_live in Hb. congruence. }
  split; [exact Hg|]. split; [exact Hw|]. split.
  - intros Hne.
    destruct (grpc_admitted config w st m Hne) as (Hslot & _).
    fold grpc in Hslot. unfold purchase_failed in Hslot.
    now rewrite Hg in Hslot.
  - intros Hres Hne.
    destruct (ws_admitted config w st signature m Hres Hne) as (Hslot & _).
    fold ws in Hslot. unfold purchase_failed in Hslot.
    now rewrite Hw in Hslot.
Qed.

Lemma no_purchase_unless_live_witness :
  let w := sampleWorld (sampleConnection 1000) sampleApi (Ok true) in
  let ws :=
    Sem.run w (Index.processWebsocketSignature simulationConfig "sig")
            Index.initialState in
  live simulationConfig = false
  /\ resolved w "sig" = Some "MintX"
  /\ Index.CURRENT_MINT Index.initialState <> "MintX"
  /\ Sem.buy_attempted (Sem.trace_of ws) = false
  /\ Index.CURRENT_MINT (Sem.final_state ws) = "MintX".
Proof.
  intros w ws.
  assert (H1 : live simulationConfig = false) by reflexivity.
  assert (H2 : resolved w "sig" = Some "MintX") by reflexivity.
  assert (H3 : Index.CURRENT_MINT Index.initialState <> "MintX") by discriminate.
  pose proof (no_purchase_unless_live simulationConfig w Index.initialState
                "MintX" "sig" H1) as H.
  split; [exact H1|]. split; [exact H2|]. split; [exact H3|].
  split; [exact (proj1 (proj2 H))|].
  exact (proj2 (proj2 (proj2 H)) H2 H3).
Defined.

(** X11.  One evaluation calls [buyToken] at most once, and then for the
    candidate itself with the configured amount, sell flag and
    percentages; this holds on either transport, in every mode and
    whatever the collaborators answer. *)
Theorem one_purchase_per_evaluation :
  forall (config : Index.Config) (w : Sem.World) (st : Index.State)
         (m signature : string),
    resolved w signature = Some m ->
    let grpc := Sem.run w (Index.processGrpcMint config m) st in
    let ws := Sem.run w (Index.processWebsocketSignature config signature) st in
    (buy_calls (Sem.trace_of grpc) = []
     \/ buy_calls (Sem.trace_of grpc) = [Sem.EvCall (buyCall config m)])
    /\ (buy_calls (Sem.trace_of ws) = []
        \/ buy_calls (Sem.trace_of ws) = [Sem.EvCall (buyCall config m)]).
Proof.
  intros config w st m signature Hres grpc ws. subst grpc ws.
  unfold buy_calls. split.
  - unfold_pipeline. crunch; auto.
  - resolve_signature w Hres. crunch; auto.
Qed.

Lemma one_purchase_per_evaluation_witness :
  let config := sampleConfig (Some "none") 1 in
  let w := sampleWorld (sampleConnection 1000) sampleApi (Ok true) in
  resolved w "sig" = Some "MintX"
  /\ (buy_calls
        (Sem.trace_of (Sem.run w (Index.processGrpcMint config "MintX")
                               Index.initialState)) = []
      \/ buy_calls
           (Sem.trace_of (Sem.run w (Index.processGrpcMint config "MintX")
                                  Index.initialState))
         = [Sem.EvCall (buyCall config "MintX")]).
Proof.
  intros config w.
  assert (H : resolved w "sig" = Some "MintX") by reflexivity.
  split; [exact H|].
  exact (proj1 (one_purchase_per_evaluation config w Index.initialState
                  "MintX" "sig" H)).
Defined.

(* --------------------------------------------------------------------- *)
(** ** The spoken notification                                            *)
(* --------------------------------------------------------------------- *)

Definition simulationLine : string :=
  "[Process Transaction] Token not swapped! Simulation Mode turned on.".

(** What is spoken during an evaluation of [m] whose trace is [tr]. *)
Definition spoken (config : Index.Config) (w : Sem.World) (m : string)
  (tr : Sem.Trace) : Sem.Trace :=
  if negb (Index.PLAY_SOUND config) then []
  else if Sem.buy_attempted tr && says_true (Sem.answer w (buyCall config m))
       then [Sem.EvSound None]
  else if Sem.logged simulationLine tr
       then [Sem.EvSound (Some "Token found in simulation mode")]
  else [].

(** Events that are neither a notification, nor a purchase, nor the
    simulation line. *)
Definition plain (e : Sem.Event) : bool :=
  match e with
  | Sem.EvSound _ => false
  | Sem.EvCall (Index.CBuyToken _ _ _ _ _) => false
  | Sem.EvLog msg => negb (String.eqb msg simulationLine)
  | Sem.EvCall _ => true
  end.

(** The trace of an evaluation of [m]: plain events, which may end in
    the events of the swap step of lines 242-270 or 442-469. *)
Inductive reaches_swap (config : Index.Config) (w : Sem.World) (m : string)
  (report : Index.Prog unit) : Sem.Trace -> Prop :=
| rs_stop : reaches_swap config w m report []
| rs_swap : forall st,
    reaches_swap config w m report
      (Sem.trace_of (Sem.run w (Index.swapAndReport config m report) st))
| rs_skip : forall e tr,
    plain e = true ->
    reaches_swap config w m report tr ->
    reaches_swap config w m report (e :: tr).

Ltac unfold_checks :=
  unfold Index.processGrpcMint, Index.processWebsocketSignature,
    Index.checkAndSwapGrpc, Index.checkAndSwapWebsocket,
    Index.snipeCheck, Index.pumpdumpCheck, Index.fullCheck,
    Index.skipDuplicate, Index.lookingAgain.

Ltac walk_to_swap :=
  cbn [Sem.trace_of fst snd];
  repeat (apply rs_skip; [reflexivity|]);
  first
    [ apply rs_stop
    | match goal with
      | H : Sem.run ?w (Index.swapAndReport ?config ?m ?report) ?st = _ |- _ =>
          let Hs := fresh in
          pose proof (rs_swap config w m report st) as Hs;
          rewrite H in Hs; exact Hs
      end ].

Lemma grpc_reaches_swap config w st m :
  reaches_swap config w m (Index.reportGrpc m)
    (Sem.trace_of (Sem.run w (Index.processGrpcMint config m) st)).
Proof. unfold_checks. crunch; walk_to_swap. Qed.

Lemma ws_reaches_swap config w st signature m :
  resolved w signature = Some m ->
  reaches_swap config w m (Index.reportWebsocket m)
    (Sem.trace_of (Sem.run w (Index.processWebsocketSignature config signature) st)).
Proof.
  intros Hres. unfold resolved in Hres.
  change (Sem.signatureLookup w signature)
    with (Sem.answer w (Index.CGetMintFromSignature signature)) in Hres.
  destruct (Sem.answer w (Index.CGetMintFromSignature signature))
    as [[m'|]|?] eqn:Hans; try discriminate.
  destruct (JsString.truthy m') eqn:Ht; try discriminate.
  injection Hres as ->.
  unfold_checks. cbn. rewrite Hans. cbn. rewrite Ht.
  crunch; walk_to_swap.
Qed.

Section Notification.
Variables (config : Index.Config) (w : Sem.World) (m : string).

(** What the notification policy says of one trace. *)
Definition speaks_as_told (tr : Sem.Trace) : Prop :=
  sounds tr = spoken config w m tr
  /\ Sem.buy_attempted tr && Sem.logged simulationLine tr = false
  /\ (Sem.logged simulationLine tr = true -> Index.SIM_MODE config = true).

Lemma speaks_as_told_skip e tr :
  plain e = true -> speaks_as_told tr -> speaks_as_told (e :: tr).
Proof.
  unfold speaks_as_told, sounds, spoken, Sem.buy_attempted, Sem.logged.
  intros He H.
  destruct e as [msg|speech|c]; cbn in He |- *; try discriminate.
  - apply negb_true_iff in He. rewrite He. exact H.
  - destruct c; try discriminate; exact H.
Qed.

Lemma speaks_as_told_swap report st :
  report = Index.reportGrpc m \/ report = Index.reportWebsocket m ->
  speaks_as_told
    (Sem.trace_of (Sem.run w (Index.swapAndReport config m report) st)).
Proof.
  unfold speaks_as_told, sounds, spoken, simulationLine.
  intros [-> | ->]; unfold_pipeline;
    destruct (Index.PLAY_SOUND config),
      (String.eqb (Index.BUY_PROVIDER config) "sniperoo"),
      (Index.SIM_MODE config);
    crunch; repeat split; intros; finish.
Qed.

Lemma reaches_swap_speaks report tr :
  report = Index.reportGrpc m \/ report = Index.reportWebsocket m ->
  reaches_swap config w m report tr -> speaks_as_told tr.
Proof.
  intros Hreport. induction 1 as [|st|e tr He _ IH].
  - unfold speaks_as_told, sounds, spoken.
    destruct (Index.PLAY_SOUND config); cbn; repeat split; discriminate.
  - now apply speaks_as_told_swap.
  - now apply speaks_as_told_skip.
Qed.

End Notification.

(** X12.  An evaluation speaks at most once, and only when
    [token_buy.play_sound] is set: the configured text when a purchase
    was attempted and [buyToken] reported it as made, or the simulation
    phrase when the simulation line was printed.  Nothing is spoken
    after a failed purchase, a rejected check or a duplicate, and the
    simulation line and a purchase never occur in the same evaluation. *)
Theorem notification_policy :
  forall (config : Index.Config) (w : Sem.World) (st : Index.State)
         (m signature : string),
    resolved w signature = Some m ->
    let grpc := Sem.trace_of (Sem.run w (Index.processGrpcMint config m) st) in
    let ws :=
      Sem.trace_of
        (Sem.run w (Index.processWebsocketSignature config signature) st) in
    (sounds grpc = spoken config w m grpc
     /\ Sem.buy_attempted grpc && Sem.logged simulationLine grpc = false
     /\ (Sem.logged simulationLine grpc = true -> Index.SIM_MODE config = true))
    /\ (sounds ws = spoken config w m ws
        /\ Sem.buy_attempted ws && Sem.logged simulationLine ws = false
        /\ (Sem.logged simulationLine ws = true -> Index.SIM_MODE config = true)).
Proof.
  intros config w st m signature Hres grpc ws. split.
  - apply (reaches_swap_speaks config w m (Index.reportGrpc m));
      [left; reflexivity | apply grpc_reaches_swap].
  - apply (reaches_swap_speaks config w m (Index.reportWebsocket m));
      [right; reflexivity | now apply ws_reaches_swap].
Qed.

Lemma notification_policy_witness :
  let config := simulationConfig in
  let w := sampleWorld (sampleConnection 1000) sampleApi (Ok true) in
  let ws :=
    Sem.trace_of (Sem.run w (Index.processWebsocketSignature config "sig")
                          Index.initialState) in
  resolved w "sig" = Some "MintX"
  /\ sounds ws = spoken config w "MintX" ws.
Proof.
  intros config w ws.
  assert (H : resolved w "sig" = Some "MintX") by reflexivity.
  split; [exact H|].
  exact (proj1 (proj2 (notification_policy config w Index.initialState
                         "MintX" "sig" H))).
Defined.

(* --------------------------------------------------------------------- *)
(** ** Resolution of the candidate from token balances                    *)
(* --------------------------------------------------------------------- *)

Lemma firstNonWsol_some BASE l m :
  firstNonWsol BASE l = Some m <->
  exists before b after,
    l = (before ++ b :: after)%list
    /\ Forall (fun b => mint b = BASE) before
    /\ mint b = m /\ m <> BASE.
Proof.
  induction l as [|b0 l IH]; simpl.
  - split; [discriminate|].
    intros (before & b & after & Hl & _). destruct before; discriminate.
  - destruct (String.eqb (mint b0) BASE) eqn:Hb0.
    + apply String.eqb_eq in Hb0. rewrite IH. split.
      * intros (before & b & after & -> & Hall & Hm & Hne).
        exists (b0 :: before), b, after. repeat split; auto.
      * intros (before & b & after & Hl & Hall & Hm & Hne).
        destruct before as [|b1 before]; simpl in Hl; injection Hl as -> ->.
        -- congruence.
        -- inversion Hall; subst. exists before, b, after. repeat split; auto.
    + apply String.eqb_neq in Hb0. split.
      * intros [= <-]. exists [], b0, l. repeat split; auto.
      * intros (before & b & after & Hl & Hall & Hm & Hne).
        destruct before as [|b1 before]; simpl in Hl; injection Hl as -> ->.
        -- now subst.
        -- inversion Hall; subst. contradiction.
Qed.

Lemma firstNonWsol_none BASE l :
  firstNonWsol BASE l = None <-> Forall (fun b => mint b = BASE) l.
Proof.
  split; [|apply firstNonWsol_all_base].
  induction l as [|b l IH]; simpl; [constructor|].
  destruct (String.eqb (mint b) BASE) eqn:Hb; [|discriminate].
  apply String.eqb_eq in Hb. intros H. constructor; auto.
Qed.

(** X13.  On a list of any length, [getMintFromTokenBalances] answers
    with the mint of the first balance that differs from the base asset:
    the two-element fast path decides nothing the loop would not.  So an
    answer is never the base asset and always a mint of the list, and
    there is no answer exactly when every balance is of the base asset
    (an empty list included). *)
Theorem getMintFromTokenBalances_first_other :
  forall (BASE : string) (l : list TokenBalance),
    getMintFromTokenBalances BASE l
    = option_map mint (find (fun b => negb (String.eqb (mint b) BASE)) l)
    /\ (forall m, getMintFromTokenBalances BASE l = Some m <->
          exists before b after,
            l = (before ++ b :: after)%list
            /\ Forall (fun b => mint b = BASE) before
            /\ mint b = m /\ m <> BASE)
    /\ (getMintFromTokenBalances BASE l = None <->
        Forall (fun b => mint b = BASE) l).
Proof.
  intros BASE l. rewrite getMintFromTokenBalances_first.
  split; [|split].
  - induction l as [|b l IH]; simpl; [reflexivity|].
    destruct (String.eqb (mint b) BASE); simpl; [exact IH | reflexivity].
  - intros m. apply firstNonWsol_some.
  - apply firstNonWsol_none.
Qed.

(* --------------------------------------------------------------------- *)
(** ** Which streamed updates are evaluated                               *)
(* --------------------------------------------------------------------- *)

Definition grpcPrologue : Sem.Trace :=
  [Sem.EvLog "================================================================";
   Sem.EvLog "[Process gRPC update] New Liquidity Pool signature found";
   Sem.EvLog "[Process gRPC update] Extracting token CA from signature...";
   Sem.EvLog "[Process gRPC update] Token CA extracted successfully"].

(** The update is dropped: the state is as before, nothing but console
    lines was produced, and the handler's promise resolves. *)
Definition dropped (st : Index.State)
  (r : Index.State * Sem.Trace * result unit) : Prop :=
  Sem.final_state r = st
  /\ Sem.outcome_of r = Ok tt
  /\ Forall (fun e => match e with Sem.EvLog _ => True | _ => False end)
            (Sem.trace_of r).

Lemma run_log_then {A} w msg (p : Index.Prog A) st :
  Sem.run w (Index.bind (Index.log msg) (fun _ => p)) st
  = after_event (Sem.EvLog msg) (Sem.run w p st).
Proof. cbn. destruct (Sem.run w p st) as [[? ?] ?]. reflexivity. Qed.

(** An update that passes every test of [processGrpcData] is evaluated. *)
Lemma processGrpcData_evaluates config w st data update tx meta logs log
      balances m :
  Index.update_transaction data = Some update ->
  Index.transaction update = Some tx ->
  Index.meta tx = Some meta ->
  In "pumpswap" (Index.filters data) ->
  Index.logMessages meta = Some logs ->
  In log logs -> JsString.includes log "CreatePool" = true ->
  (Index.postTokenBalances meta = Some balances
   \/ (Index.postTokenBalances meta = None
       /\ Index.preTokenBalances meta = Some balances)) ->
  firstNonWsol (Index.WSOL_MINT config) balances = Some m ->
  m <> "" ->
  Sem.run w (Index.processGrpcData config data) st
  = after_events grpcPrologue (Sem.run w (Index.processGrpcMint config m) st).
Proof.
  intros Hu Htx Hmeta Htag Hlogs Hlog Hinc Hbal Hm Hne.
  assert (Htag' : existsb (String.eqb "pumpswap") (Index.filters data) = true)
    by (apply existsb_exists; exists "pumpswap"; split;
        [exact Htag | apply String.eqb_refl]).
  assert (Hcreate : existsb (fun l => JsString.includes l "CreatePool") logs
                    = true)
    by (apply existsb_exists; exists log; split; assumption).
  assert (Hread : match Index.postTokenBalances meta with
                  | Some l => Some l
                  | None => Index.preTokenBalances meta
                  end = Some balances)
    by (destruct Hbal as [-> | [-> ->]]; reflexivity).
  assert (Hsome : exists b rest, balances = b :: rest)
    by (destruct balances as [|b rest]; [discriminate | eauto]).
  destruct Hsome as (b & rest & ->).
  apply String.eqb_neq in Hne.
  unfold Index.processGrpcData, Index.isSubscribeUpdateTransaction.
  rewrite Hu, Htx, Hmeta, Hlogs, Htag', Hcreate. cbn [TokenHandler.is_some negb orb].
  cbv zeta. rewrite Hread, getMintFromTokenBalances_first, Hm.
  unfold JsString.truthy. rewrite Hne. cbn [negb].
  rewrite !run_log_then.
  destruct (Sem.run w (Index.processGrpcMint config m) st) as [[? ?] ?].
  reflexivity.
Qed.

(** An update is dropped unless it passes every test. *)
Lemma processGrpcData_otherwise_dropped :
  forall (config : Index.Config) (w : Sem.World) (st : Index.State)
         (data : Index.SubscribeUpdate),
    let r := Sem.run w (Index.processGrpcData config data) st in
    (dropped st r
     \/ exists update tx meta logs log balances m,
          Index.update_transaction data = Some update
          /\ Index.transaction update = Some tx
          /\ Index.meta tx = Some meta
          /\ In "pumpswap" (Index.filters data)
          /\ Index.logMessages meta = Some logs
          /\ In log logs /\ JsString.includes log "CreatePool" = true
          /\ (Index.postTokenBalances meta = Some balances
              \/ (Index.postTokenBalances meta = None
                  /\ Index.preTokenBalances meta = Some balances))
          /\ firstNonWsol (Index.WSOL_MINT config) balances = Some m
          /\ m <> ""
          /\ r = after_events grpcPrologue
                   (Sem.run w (Index.processGrpcMint config m) st))
    /\ (forall update tx meta,
          Index.update_transaction data = Some update ->
          Index.transaction update = Some tx ->
          Index.meta tx = Some meta ->
          Index.postTokenBalances meta = Some [] ->
          dropped st r).
Proof.
  intros config w st data r. subst r.
  assert (Hdrop : forall tr,
            Forall (fun e => match e with Sem.EvLog _ => True | _ => False end) tr ->
            dropped st (st, tr, Ok tt))
    by (intros tr Htr; repeat split; assumption).
  destruct data as [filters [[slot [[sig [[logs post pre]|]]|]]|]];
    unfold Index.processGrpcData, Index.isSubscribeUpdateTransaction;
    cbn [Index.update_transaction Index.filters Index.transaction Index.meta
         Index.logMessages Index.postTokenBalances Index.preTokenBalances
         TokenHandler.is_some negb orb].
  2-4: split;
    [ left; destruct (negb (existsb (String.eqb "pumpswap") filters));
      apply Hdrop; constructor
    | intros update tx meta Hu Ht Hm;
      try discriminate Hu; injection Hu as <-; cbn in Ht;
      try discriminate Ht; injection Ht as <-; cbn in Hm;
      discriminate Hm ].
  destruct (existsb (String.eqb "pumpswap") filters) eqn:Htag;
    cbn [negb];
    [| split; [left; apply Hdrop; constructor
              | intros; apply Hdrop; constructor] ].
  assert (Hnone : dropped st
            (Sem.run w (Index.bind (Index.log "================================================================")
               (fun _ => Index.bind (Index.log "[Process gRPC update] New Liquidity Pool signature found")
               (fun _ => Index.bind (Index.log "[Process gRPC update] Extracting token CA from signature...")
               (fun _ => Index.Ret tt)))) st))
    by (apply Hdrop; repeat constructor).
  destruct logs as [logs|]; cbn [negb];
    [| split; [left; apply Hdrop; constructor
              | intros; apply Hdrop; constructor] ].
  destruct (existsb (fun log => JsString.includes log "CreatePool") logs)
    eqn:Hcreate; cbn [negb];
    [| split; [left; apply Hdrop; constructor
              | intros; apply Hdrop; constructor] ].
  apply existsb_exists in Htag. destruct Htag as (tag & Htag & Heq).
  apply String.eqb_eq in Heq. subst tag.
  apply existsb_exists in Hcreate. destruct Hcreate as (log & Hlog & Hinc).
  assert (Hmain : forall balances,
    (post = Some balances \/ (post = None /\ pre = Some balances)) ->
    balances <> [] ->
    let r := Sem.run w
      (Index.bind (Index.log "================================================================")
        (fun _ => Index.bind (Index.log "[Process gRPC update] New Liquidity Pool signature found")
        (fun _ => Index.bind (Index.log "[Process gRPC update] Extracting token CA from signature...")
        (fun _ =>
           match getMintFromTokenBalances (Index.WSOL_MINT config) balances with
           | None =>
               Index.bind (Index.log "[Process gRPC update] No valid token CA could be extracted")
                 (fun _ => Index.log "[Process gRPC update] Looking for new Liquidity Pools again")
           | Some tokenMint =>
               if negb (JsString.truthy tokenMint)
               then Index.bind (Index.log "[Process gRPC update] No valid token CA could be extracted")
                      (fun _ => Index.log "[Process gRPC update] Looking for new Liquidity Pools again")
               else Index.bind (Index.log "[Process gRPC update] Token CA extracted successfully")
                      (fun _ => Index.processGrpcMint config tokenMint)
           end)))) st in
    dropped st r
    \/ exists update tx meta logs0 log0 balances0 m,
          Some {| Index.update_slot := slot;
                  Index.transaction :=
                    Some {| Index.tx_signature := sig;
                            Index.meta :=
                              Some {| Index.logMessages := Some logs;
                                      Index.postTokenBalances := post;
                                      Index.preTokenBalances := pre |} |} |}
          = Some update
          /\ Index.transaction update = Some tx
          /\ Index.meta tx = Some meta
          /\ In "pumpswap" filters
          /\ Index.logMessages meta = Some logs0
          /\ In log0 logs0 /\ JsString.includes log0 "CreatePool" = true
          /\ (Index.postTokenBalances meta = Some balances0
              \/ (Index.postTokenBalances meta = None
                  /\ Index.preTokenBalances meta = Some balances0))
          /\ firstNonWsol (Index.WSOL_MINT config) balances0 = Some m
          /\ m <> ""
          /\ r = after_events grpcPrologue
                   (Sem.run w (Index.processGrpcMint config m) st)).
  { intros balances Hbal Hne r.
    subst r. rewrite getMintFromTokenBalances_first.
    destruct (firstNonWsol (Index.WSOL_MINT config) balances) as [m|] eqn:Hm;
      [destruct (JsString.truthy m) eqn:Ht; cbn [negb]|];
      [| left; apply Hdrop; repeat constructor
       | left; apply Hdrop; repeat constructor].
    right. do 3 eexists. exists logs, log, balances, m.
    repeat (split; [first [reflexivity | eassumption]|]).
    split.
    { unfold JsString.truthy in Ht. intros ->. discriminate. }
    rewrite !run_log_then.
    destruct (Sem.run w (Index.processGrpcMint config m) st) as [[? ?] ?].
    reflexivity. }
  assert (Hother : post <> Some [] ->
            forall update tx meta,
              Some {| Index.update_slot := slot;
                      Index.transaction :=
                        Some {| Index.tx_signature := sig;
                                Index.meta :=
                                  Some {| Index.logMessages := Some logs;
                                          Index.postTokenBalances := post;
                                          Index.preTokenBalances := pre |} |} |}
              = Some update ->
              Index.transaction update = Some tx ->
              Index.meta tx = Some meta ->
              Index.postTokenBalances meta = Some [] -> False).
  { intros Hpost update tx meta Hu Ht Hm Hp.
    injection Hu as <-. cbn in Ht. injection Ht as <-. cbn in Hm.
    injection Hm as <-. cbn in Hp. contradiction. }
  destruct post as [[|b post]|].
  - split; [left; exact Hnone | intros; exact Hnone].
  - split; [|intros; exfalso; eapply Hother; [discriminate | eauto ..]].
    apply (Hmain (b :: post)); [left; reflexivity | discriminate].
  - destruct pre as [[|b pre]|].
    + split; [left; exact Hnone
             | intros; exfalso; eapply Hother; [discriminate | eauto ..]].
    + split; [|intros; exfalso; eapply Hother; [discriminate | eauto ..]].
      apply (Hmain (b :: pre)); [right; split; reflexivity | discriminate].
    + split; [left; exact Hnone
             | intros; exfalso; eapply Hother; [discriminate | eauto ..]].
Qed.

(** X14.  [processGrpcData] evaluates an update exactly when it carries a
    transaction with its meta data, is tagged "pumpswap", has a log line
    containing "CreatePool", and its balances name a mint other than the
    base asset: it then prints four lines and runs [processGrpcMint] on
    the first such mint, and every other update is dropped without
    touching the state or calling anything.  The balances are the
    post-transaction ones whenever that field is present: when it is
    present and empty the update is dropped, whatever the pre-transaction
    balances hold. *)
Theorem processGrpcData_cases :
  forall (config : Index.Config) (w : Sem.World) (st : Index.State)
         (data : Index.SubscribeUpdate),
    let r := Sem.run w (Index.processGrpcData config data) st in
    (dropped st r
     \/ exists update tx meta logs log balances m,
          Index.update_transaction data = Some update
          /\ Index.transaction update = Some tx
          /\ Index.meta tx = Some meta
          /\ In "pumpswap" (Index.filters data)
          /\ Index.logMessages meta = Some logs
          /\ In log logs /\ JsString.includes log "CreatePool" = true
          /\ (Index.postTokenBalances meta = Some balances
              \/ (Index.postTokenBalances meta = None
                  /\ Index.preTokenBalances meta = Some balances))
          /\ firstNonWsol (Index.WSOL_MINT config) balances = Some m
          /\ m <> ""
          /\ r = after_events grpcPrologue
                   (Sem.run w (Index.processGrpcMint config m) st))
    /\ (forall update tx meta logs log balances m,
          Index.update_transaction data = Some update ->
          Index.transaction update = Some tx ->
          Index.meta tx = Some meta ->
          In "pumpswap" (Index.filters data) ->
          Index.logMessages meta = Some logs ->
          In log logs -> JsString.includes log "CreatePool" = true ->
          (Index.postTokenBalances meta = Some balances
           \/ (Index.postTokenBalances meta = None
               /\ Index.preTokenBalances meta = Some balances)) ->
          firstNonWsol (Index.WSOL_MINT config) balances = Some m ->
          m <> "" ->
          r = after_events grpcPrologue
                (Sem.run w (Index.processGrpcMint config m) st))
    /\ (forall update tx meta,
          Index.update_transaction data = Some update ->
          Index.transaction update = Some tx ->
          Index.meta tx = Some meta ->
          Index.postTokenBalances meta = Some [] ->
          dropped st r).
Proof.
  intros config w st data r.
  destruct (processGrpcData_otherwise_dropped config w st data) as [Hcases Hempty].
  fold r in Hcases, Hempty.
  split; [exact Hcases|]. split; [|exact Hempty].
  intros update tx meta logs log balances m Hu Htx Hmeta Htag Hlogs Hlog Hinc
         Hbal Hm Hne.
  exact (processGrpcData_evaluates config w st data update tx meta logs log
           balances m Hu Htx Hmeta Htag Hlogs Hlog Hinc Hbal Hm Hne).
Qed.

Lemma processGrpcData_cases_witness :
  let config := sampleConfig (Some "snipe") 1 in
  let w := sampleWorld (sampleConnection 1000) sampleApi (Ok true) in
  let data := createPoolUpdate config "MintX" in
  In "pumpswap" (Index.filters data)
  /\ firstNonWsol (Index.WSOL_MINT config)
       [mkTokenBalance 0 "MintX"; mkTokenBalance 1 (Index.WSOL_MINT config)]
     = Some "MintX"
  /\ Sem.run w (Index.processGrpcData config data) Index.initialState
     = after_events grpcPrologue
         (Sem.run w (Index.processGrpcMint config "MintX") Index.initialState).
Proof.
  intros config w data.
  assert (Htag : In "pumpswap" (Index.filters data)) by (left; reflexivity).
  assert (Hm : firstNonWsol (Index.WSOL_MINT config)
                 [mkTokenBalance 0 "MintX";
                  mkTokenBalance 1 (Index.WSOL_MINT config)]
               = Some "MintX") by reflexivity.
  split; [exact Htag|]. split; [exact Hm|].
  refine (proj1 (proj2 (processGrpcData_cases config w Index.initialState data))
            _ _ _ ["Program log: Instruction: CreatePool"]
            "Program log: Instruction: CreatePool" _ "MintX"
            eq_refl eq_refl eq_refl Htag eq_refl _ eq_refl
            (or_introl eq_refl) Hm _).
  - left. reflexivity.
  - discriminate.
Defined.

(* --------------------------------------------------------------------- *)
(** ** Which socket messages start an evaluation                          *)
(* --------------------------------------------------------------------- *)

Lemma admitted_is_create config data st task :
  snd (Sem.wssHandler config data st) = Some task ->
  exists parsedData signature,
    data = Ok parsedData
    /\ createNotification config parsedData signature
    /\ Index.activeTransactions st < Index.MAX_CONCURRENT config
    /\ task = Index.evaluation config signature.
Proof.
  unfold Sem.wssHandler, Index.onMessage, Index.try_catch.
  destruct data as [pd|e]; cbn; [|discriminate].
  destruct (Index.pd_result_defined pd) eqn:Hres;
    destruct (Index.pd_error pd) eqn:Herr; cbn; try discriminate.
  destruct (Index.pd_logs pd) as [logs|] eqn:Hlogs; cbn; [|discriminate].
  destruct (Index.pd_signature pd) as [signature|] eqn:Hsig; cbn;
    [|discriminate].
  destruct (JsString.truthy signature) eqn:Ht; cbn; [|discriminate].
  match goal with |- context [negb ?b] => destruct b eqn:Hcreate end; cbn;
    [|discriminate].
  destruct (Index.activeTransactions st >=? Index.MAX_CONCURRENT config)
    eqn:Hfull; cbn; [discriminate|].
  intros [= <-]. exists pd, signature.
  split; [reflexivity|]. split; [|split; [|reflexivity]].
  - unfold createNotification.
    split; [exact Hres|]. split; [exact Herr|]. split; [exact Hsig|].
    split; [intros ->; discriminate|].
    exists logs. split; [exact Hlogs | exact Hcreate].
  - rewrite Z.geb_leb in Hfull. now apply Z.leb_gt in Hfull.
Qed.

(** X15.  The [message] handler starts an evaluation for a message
    exactly when it parses, is a pool-creation notification (no [result],
    no [error], a non-empty string signature, a string log line that
    contains the instruction of an enabled pool) and the counter is below
    the limit; the evaluation is the one of the message's signature and
    the counter is raised by one.  Any other message leaves the module
    state as it is, and a message that does not parse is caught and
    logged. *)
Theorem message_admission :
  forall (config : Index.Config) (data : result Index.ParsedData)
         (st : Index.State),
    let out := Sem.wssHandler config data st in
    (forall task,
       snd out = Some task <->
       exists parsedData signature,
         data = Ok parsedData
         /\ createNotification config parsedData signature
         /\ Index.activeTransactions st < Index.MAX_CONCURRENT config
         /\ task = Index.evaluation config signature)
    /\ (forall task, snd out = Some task ->
          fst (fst out) = Sem.set_active st (Index.activeTransactions st + 1))
    /\ (snd out = None -> fst (fst out) = st)
    /\ (forall e, data = Err e ->
          out = (st, [Sem.EvLog "Error processing message"], None)).
Proof.
  intros config data st out.
  assert (Hiff : forall task,
    snd out = Some task <->
    exists parsedData signature,
      data = Ok parsedData
      /\ createNotification config parsedData signature
      /\ Index.activeTransactions st < Index.MAX_CONCURRENT config
      /\ task = Index.evaluation config signature).
  { intros task. split.
    - apply admitted_is_create.
    - intros (pd & signature & -> & Hcreate & Hfree & ->).
      subst out. rewrite (gate_on_notification config pd signature st Hcreate).
      apply Z.leb_gt in Hfree. rewrite <- Z.geb_leb in Hfree.
      now rewrite Hfree. }
  split; [exact Hiff|].
  destruct (gate_cases config data st) as [[tr Hdrop] | [Hfree [signature Hadm]]];
    fold out in Hdrop || fold out in Hadm.
  - split; [|split].
    + intros task. rewrite Hdrop. discriminate.
    + intros _. now rewrite Hdrop.
    + intros e ->. reflexivity.
  - split; [|split].
    + intros task _. now rewrite Hadm.
    + rewrite Hadm. discriminate.
    + intros e ->. discriminate.
Qed.

(* --------------------------------------------------------------------- *)
(** ** The streaming transport and the counter                           *)
(* --------------------------------------------------------------------- *)

Section GrpcCounter.
Import Index Sem.
Variable config : Config.

Lemma processGrpcMint_quiet m : quiet (processGrpcMint config m).
Proof.
  unfold_pipeline. cbn.
  repeat first
    [ exact I
    | reflexivity
    | split
    | progress intros
    | match goal with x : result _ |- _ => destruct x end
    | match goal with x : Reply _ |- _ => destruct x end
    | match goal with x : option _ |- _ => destruct x end
    | progress cbn
    | split_on_test ].
Qed.

Lemma processGrpcData_quiet data : quiet (processGrpcData config data).
Proof.
  assert (Hmint : forall balances,
            quiet
              (match getMintFromTokenBalances (WSOL_MINT config) balances with
               | None =>
                   bind (log "[Process gRPC update] No valid token CA could be extracted")
                     (fun _ => log "[Process gRPC update] Looking for new Liquidity Pools again")
               | Some tokenMint =>
                   if negb (JsString.truthy tokenMint)
                   then bind (log "[Process gRPC update] No valid token CA could be extracted")
                          (fun _ => log "[Process gRPC update] Looking for new Liquidity Pools again")
                   else bind (log "[Process gRPC update] Token CA extracted successfully")
                          (fun _ => processGrpcMint config tokenMint)
               end)).
  { intros balances.
    destruct (getMintFromTokenBalances (WSOL_MINT config) balances) as [m|];
      [destruct (negb (JsString.truthy m))|];
      try (cbn; repeat split; exact I).
    apply quiet_bind; [cbn; auto|]. intros _. apply processGrpcMint_quiet. }
  destruct data as [filters [[slot [[sig [[logs post pre]|]]|]]|]];
    unfold processGrpcData, isSubscribeUpdateTransaction;
    cbn [update_transaction Index.filters transaction meta
         logMessages postTokenBalances preTokenBalances
         TokenHandler.is_some negb orb];
    try (destruct (negb (existsb (String.eqb "pumpswap") filters)); exact I).
  destruct (negb (existsb (String.eqb "pumpswap") filters)); [exact I|].
  destruct logs as [logs|]; cbn [negb]; [|exact I].
  destruct (negb (existsb (fun log => JsString.includes log "CreatePool") logs));
    [exact I|].
  do 3 (apply quiet_bind; [cbn; auto|]; intros _).
  destruct post as [[|b post]|]; [exact I | apply Hmint |].
  destruct pre as [[|b pre]|]; [exact I | apply Hmint | exact I].
Qed.

(** One turn of a quiet program leaves the counter alone, and what is
    left of the program is quiet. *)
Lemma advance_quiet {A} (p : Prog A) :
  quiet p ->
  forall st,
    activeTransactions (fst (fst (advance p st))) = activeTransactions st
    /\ quiet (snd (advance p st)).
Proof.
  induction p as [a|e|o k IH|c k IH]; cbn; intros Hp st; auto.
  destruct Hp as [Ho Hk].
  pose proof (do_op_keeps_counter o st Ho) as Hkeep.
  destruct (do_op o st) as [[st1 x] ev]. cbn in Hkeep.
  specialize (IH x (Hk x) st1).
  destruct (advance (k x) st1) as [[st2 tr] p']. cbn in *.
  rewrite Hkeep in IH. exact IH.
Qed.

Lemma suspended_quiet (p : Prog unit) : quiet p -> Forall quiet (suspended p).
Proof. destruct p; cbn; intros H; constructor; auto. Qed.

End GrpcCounter.

(** The event loop of the streaming transport after one pool-creation
    update for "MintX". *)
Definition streamedSys (config : Index.Config) : Sem.Sys :=
  let started :=
    Sem.advance (Index.processGrpcData config (createPoolUpdate config "MintX"))
                Index.initialState in
  {| Sem.shared := fst (fst started);
     Sem.pending := (Sem.pending Sem.initialSys ++ Sem.suspended (snd started))%list;
     Sem.unhandled :=
       (Sem.unhandled Sem.initialSys ++ Sem.rejection (snd started))%list |}.

Lemma streamedSys_reachable config :
  Sem.reachable (Sem.grpcHandler config) (streamedSys config).
Proof.
  eapply Sem.reach_step; [apply Sem.reach_init|].
  unfold streamedSys.
  eapply Sem.step_admit
    with (data := createPoolUpdate config "MintX")
         (tr2 := snd (fst (Sem.advance
                             (Index.processGrpcData config
                                (createPoolUpdate config "MintX"))
                             Index.initialState))).
  - reflexivity.
  - rewrite <- !surjective_pairing. reflexivity.
Defined.

(** X16.  On the streaming transport [activeTransactions] is never
    written: in every state the event loop can reach it still reads 0,
    however many evaluations are suspended, and no suspended evaluation
    will ever change it.  The limit [concurrent_transactions] therefore
    has no effect there. *)
Theorem grpc_counter_unused :
  forall (config : Index.Config) (sys : Sem.Sys),
    Sem.reachable (Sem.grpcHandler config) sys ->
    Index.activeTransactions (Sem.shared sys) = 0
    /\ Forall quiet (Sem.pending sys).
Proof.
  intros config sys Hreach.
  induction Hreach as [|s s' _ IH Hstep]; [split; [reflexivity | constructor]|].
  destruct IH as [Hzero Hquiet].
  destruct Hstep as [sys data st1 tr Hh
                    | sys data st1 tr task st2 tr2 task' Hh Hadv
                    | sys before c k after x st2 tr2 task' Hpend Hadv];
    cbn [Sem.shared Sem.pending].
  - unfold Sem.grpcHandler in Hh. discriminate.
  - unfold Sem.grpcHandler in Hh. injection Hh as <- _ <-.
    destruct (advance_quiet (Index.processGrpcData config data)
                (processGrpcData_quiet config data) (Sem.shared sys))
      as [Hkeep Hrest].
    rewrite Hadv in Hkeep, Hrest. cbn in Hkeep, Hrest.
    split; [congruence|].
    apply Forall_app. split; [assumption | now apply suspended_quiet].
  - rewrite Hpend in Hquiet.
    apply Forall_app in Hquiet. destruct Hquiet as [Hbefore Hrest].
    inversion Hrest as [|? ? Hk Hafter]; subst.
    destruct (advance_quiet (k x) (Hk x) (Sem.shared sys)) as [Hkeep Hq].
    rewrite Hadv in Hkeep, Hq. cbn in Hkeep, Hq.
    split; [congruence|].
    apply Forall_app. split; [assumption|].
    apply Forall_app. split; [now apply suspended_quiet | assumption].
Qed.

Lemma grpc_counter_unused_witness :
  let config := sampleConfig (Some "snipe") 0 in
  Sem.reachable (Sem.grpcHandler config) (streamedSys config)
  /\ List.length (Sem.pending (streamedSys config)) = 1%nat
  /\ Index.activeTransactions (Sem.shared (streamedSys config)) = 0.
Proof.
  intros config.
  split; [apply streamedSys_reachable|].
  split; [reflexivity|].
  exact (proj1 (grpc_counter_unused config (streamedSys config)
                  (streamedSys_reachable config))).
Defined.

(* --------------------------------------------------------------------- *)
(** ** The last-seen slot between evaluations                            *)
(* --------------------------------------------------------------------- *)

(** X17.  The duplicate test and the write to [CURRENT_MINT] happen in
    one turn of the event loop, with no [await] between them.  So however
    evaluations interleave, the turn in which an evaluation learns its
    candidate ends with the candidate in the slot, and an evaluation of
    the same candidate that runs its test right after it, while the first
    is still waiting for a check or for the purchase, is dropped as a
    duplicate.  On the socket transport that turn is the one after the
    signature lookup, before which nothing is read or written. *)
Theorem slot_claimed_within_turn :
  forall (config : Index.Config) (st : Index.State) (m signature : string),
    m <> "" ->
    let claimed :=
      fst (fst (Sem.advance (Index.processGrpcMint config m) st)) in
    (Index.CURRENT_MINT claimed = m
     /\ Sem.advance (Index.processGrpcMint config m) claimed
        = (claimed, duplicateLines, Index.Ret tt))
    /\ exists k,
         Sem.advance (Index.processWebsocketSignature config signature) st
         = (st, firstn 4 (wsPrologue signature),
            Index.Await (Index.CGetMintFromSignature signature) k)
         /\ forall st',
              let claimed' := fst (fst (Sem.advance (k (Ok (Some m))) st')) in
              Index.CURRENT_MINT claimed' = m
              /\ Sem.advance (k (Ok (Some m))) claimed'
                 = (claimed',
                    Sem.EvLog "[Process Transaction] Token CA extracted successfully"
                    :: duplicateLines, Index.Ret tt).
Proof.
  intros config st m signature Hm claimed. split.
  - pose proof (grpc_first_turn config st m) as Hslot.
    split; [exact Hslot | now apply grpc_duplicate_turn].
  - destruct (ws_first_turn config signature st) as (k & Hk & Hafter).
    exists k. split; [exact Hk|].
    intros st'. rewrite (Hafter m Hm). cbv zeta.
    pose proof (ws_claim_turn config st' m) as Hslot.
    split; [exact Hslot | now apply ws_duplicate_turn].
Qed.

Lemma slot_claimed_within_turn_witness :
  let config := sampleConfig (Some "snipe") 1 in
  let claimed :=
    fst (fst (Sem.advance (Index.processGrpcMint config "MintX")
                          Index.initialState)) in
  "MintX" <> ""
  /\ Index.CURRENT_MINT claimed = "MintX"
  /\ Sem.advance (Index.processGrpcMint config "MintX") claimed
     = (claimed, duplicateLines, Index.Ret tt).
Proof.
  intros config claimed.
  assert (H : "MintX" <> "") by discriminate.
  split; [exact H|].
  exact (proj1 (slot_claimed_within_turn config Index.initialState
                  "MintX" "sig" H)).
Defined.

(** X18.  The slot remembers one candidate only.  After an evaluation of
    [a] and then one of a different candidate [b], whatever became of
    them, [a] is no longer recognised: a third event for [a] is admitted
    and evaluated again, on either transport. *)
Theorem slot_remembers_one :
  forall (config : Index.Config) (w1 w2 w3 : Sem.World) (st : Index.State)
         (a b sigA sigB : string),
    a <> b -> a <> "" ->
    resolved w1 sigA = Some a ->
    resolved w2 sigB = Some b ->
    resolved w3 sigA = Some a ->
    (let r1 := Sem.run w1 (Index.processGrpcMint config a) st in
     let r2 := Sem.run w2 (Index.processGrpcMint config b) (Sem.final_state r1) in
     let r3 := Sem.run w3 (Index.processGrpcMint config a) (Sem.final_state r2) in
     dropped_as_duplicate (Sem.trace_of r3) = false
     /\ Index.CURRENT_MINT (Sem.final_state r3)
        = (if purchase_failed config w3 a (Sem.trace_of r3) then "" else a))
    /\ (let r1 :=
          Sem.run w1 (Index.processWebsocketSignature config sigA) st in
        let r2 :=
          Sem.run w2 (Index.processWebsocketSignature config sigB)
                  (Sem.final_state r1) in
        let r3 :=
          Sem.run w3 (Index.processWebsocketSignature config sigA)
                  (Sem.final_state r2) in
        dropped_as_duplicate (Sem.trace_of r3) = false
        /\ Index.CURRENT_MINT (Sem.final_state r3)
           = (if purchase_failed config w3 a (Sem.trace_of r3) then "" else a)).
Proof.
  intros config w1 w2 w3 st a b sigA sigB Hab Ha HresA HresB HresA'.
  split.
  - intros r1 r2 r3.
    assert (Hslot : Index.CURRENT_MINT (Sem.final_state r2) <> a).
    { subst r2.
      destruct (String.eqb (Index.CURRENT_MINT (Sem.final_state r1)) b) eqn:Heq.
      - apply String.eqb_eq in Heq.
        rewrite (grpc_duplicate config w2 _ b Heq).
        change (Index.CURRENT_MINT (Sem.final_state r1) <> a). congruence.
      - apply String.eqb_neq in Heq.
        destruct (grpc_admitted config w2 _ b Heq) as (Hslot & _).
        rewrite Hslot.
        destruct (purchase_failed config w2 b _); congruence. }
    destruct (grpc_admitted config w3 _ a Hslot) as (H1 & _ & H3).
    split; assumption.
  - intros r1 r2 r3.
    assert (Hslot : Index.CURRENT_MINT (Sem.final_state r2) <> a).
    { subst r2.
      destruct (String.eqb (Index.CURRENT_MINT (Sem.final_state r1)) b) eqn:Heq.
      - apply String.eqb_eq in Heq.
        destruct (ws_duplicate config w2 _ sigB b HresB Heq) as (Hst & _).
        rewrite Hst. congruence.
      - apply String.eqb_neq in Heq.
        destruct (ws_admitted config w2 _ sigB b HresB Heq) as (Hslot & _).
        rewrite Hslot.
        destruct (purchase_failed config w2 b _); congruence. }
    destruct (ws_admitted config w3 _ sigA a HresA' Hslot) as (H1 & _ & H3).
    split; assumption.
Qed.

(** A world in which every signature resolves to [m]. *)
Definition worldResolving (m : string) : Sem.World :=
  {| Sem.connection := sampleConnection 1000;
     Sem.sniperoo := sampleApi;
     Sem.signatureLookup := fun _ => Ok (Some m);
     Sem.rugCheck := fun _ => Ok true |}.

Lemma slot_remembers_one_witness :
  let config := sampleConfig (Some "snipe") 1 in
  let wa := worldResolving "MintX" in
  let wb := worldResolving "MintY" in
  let r1 := Sem.run wa (Index.processGrpcMint config "MintX") Index.initialState in
  let r2 := Sem.run wb (Index.processGrpcMint config "MintY") (Sem.final_state r1) in
  let r3 := Sem.run wa (Index.processGrpcMint config "MintX") (Sem.final_state r2) in
  "MintX" <> "MintY" /\ "MintX" <> ""
  /\ resolved wa "sigA" = Some "MintX"
  /\ resolved wb "sigB" = Some "MintY"
  /\ dropped_as_duplicate (Sem.trace_of r3) = false.
Proof.
  intros config wa wb r1 r2 r3.
  assert (H1 : "MintX" <> "MintY") by discriminate.
  assert (H2 : "MintX" <> "") by discriminate.
  assert (H3 : resolved wa "sigA" = Some "MintX") by reflexivity.
  assert (H4 : resolved wb "sigB" = Some "MintY") by reflexivity.
  repeat (split; [assumption|]).
  exact (proj1 (proj1 (slot_remembers_one config wa wb wa Index.initialState
                         "MintX" "MintY" "sigA" "sigB" H1 H2 H3 H4 H3))).
Defined.

(* --------------------------------------------------------------------- *)
(** ** Which errors an evaluation lets through                            *)
(* --------------------------------------------------------------------- *)

(** [buyToken] rejects only with what the test of the retry signature
    throws. *)
Lemma buyToken_throws_only api m amount sell tp sl e :
  snd (SniperooHandler.buyToken api m amount sell tp sl) = Err e ->
  e = SniperooHandler.includesTypeError.
Proof.
  intros Hres.
  destruct (buyToken_ok api m amount tp sl sell) as [Hthrows _ _ _ _ _ _ _ _ _].
  destruct (Hthrows e Hres) as (n & body & _ & Hth).
  apply isRetryable_throws in Hth.
  destruct Hth as (_ & _ & _ & _ & _ & _ & _ & ->). reflexivity.
Qed.

(** The check whose error an evaluation of [m] lets through. *)
Definition checkThrew (config : Index.Config) (w : Sem.World) (m : string)
  (e : JsError) : Prop :=
  (Index.CHECK_MODE config = "snipe"
   /\ TokenHandler.getTokenAuthorities (Sem.connection w) m = Err e)
  \/ (Index.CHECK_MODE config = "full"
      /\ Sem.rugCheck w m = Err e).

(** The purchase of [m] was made and [buyToken] rejected. *)
Definition purchaseThrew (config : Index.Config) (w : Sem.World) (m : string)
  (e : JsError) : Prop :=
  live config = true
  /\ Sem.answer w (buyCall config m) = Err e
  /\ e = SniperooHandler.includesTypeError.

(** X19.  [processGrpcMint] rejects only with the error of the authority
    lookup in [snipe] mode, of the rug check in [full] mode, or of a
    purchase in which [buyToken] itself rejects, which it does only with
    the TypeError of its signature test; [processWebsocketSignature]
    rejects only with one of these or with the error of the signature
    lookup.  The quick-rug-pull heuristic cannot make an evaluation
    reject: it catches what it meets and answers [false]. *)
Theorem evaluation_rejections :
  forall (config : Index.Config) (w : Sem.World) (st : Index.State)
         (m signature : string) (e : JsError),
    (Sem.outcome_of (Sem.run w (Index.processGrpcMint config m) st) = Err e ->
     checkThrew config w m e \/ purchaseThrew config w m e)
    /\ (Sem.outcome_of
          (Sem.run w (Index.processWebsocketSignature config signature) st)
        = Err e ->
        Sem.signatureLookup w signature = Err e
        \/ exists m', resolved w signature = Some m'
                      /\ (checkThrew config w m' e \/ purchaseThrew config w m' e)).
Proof.
  intros config w st m signature e.
  assert (Hbuy : forall m a s tp sl e',
            Sem.answer w (Index.CBuyToken m a s tp sl) = Err e' ->
            e' = SniperooHandler.includesTypeError)
    by (intros; eapply buyToken_throws_only; eassumption).
  assert (Hrug : forall m e', Sem.answer w (Index.CIsQuickRugPull m) <> Err e').
  { intros m0 e' H.
    destruct (isQuickRugPull_total (Sem.connection w) m0) as [b Hb].
    change (Sem.answer w (Index.CIsQuickRugPull m0))
      with (TokenHandler.isQuickRugPull (Sem.connection w) m0) in H.
    congruence. }
  unfold checkThrew, purchaseThrew, resolved.
  change (Sem.signatureLookup w signature)
    with (Sem.answer w (Index.CGetMintFromSignature signature)).
  assert (Hchange : forall m0,
    (TokenHandler.getTokenAuthorities (Sem.connection w) m0
     = Sem.answer w (Index.CGetTokenAuthorities m0))
    /\ Sem.rugCheck w m0 = Sem.answer w (Index.CGetRugCheckConfirmed m0))
    by (intros; split; reflexivity).
  split.
  - destruct (Hchange m) as [-> ->]. clear Hchange.
    unfold_pipeline. crunch; intros Hout;
      try discriminate Hout;
      try (exfalso; eapply Hrug; eassumption);
      try congruence;
      first [ left; left; split; [apply String.eqb_eq; assumption | congruence]
            | left; right; split; [apply String.eqb_eq; assumption | congruence]
            | right; split; [first [assumption | reflexivity]|];
              split; [congruence|];
              match goal with
              | H : Sem.answer w (Index.CBuyToken _ _ _ _ _) = Err _ |- _ =>
                  apply Hbuy in H
              end; congruence ].
  - unfold_pipeline. cbn.
    destruct (Sem.answer w (Index.CGetMintFromSignature signature))
      as [[m'|]|e'] eqn:Hans; cbn;
      [ | intros; discriminate | intros [= <-]; left; reflexivity ].
    destruct (JsString.truthy m') eqn:Ht; cbn; [|intros; discriminate].
    intros Hout. right. exists m'. split; [reflexivity|]. revert Hout.
    destruct (Hchange m') as [-> ->]. clear Hchange.
    crunch; intros Hout;
      try discriminate Hout;
      try (exfalso; eapply Hrug; eassumption);
      try congruence;
      first [ left; left; split; [apply String.eqb_eq; assumption | congruence]
            | left; right; split; [apply String.eqb_eq; assumption | congruence]
            | right; split; [first [assumption | reflexivity]|];
              split; [congruence|];
              match goal with
              | H : Sem.answer w (Index.CBuyToken _ _ _ _ _) = Err _ |- _ =>
                  apply Hbuy in H
              end; congruence ].
Qed.

(** A world whose trading service answers with a malformed error body. *)
Definition malformedWorld : Sem.World :=
  {| Sem.connection := sampleConnection 1000;
     Sem.sniperoo := malformedApi;
     Sem.signatureLookup := fun _ => Ok (Some "MintX");
     Sem.rugCheck := fun _ => Ok true |}.

Lemma evaluation_rejections_witness :
  let config := sampleConfig (Some "none") 1 in
  Sem.outcome_of
    (Sem.run malformedWorld (Index.processGrpcMint config "MintX")
             Index.initialState)
  = Err SniperooHandler.includesTypeError
  /\ (checkThrew config malformedWorld "MintX" SniperooHandler.includesTypeError
      \/ purchaseThrew config malformedWorld "MintX"
           SniperooHandler.includesTypeError).
Proof.
  intros config.
  assert (H : Sem.outcome_of
                (Sem.run malformedWorld (Index.processGrpcMint config "MintX")
                         Index.initialState)
              = Err SniperooHandler.includesTypeError) by reflexivity.
  split; [exact H|].
  exact (proj1 (evaluation_rejections config malformedWorld Index.initialState
                  "MintX" "sig" SniperooHandler.includesTypeError) H).
Defined.

(* --------------------------------------------------------------------- *)
(** ** What the streaming listener hands to [processGrpcData]             *)
(* --------------------------------------------------------------------- *)

Section Forwarding.
Import GrpcListener.
Local Open Scope list_scope.

(** The updates handed to [processGrpcData], in order. *)
Fixpoint processed (acts : list Action) : list Index.SubscribeUpdate :=
  match acts with
  | [] => []
  | ProcessData data :: rest => data :: processed rest
  | _ :: rest => processed rest
  end.

(** The updates the stream emitted, in order. *)
Fixpoint payloads (events : list StreamEvent) : list Index.SubscribeUpdate :=
  match events with
  | [] => []
  | OnData data :: rest => data :: payloads rest
  | _ :: rest => payloads rest
  end.

Lemma processed_app a b : processed (a ++ b) = processed a ++ processed b.
Proof.
  induction a as [|x a IH]; [reflexivity|].
  destruct x; cbn; rewrite ?IH; reflexivity.
Qed.

Lemma listen_processed events p :
  processed (fst (listen events p)) = payloads events.
Proof.
  revert p. induction events as [|ev rest IH]; intros p; [reflexivity|].
  cbn [listen]. destruct (onEvent ev p) as [p' acts] eqn:Hev.
  specialize (IH p'). destruct (listen rest p') as [acts' final].
  cbn [fst] in *. rewrite !processed_app, IH.
  destruct ev, p; cbn in Hev; inversion Hev; subst; reflexivity.
Qed.

Lemma listen_pending_iff events :
  snd (listen events Pending) = Pending <-> forallb is_data events = true.
Proof.
  induction events as [|ev rest IH]; [cbn; tauto|].
  cbn [listen forallb].
  destruct ev as [data|error| |]; cbn [onEvent settle_with is_data andb].
  - destruct (listen rest Pending) as [acts' final]. exact IH.
  - pose proof (listen_settled rest (Rejected error)) as Hs.
    destruct (listen rest (Rejected error)) as [acts' final]. cbn in *.
    rewrite Hs by discriminate. split; discriminate.
  - pose proof (listen_settled rest Resolved) as Hs.
    destruct (listen rest Resolved) as [acts' final]. cbn in *.
    rewrite Hs by discriminate. split; discriminate.
  - pose proof (listen_settled rest Resolved) as Hs.
    destruct (listen rest Resolved) as [acts' final]. cbn in *.
    rewrite Hs by discriminate. split; discriminate.
Qed.

End Forwarding.

(** X20.  Once the subscription is written, every update the stream
    emits is handed to [processGrpcData], in order and exactly once, also
    after an error, an end or a close: the [data] handler is never
    removed.  [startGrpcListener] stays suspended exactly as long as the
    stream has emitted nothing but data.  When the write fails, or
    [subscribe] itself rejects, no update is processed; and the process
    exits through the fatal handler only in the latter case. *)
Theorem grpc_data_forwarding :
  forall (programIds : list string) (subscribe : result unit)
         (write : option JsError) (events : list GrpcListener.StreamEvent),
    let out := GrpcListener.main programIds subscribe write events in
    processed (fst out)
    = (match subscribe, write with
       | Ok _, None => payloads events
       | _, _ => []
       end)
    /\ (snd out = GrpcListener.Listening <->
        (exists u, subscribe = Ok u) /\ write = None
        /\ forallb GrpcListener.is_data events = true)
    /\ (GrpcListener.exits (fst out) = true <-> exists e, subscribe = Err e).
Proof.
  intros programIds subscribe write events out. subst out.
  unfold GrpcListener.main, GrpcListener.startGrpcListener.
  destruct subscribe as [[]|e].
  2: { cbn. split; [reflexivity|]. split.
       - split; [discriminate | intros [[u Hu] _]; discriminate].
       - split; eauto. }
  destruct write as [e|].
  { cbn. split; [reflexivity|]. split.
    - split; [discriminate | intros (_ & H & _); discriminate].
    - split; [discriminate | intros [e' He']; discriminate]. }
  pose proof (listen_processed events GrpcListener.Pending) as Hproc.
  pose proof (listen_pending_iff events) as Hpend.
  destruct (listen_no_subscribe events GrpcListener.Pending) as [_ Hexit].
  destruct (GrpcListener.listen events GrpcListener.Pending) as [acts final].
  cbn [fst snd] in *. unfold GrpcListener.exits in *.
  assert (Hfinal : (match final with
                    | GrpcListener.Pending => GrpcListener.Listening
                    | _ => GrpcListener.Returned
                    end) = GrpcListener.Listening <-> final = GrpcListener.Pending)
    by (destruct final; split; congruence).
  destruct final; cbn [fst snd processed];
    (split; [exact Hproc|]); (split;
      [ rewrite Hfinal, Hpend; split;
        [ intros H; repeat split; eauto | intros (_ & _ & H); exact H ]
      | cbn; rewrite Hexit; split;
        [ discriminate | intros [e' He']; discriminate ] ]).
Qed.

(* --------------------------------------------------------------------- *)
(** ** What is subscribed to and what is evaluated                        *)
(* --------------------------------------------------------------------- *)

Lemma processGrpcData_untagged config data :
  existsb (String.eqb "pumpswap") (Index.filters data) = false ->
  Index.processGrpcData config data = Index.Ret tt.
Proof.
  intros Htag. unfold Index.processGrpcData.
  rewrite Htag. cbn [negb]. now rewrite orb_true_r.
Qed.

(** X21.  The request made by [createSubscribeRequest] registers one
    filter, on transactions that include one of the given program ids,
    and nothing else; and [processGrpcData] ignores every update that is
    not tagged with the name of that filter.  The name written in the one
    function is the name tested in the other. *)
Theorem subscription_tag_consistency :
  forall (config : Index.Config) (programIds : list string)
         (data : Index.SubscribeUpdate),
    let request := GrpcManager.createSubscribeRequest programIds in
    ((exists name f,
        In (name, f) (GrpcManager.transactions request)
        /\ In name (Index.filters data))
     \/ Index.processGrpcData config data = Index.Ret tt)
    /\ (forall name f,
          In (name, f) (GrpcManager.transactions request) ->
          GrpcManager.accountInclude f = programIds
          /\ GrpcManager.accountExclude f = []
          /\ GrpcManager.accountRequired f = [])
    /\ List.length (GrpcManager.transactions request) = 1%nat
    /\ (GrpcManager.accounts request ++ GrpcManager.slots request
        ++ GrpcManager.transactionsStatus request ++ GrpcManager.entry request
        ++ GrpcManager.blocks request ++ GrpcManager.blocksMeta request = [])%list.
Proof.
  intros config programIds data request. split; [|split; [|split]].
  - destruct (existsb (String.eqb "pumpswap") (Index.filters data)) eqn:Htag.
    + left. apply existsb_exists in Htag. destruct Htag as (tag & Hin & Heq).
      apply String.eqb_eq in Heq. subst tag.
      eexists _, _. split; [left; reflexivity | exact Hin].
    + right. now apply processGrpcData_untagged.
  - intros name f [[= <- <-] | []]. repeat split.
  - reflexivity.
  - reflexivity.
Qed.

(* --------------------------------------------------------------------- *)
(** ** Start-up                                                           *)
(* --------------------------------------------------------------------- *)

(** X22.  The transport is chosen by [token_stream.mode]: the socket
    listener when the field is missing, empty or "wss", the streaming
    listener when it is "grpc", and for any other value nothing is
    started: the module logs that the mode is invalid and exits. *)
Theorem stream_mode_dispatch :
  forall (config : Index.Config),
    let mode := Index.token_stream_mode config in
    (Startup.start config = Startup.WebSocketListenerStarted <->
     unspecified mode \/ mode = Some "wss")
    /\ (Startup.start config = Startup.GrpcListenerStarted <->
        mode = Some "grpc")
    /\ (Startup.start config = Startup.InvalidStreamMode <->
        exists s, mode = Some s /\ s <> "" /\ s <> "grpc" /\ s <> "wss").
Proof.
  intros config mode. unfold Startup.start, Index.STREAM_MODE, unspecified.
  fold mode. destruct mode as [s|]; cbn.
  2: { repeat split; try discriminate; auto.
       - intros [s (H & _)]. discriminate. }
  unfold JsString.truthy.
  destruct (String.eqb s "") eqn:Hempty; cbn.
  { apply String.eqb_eq in Hempty. subst s. cbn.
    repeat split; try discriminate; auto.
    intros [s (H & Hs & _)]. injection H as <-. contradiction. }
  destruct (String.eqb s "grpc") eqn:Hgrpc.
  { apply String.eqb_eq in Hgrpc. subst s.
    repeat split; try discriminate; auto.
    - intros [[H|H]|H]; discriminate.
    - intros [s (H & _ & Hs & _)]. injection H as <-. contradiction. }
  destruct (String.eqb s "wss") eqn:Hwss.
  { apply String.eqb_eq in Hwss. subst s.
    repeat split; try discriminate; auto.
    intros [s (H & _ & _ & Hs)]. injection H as <-. contradiction. }
  apply String.eqb_neq in Hempty, Hgrpc, Hwss.
  repeat split; try discriminate.
  - intros [[H|H]|H]; congruence.
  - intros H; congruence.
  - intros _. exists s. auto.
Qed.

Section Subscriptions.
Import Index.

Lemma enabled_pool_subscribed config pool :
  In pool (liquidity_pool config) -> pool_enabled pool = true ->
  exists request,
    In request (Startup.onOpen config)
    /\ Startup.id request = pool_id pool
    /\ Startup.mentions request = [pool_program pool]
    /\ Startup.method request = "logsSubscribe".
Proof.
  intros Hin Hen. eexists. split.
  - unfold Startup.onOpen. apply in_map. apply filter_In. split; eassumption.
  - repeat split.
Qed.

End Subscriptions.

(** X23.  When the socket opens, one [logsSubscribe] request is sent for
    each enabled pool, for the logs that mention its program.  A message
    starts an evaluation only if one of its log lines contains the
    instruction of a pool for which such a request was sent; with no pool
    enabled nothing is requested and no message starts an evaluation. *)
Theorem admitted_message_was_subscribed :
  forall (config : Index.Config) (data : result Index.ParsedData)
         (st : Index.State),
    (forall task,
       snd (Sem.wssHandler config data st) = Some task ->
       exists parsedData logs log pool request,
         data = Ok parsedData
         /\ Index.pd_logs parsedData = Some logs
         /\ In (Some log) logs
         /\ In pool (Index.liquidity_pool config)
         /\ Index.pool_enabled pool = true
         /\ JsString.includes log (Index.pool_instruction pool) = true
         /\ In request (Startup.onOpen config)
         /\ Startup.id request = Index.pool_id pool
         /\ Startup.mentions request = [Index.pool_program pool]
         /\ Startup.method request = "logsSubscribe")
    /\ List.length (Startup.onOpen config)
       = List.length (filter Index.pool_enabled (Index.liquidity_pool config))
    /\ (Startup.onOpen config = [] ->
        snd (Sem.wssHandler config data st) = None).
Proof.
  intros config data st.
  assert (Hsub : forall task,
    snd (Sem.wssHandler config data st) = Some task ->
    exists parsedData logs log pool request,
      data = Ok parsedData
      /\ Index.pd_logs parsedData = Some logs
      /\ In (Some log) logs
      /\ In pool (Index.liquidity_pool config)
      /\ Index.pool_enabled pool = true
      /\ JsString.includes log (Index.pool_instruction pool) = true
      /\ In request (Startup.onOpen config)
      /\ Startup.id request = Index.pool_id pool
      /\ Startup.mentions request = [Index.pool_program pool]
      /\ Startup.method request = "logsSubscribe").
  { intros task Hadm.
    destruct (admitted_is_create config data st task Hadm)
      as (pd & signature & -> & Hcreate & _).
    destruct Hcreate as (_ & _ & _ & _ & logs & Hlogs & Hex).
    apply existsb_exists in Hex. destruct Hex as ([log|] & Hlog & Hinc);
      [|discriminate].
    apply existsb_exists in Hinc. destruct Hinc as (instruction & Hin & Hinc).
    apply in_map_iff in Hin. destruct Hin as (pool & <- & Hpool).
    apply filter_In in Hpool. destruct Hpool as [Hpool Hen].
    destruct (enabled_pool_subscribed config pool Hpool Hen)
      as (request & Hreq & Hid & Hment & Hmeth).
    exists pd, logs, log, pool, request. repeat split; assumption. }
  split; [exact Hsub|]. split.
  - unfold Startup.onOpen, Index.WSS_SUBSCRIBE_LP. apply length_map.
  - intros Hnone.
    destruct (snd (Sem.wssHandler config data st)) as [task|] eqn:Hadm;
      [|reflexivity].
    destruct (Hsub task eq_refl)
      as (_ & _ & _ & _ & request & _ & _ & _ & _ & _ & _ & Hreq & _).
    rewrite Hnone in Hreq. contradiction.
Qed.

Lemma admitted_message_was_subscribed_witness :
  let config := sampleConfig (Some "snipe") 1 in
  snd (Sem.wssHandler config (Ok sampleNotification) Index.initialState)
  = Some (Index.evaluation config "sig")
  /\ exists parsedData logs log pool request,
       Ok sampleNotification = Ok parsedData
       /\ Index.pd_logs parsedData = Some logs
       /\ In (Some log) logs
       /\ In pool (Index.liquidity_pool config)
       /\ Index.pool_enabled pool = true
       /\ JsString.includes log (Index.pool_instruction pool) = true
       /\ In request (Startup.onOpen config)
       /\ Startup.id request = Index.pool_id pool
       /\ Startup.mentions request = [Index.pool_program pool]
       /\ Startup.method request = "logsSubscribe".
Proof.
  intros config.
  assert (H : snd (Sem.wssHandler config (Ok sampleNotification)
                                  Index.initialState)
              = Some (Index.evaluation config "sig")) by reflexivity.
  split; [exact H|].
  exact (proj1 (admitted_message_was_subscribed config (Ok sampleNotification)
                  Index.initialState)
               (Index.evaluation config "sig") H).
Defined.

(* --------------------------------------------------------------------- *)
(** ** The suffix test of the full check                                  *)
(* --------------------------------------------------------------------- *)

Section SuffixTest.
Import JsString.

(** The string consists of white space only. *)
Fixpoint blank (s : string) : bool :=
  match s with
  | EmptyString => true
  | String c t => isWhiteSpace c && blank t
  end.

Lemma isWhiteSpace_lowerChar c : isWhiteSpace (lowerChar c) = isWhiteSpace c.
Proof. destruct c as [[] [] [] [] [] [] [] []]; reflexivity. Qed.

Lemma toLowerCase_trimStart s :
  toLowerCase (trimStart s) = trimStart (toLowerCase s).
Proof.
  induction s as [|c t IH]; [reflexivity|].
  cbn [trimStart toLowerCase]. rewrite isWhiteSpace_lowerChar.
  destruct (isWhiteSpace c); [exact IH | reflexivity].
Qed.

Lemma toLowerCase_trimEnd s :
  toLowerCase (trimEnd s) = trimEnd (toLowerCase s).
Proof.
  induction s as [|c t IH]; [reflexivity|].
  cbn [trimEnd toLowerCase]. rewrite <- IH, isWhiteSpace_lowerChar.
  destruct (trimEnd t) as [|c' t']; cbn [toLowerCase];
    [destruct (isWhiteSpace c)|]; reflexivity.
Qed.

Lemma trimStart_blank pad s :
  blank pad = true -> trimStart (pad ++ s) = trimStart s.
Proof.
  induction pad as [|c pad IH]; cbn; [reflexivity|].
  intros H. apply andb_true_iff in H. destruct H as [Hc Hpad].
  rewrite Hc. now apply IH.
Qed.

Lemma trimStart_all_blank pad : blank pad = true -> trimStart pad = "".
Proof.
  induction pad as [|c pad IH]; cbn; [reflexivity|].
  intros H. apply andb_true_iff in H. destruct H as [Hc Hpad].
  rewrite Hc. now apply IH.
Qed.

Lemma trimEnd_all_blank pad : blank pad = true -> trimEnd pad = "".
Proof.
  induction pad as [|c pad IH]; [reflexivity|].
  cbn. intros H. apply andb_true_iff in H. destruct H as [Hc Hpad].
  rewrite (IH Hpad), Hc. reflexivity.
Qed.

Lemma trimEnd_blank s pad :
  blank pad = true -> trimEnd (s ++ pad) = trimEnd s.
Proof.
  intros Hpad.
  induction s as [|c t IH]; cbn [append trimEnd];
    [now apply trimEnd_all_blank|].
  now rewrite IH.
Qed.

Lemma trim_blank pad1 s pad2 :
  blank pad1 = true -> blank pad2 = true ->
  trim (pad1 ++ s ++ pad2) = trim s.
Proof.
  intros H1 H2. unfold trim. rewrite (trimStart_blank pad1 _ H1).
  induction s as [|c t IH]; cbn [append trimStart].
  - now rewrite (trimStart_all_blank pad2 H2).
  - destruct (isWhiteSpace c); [exact IH|].
    change (String c (t ++ pad2)) with (String c t ++ pad2).
    now apply trimEnd_blank.
Qed.

Lemma endsWith_append s suf : endsWith (s ++ suf) suf = true.
Proof.
  induction s as [|c t IH]; cbn [append].
  - destruct suf; cbn; rewrite ?Ascii.eqb_refl, ?String.eqb_refl; reflexivity.
  - cbn [endsWith]. rewrite IH. apply orb_true_r.
Qed.

Lemma toLowerCase_append a b :
  toLowerCase (a ++ b) = toLowerCase a ++ toLowerCase b.
Proof. induction a as [|c a IH]; cbn; [reflexivity | now rewrite IH]. Qed.

Lemma trim_keeps_suffix s (c : ascii) suf :
  isWhiteSpace c = false ->
  trimEnd (String c suf) = String c suf ->
  exists body, trim (s ++ String c suf) = body ++ String c suf.
Proof.
  intros Hc Hsuf. unfold trim.
  assert (Hend : forall body, trimEnd (body ++ String c suf) = body ++ String c suf).
  { induction body as [|c' body IH]; cbn [append]; [exact Hsuf|].
    cbn [trimEnd]. rewrite IH.
    destruct body; reflexivity. }
  induction s as [|c' t IH]; cbn [append trimStart].
  - rewrite Hc. exists "". exact Hsuf.
  - destruct (isWhiteSpace c'); [exact IH|].
    exists (String c' t). exact (Hend (String c' t)).
Qed.

End SuffixTest.

(** X24.  The suffix test of the full check looks at the candidate with
    surrounding white space removed and letters lower-cased: candidates
    that differ only in case or in white space around them get the same
    verdict, and with [ignore_ends_with_pump] set every candidate whose
    letters end in "pump", in whatever case, is rejected. *)
Theorem suffix_test_insensitive :
  forall (config : Index.Config) (m m' pad1 pad2 : string),
    blank pad1 = true -> blank pad2 = true ->
    JsString.toLowerCase m' = JsString.toLowerCase m ->
    suffixRejected config (pad1 ++ m' ++ pad2) = suffixRejected config m
    /\ (forall body suffix,
          JsString.toLowerCase suffix = "pump" ->
          m = body ++ suffix ->
          suffixRejected config (pad1 ++ m' ++ pad2)
          = Index.ignore_ends_with_pump config).
Proof.
  intros config m m' pad1 pad2 H1 H2 Hcase.
  assert (Hsame : suffixRejected config (pad1 ++ m' ++ pad2)
                  = suffixRejected config m).
  { unfold suffixRejected. rewrite (trim_blank pad1 m' pad2 H1 H2).
    unfold JsString.trim.
    rewrite !toLowerCase_trimEnd, !toLowerCase_trimStart, Hcase.
    reflexivity. }
  split; [exact Hsame|].
  intros body suffix Hsuffix ->. rewrite Hsame.
  unfold suffixRejected, JsString.trim.
  rewrite toLowerCase_trimEnd, toLowerCase_trimStart, toLowerCase_append, Hsuffix.
  destruct (trim_keeps_suffix (JsString.toLowerCase body) "p" "ump"
              eq_refl eq_refl) as [kept Hkept].
  unfold JsString.trim in Hkept. rewrite Hkept.
  now rewrite endsWith_append.
Qed.

Lemma suffix_test_insensitive_witness :
  let config := sampleConfig (Some "full") 1 in
  let tab := String (ascii_of_nat 9) EmptyString in
  blank " " = true /\ blank tab = true
  /\ JsString.toLowerCase "AbcPUMP" = JsString.toLowerCase "abcpump"
  /\ suffixRejected config (" " ++ "AbcPUMP" ++ tab) = suffixRejected config "abcpump"
  /\ suffixRejected config (" " ++ "AbcPUMP" ++ tab) = true.
Proof.
  intros config tab.
  assert (H1 : blank " " = true) by reflexivity.
  assert (H2 : blank tab = true) by reflexivity.
  assert (H3 : JsString.toLowerCase "AbcPUMP" = JsString.toLowerCase "abcpump")
    by reflexivity.
  pose proof (suffix_test_insensitive config "abcpump" "AbcPUMP" " " tab H1 H2 H3)
    as [Ha Hb].
  repeat (split; [assumption|]).
  exact (Hb "abc" "pump" eq_refl eq_refl).
Defined.
